(** * Ephemeral-sandbox orchestrator: a shallow embedding and its properties

    The development follows the TypeScript sources:
    - the agent runtime glue ([getEffectiveSettings], [processMessage] and the
      process-wide [activeSessions] map),
    - the host-side configuration loader ([loadAgentConfig], [getSnapshotId]),
    - the sandbox manager ([pollHealth], [setupSandbox], [executeInSandbox],
      [executeInSandboxStream]),
    - the orchestrator's HTTP handlers ([POST /process], [POST /process/stream]).

    Conventions.  A JavaScript [number] that holds a count or a duration in
    milliseconds is an integer ([Z]); an optional field is an [option]; a
    [Record<string, T>] or [Map<string, T>] used as a dictionary is a
    [gmap string T]; an array is a [list].  Code that talks to the provider,
    to the network or to the clock is written in a small monad [M] over a
    [World] (virtual clock, log of issued operations) and reads the replies
    of its collaborators from an environment record.  The clock is the
    value of [Date.now()]: it moves while an awaited operation is under
    way, while a timer runs, and while the host loads its files; code
    between two such points takes no time. *)

From Stdlib Require Import ZArith Lia Ascii String.
From stdpp Require Import gmap strings list pretty.

Open Scope Z_scope.

(** ** JavaScript conventions *)

Module Js.

(** Truthiness of an optional string: [undefined] and [""] are falsy. *)
Definition truthy (s : option string) : option string :=
  match s with
  | Some v => if decide (v = "") then None else Some v
  | None => None
  end.

(** [a || b] on an optional number: [undefined] and [0] select [b]. *)
Definition num_or (a : option Z) (b : Z) : Z :=
  match a with
  | Some v => if decide (v = 0) then b else v
  | None => b
  end.

Definition nl : string := String "010"%char "".

(** [parts.join(sep)] *)
Fixpoint join (sep : string) (parts : list string) : string :=
  match parts with
  | [] => ""
  | [p] => p
  | p :: rest => p +:+ sep +:+ join sep rest
  end.

Definition is_space (c : ascii) : bool :=
  bool_decide (c ∈ [" "%char; "009"%char; "010"%char; "011"%char;
                    "012"%char; "013"%char]).

Fixpoint trimStart (s : string) : string :=
  match s with
  | String c rest => if is_space c then trimStart rest else s
  | EmptyString => EmptyString
  end.

(** [s.trim()] on ASCII white space *)
Definition trim (s : string) : string :=
  String.rev (trimStart (String.rev (trimStart s))).

(** The quotation mark. *)
Definition dquote : string := String "034"%char "".

(** [path.join(dir, rest)] for an absolute directory as [process.cwd()]
    gives it and a relative path without [.], [..], doubled or final
    separators: nothing is left to normalise. *)
Definition pathJoin (dir rest : string) : string :=
  if decide (dir = "/") then "/" +:+ rest else dir +:+ "/" +:+ rest.

End Js.

(** ** Errors

    The sources throw plain [Error] objects that differ only in their
    message; each throw site is a constructor here and [message] renders the
    text.  [classify] gives the name under which the design documents refer
    to the failure. *)

Inductive Err : Type :=
| AgentDirNotFound (agentDir : string)
| ClaudeMdNotFound (agentId : string)
| AgentConfigJsonNotFound (agentId : string)
| AgentConfigJsonInvalid (detail : string)
| AgentBundleNotFound (bundlePath : string)
| ProviderRejected (detail : string)
| NpmInstallFailed (stderr : string)
| HealthCheckTimedOut (timeoutMs : Z) (healthUrl : string)
| FetchRejected (detail : string)
| BodyUnreadable (detail : string)
| AgentProcessRequestFailed (status : Z) (errorText : string)
| AgentStreamRequestFailed (status : Z) (errorText : string)
| SdkThrew (detail : string).

Inductive ErrClass : Type :=
| ConfigNotFound | ProvisioningFailed | HealthTimeout | UpstreamError | Unknown.

Definition classify (e : Err) : ErrClass :=
  match e with
  | AgentDirNotFound _ | ClaudeMdNotFound _ | AgentConfigJsonNotFound _ =>
      ConfigNotFound
  | NpmInstallFailed _ => ProvisioningFailed
  | HealthCheckTimedOut _ _ => HealthTimeout
  | AgentProcessRequestFailed _ _ | AgentStreamRequestFailed _ _ =>
      UpstreamError
  | _ => Unknown
  end.

(** [error.message] *)
Definition message (e : Err) : string :=
  match e with
  | AgentDirNotFound d => "Agent config directory not found: " +:+ d
  | ClaudeMdNotFound a => "CLAUDE.md not found for agent: " +:+ a
  | AgentConfigJsonNotFound a => "agent-config.json not found for agent: " +:+ a
  | AgentConfigJsonInvalid d => d
  | AgentBundleNotFound p =>
      "Agent bundle not found at " +:+ p +:+ ". Run " +:+ Js.dquote
        +:+ "npm run build:agent" +:+ Js.dquote +:+ " first."
  | ProviderRejected d => d
  | NpmInstallFailed s => "npm install failed: " +:+ s
  | HealthCheckTimedOut t u =>
      "[Sandbox] Health check timed out after " +:+ pretty t +:+ "ms at " +:+ u
  | FetchRejected d => d
  | BodyUnreadable d => d
  | AgentProcessRequestFailed st t =>
      "Agent process request failed (" +:+ pretty st +:+ "): " +:+ t
  | AgentStreamRequestFailed st t =>
      "Agent stream request failed (" +:+ pretty st +:+ "): " +:+ t
  | SdkThrew d => d
  end.

(** What a call comes to: it returns, it throws, or (for the one loop of the
    program) the unrolling bound of the embedding was reached. *)
Inductive Outcome (A : Type) : Type :=
| Returned (a : A)
| Thrown (e : Err)
| OutOfFuel.
Arguments Returned {A} a.
Arguments Thrown {A} e.
Arguments OutOfFuel {A}.

(** ** The agent runtime glue *)

Module Agent.

Record McpServerConfig : Type := { mcp_command : string }.

Record ToolSettings : Type := {
  ts_allowedTools : option (list string);
  ts_disabledTools : option (list string)
}.

Record McpSettingsOverride : Type := {
  ms_enabledServers : option (list string);
  ms_disabledServers : option (list string)
}.

Record ModalityRuntimeSettings : Type := {
  mrs_maxThinkingTokens : option Z;
  mrs_maxTurns : option Z;
  mrs_toolSettings : option ToolSettings;
  mrs_mcpSettings : option McpSettingsOverride
}.

Record AgentConfig : Type := {
  cfg_allowedTools : list string;
  cfg_mcpServers : gmap string McpServerConfig;
  cfg_additionalInstructions : string;
  cfg_maxTurns : Z;
  cfg_modalitySettings : option (gmap string ModalityRuntimeSettings)
}.

Record EffectiveSettings : Type := {
  eff_maxTurns : Z;
  eff_maxThinkingTokens : Z;
  eff_allowedTools : list string;
  eff_mcpServers : gmap string McpServerConfig
}.

(** The configuration used when [agent-config.json] is absent or broken. *)
Definition defaultAgentConfig : AgentConfig :=
  {| cfg_allowedTools := ["Read"; "Glob"; "Grep"];
     cfg_mcpServers := ∅;
     cfg_additionalInstructions := "";
     cfg_maxTurns := 20;
     cfg_modalitySettings := None |}.

(** [names.has(name)] for [names = new Set(list)] *)
Definition has (names : list string) (name : string) : bool :=
  bool_decide (name ∈ names).

Definition keepServers (keep : string -> bool)
    (servers : gmap string McpServerConfig) : gmap string McpServerConfig :=
  filter (fun entry => keep entry.1 = true) servers.

(** [config.modalitySettings?.[modality]] is the lookup of an own key of the
    parsed JSON object.  (A name that JavaScript resolves on the prototype,
    such as [constructor], yields an object without any of the settings
    fields, which gives the same result as no override.) *)
Definition getEffectiveSettings (config : AgentConfig)
    (modality : option string) : EffectiveSettings :=
  let modalitySettings :=
    match Js.truthy modality with
    | Some m => cfg_modalitySettings config ≫= (fun tbl => tbl !! m)
    | None => None
    end in
  let maxTurns := cfg_maxTurns config in
  let maxThinkingTokens := 10000 in
  let '(maxTurns, maxThinkingTokens) :=
    match modalitySettings with
    | Some ms =>
        (default maxTurns (mrs_maxTurns ms),
         default maxThinkingTokens (mrs_maxThinkingTokens ms))
    | None =>
        match Js.truthy modality with
        | Some m =>
            if decide (m = "chat") then (Z.min maxTurns 15, 5000)
            else if decide (m = "voice") then (Z.min maxTurns 10, 5000)
            else (maxTurns, maxThinkingTokens)
        | None => (maxTurns, maxThinkingTokens)
        end
    end in
  let toolSettings := modalitySettings ≫= mrs_toolSettings in
  let allowedTools := cfg_allowedTools config in
  let allowedTools :=
    match toolSettings ≫= ts_allowedTools with
    | Some explicit => explicit
    | None => allowedTools
    end in
  let allowedTools :=
    match toolSettings ≫= ts_disabledTools with
    | Some disabled =>
        List.filter (fun t => negb (has disabled t)) allowedTools
    | None => allowedTools
    end in
  let mcpSettings := modalitySettings ≫= mrs_mcpSettings in
  let mcpServers := cfg_mcpServers config in
  let mcpServers :=
    match mcpSettings ≫= ms_enabledServers with
    | Some enabled => keepServers (has enabled) mcpServers
    | None => mcpServers
    end in
  let mcpServers :=
    match mcpSettings ≫= ms_disabledServers with
    | Some disabled =>
        keepServers (fun name => negb (has disabled name)) mcpServers
    | None => mcpServers
    end in
  {| eff_maxTurns := maxTurns;
     eff_maxThinkingTokens := maxThinkingTokens;
     eff_allowedTools := allowedTools;
     eff_mcpServers := mcpServers |}.

(** *** Messages of the agent SDK and the result of a turn *)

Inductive ConfidenceLevel : Type := high | medium | low.

Record ResponseMetadata : Type := {
  md_confidence : ConfidenceLevel;
  md_guidesUsed : list string;
  md_flags : list string
}.

Record AgentResponse : Type := {
  ar_response : string;
  ar_metadata : ResponseMetadata
}.

Inductive ContentBlock : Type :=
| TextBlock (text : string)
| ThinkingBlock (thinking : string)
| ToolUseBlock (id name : string).

Record SdkUsage : Type := {
  input_tokens : option Z;
  output_tokens : option Z
}.

Inductive SdkMessage : Type :=
| SystemInit (session_id : option string)
| SystemOther
| AssistantMsg (content : list ContentBlock)
| UserMsg
| StreamEvent
| ResultSuccess (usage : option SdkUsage) (total_cost_usd : option Z)
    (structured_output : option AgentResponse)
| ResultError (subtype : string).

(** One run of [query]: the messages the iterator yields and, when the
    iteration ends by a rejection, its message. *)
Record SdkRun : Type := {
  sdk_messages : list SdkMessage;
  sdk_rejects : option string
}.

Record QueryOptions : Type := {
  q_prompt : string;
  q_appendSystemPrompt : option string;
  q_allowedTools : list string;
  q_mcpServers : gmap string McpServerConfig;
  q_maxTurns : Z;
  q_maxThinkingTokens : Z;
  q_resume : option string
}.

Record Metadata : Type := {
  meta_customerEmail : option string;
  meta_modality : option string
}.

Record ProcessMessageInput : Type := {
  in_message : string;
  in_conversationId : option string;
  in_customerId : option string;
  in_metadata : option Metadata;
  in_requestId : string
}.

Record Usage : Type := {
  inputTokens : Z;
  outputTokens : Z;
  totalCostUsd : Z
}.

Record ProcessMessageResult : Type := {
  res_response : string;
  res_guidesUsed : list string;
  res_confidence : ConfidenceLevel;
  res_toolsUsed : list string;
  res_usage : Usage;
  res_metadata : option ResponseMetadata
}.

(** The state of one agent process: the module-level [activeSessions] map,
    the cached configuration, and (for observation) the options of every
    [query] call made so far, oldest first. *)
Record Process : Type := {
  activeSessions : gmap string string;
  agentConfig : option AgentConfig;
  queries : list QueryOptions
}.

(** A process as [node server.mjs] starts it: the module initialisers have
    run, nothing else has. *)
Definition processStart : Process :=
  {| activeSessions := ∅; agentConfig := None; queries := [] |}.

(** [getAgentConfig]: the file is read once per process and cached;
    [onDisk] is what [loadAgentConfig] yields ([defaultAgentConfig] when the
    file is absent or does not parse). *)
Definition getAgentConfig (onDisk : AgentConfig) (p : Process)
    : AgentConfig * Process :=
  match agentConfig p with
  | Some c => (c, p)
  | None =>
      (onDisk,
       {| activeSessions := activeSessions p;
          agentConfig := Some onDisk;
          queries := queries p |})
  end.

Definition buildContextString (input : ProcessMessageInput) : string :=
  let contextParts : list string := [] in
  let contextParts :=
    match Js.truthy (in_conversationId input) with
    | Some c => contextParts ++ ["Conversation ID: " +:+ c]
    | None => contextParts
    end in
  let contextParts :=
    match Js.truthy (in_customerId input) with
    | Some c => contextParts ++ ["Customer ID: " +:+ c]
    | None => contextParts
    end in
  let contextParts :=
    match in_metadata input with
    | Some metadata =>
        let contextParts :=
          match Js.truthy (meta_customerEmail metadata) with
          | Some e => contextParts ++ ["Customer Email: " +:+ e]
          | None => contextParts
          end in
        match Js.truthy (meta_modality metadata) with
        | Some m => contextParts ++ ["Channel: " +:+ m]
        | None => contextParts
        end
    | None => contextParts
    end in
  match contextParts with
  | [] => ""
  | _ => "Context:" +:+ Js.nl +:+ Js.join Js.nl contextParts
           +:+ Js.nl +:+ Js.nl
  end.

Definition fallbackResponse : string :=
  "I apologize, but I encountered an issue generating a response.".

(** The local variables of [processMessage] that the loop over the SDK
    messages updates. *)
Record Locals : Type := {
  toolsUsed : list string;
  responseText : string;
  usage : Usage;
  structuredMetadata : option ResponseMetadata
}.

Definition toolNames (content : list ContentBlock) : list string :=
  omap (fun block =>
          match block with
          | ToolUseBlock _ name => Some name
          | _ => None
          end) content.

(** The body of the [for await] loop, for one message. *)
Definition onSdkMessage (conversationId : option string)
    (sdkMessage : SdkMessage) (st : Locals * gmap string string)
    : Locals * gmap string string :=
  let '(loc, sessions) := st in
  let sessions :=
    match sdkMessage, Js.truthy conversationId with
    | SystemInit sid, Some c =>
        match Js.truthy sid with
        | Some s => <[c := s]> sessions
        | None => sessions
        end
    | _, _ => sessions
    end in
  let loc :=
    match sdkMessage with
    | AssistantMsg content =>
        {| toolsUsed := toolsUsed loc ++ toolNames content;
           responseText := responseText loc;
           usage := usage loc;
           structuredMetadata := structuredMetadata loc |}
    | ResultSuccess u cost so =>
        let usage' :=
          {| inputTokens := Js.num_or (u ≫= input_tokens) 0;
             outputTokens := Js.num_or (u ≫= output_tokens) 0;
             totalCostUsd := Js.num_or cost 0 |} in
        match so with
        | Some output =>
            {| toolsUsed := toolsUsed loc;
               responseText := ar_response output;
               usage := usage';
               structuredMetadata := Some (ar_metadata output) |}
        | None =>
            {| toolsUsed := toolsUsed loc;
               responseText := fallbackResponse;
               usage := usage';
               structuredMetadata := structuredMetadata loc |}
        end
    | _ => loc
    end in
  (loc, sessions).

(** The [for await] loop over the messages of a run. *)
Definition runLoop (conversationId : option string) (msgs : list SdkMessage)
    (st : Locals * gmap string string) : Locals * gmap string string :=
  fold_left (fun st m => onSdkMessage conversationId m st) msgs st.

Definition processMessage (onDisk : AgentConfig)
    (query : QueryOptions -> SdkRun) (input : ProcessMessageInput)
    (p : Process) : Outcome ProcessMessageResult * Process :=
  let conversationId := in_conversationId input in
  let '(config, p) := getAgentConfig onDisk p in
  let modality := in_metadata input ≫= meta_modality in
  let effective := getEffectiveSettings config modality in
  let existingSessionId :=
    match Js.truthy conversationId with
    | Some c => activeSessions p !! c
    | None => None
    end in
  let contextString := buildContextString input in
  let fullPrompt :=
    if decide (contextString = "") then in_message input
    else contextString +:+ "Customer message:" +:+ Js.nl
           +:+ in_message input in
  let options :=
    {| q_prompt := fullPrompt;
       q_appendSystemPrompt :=
         Js.truthy (Some (cfg_additionalInstructions config));
       q_allowedTools := eff_allowedTools effective;
       q_mcpServers := eff_mcpServers effective;
       q_maxTurns := eff_maxTurns effective;
       q_maxThinkingTokens := eff_maxThinkingTokens effective;
       q_resume := Js.truthy existingSessionId |} in
  let run := query options in
  let locals0 :=
    {| toolsUsed := [];
       responseText := "";
       usage := {| inputTokens := 0; outputTokens := 0; totalCostUsd := 0 |};
       structuredMetadata := None |} in
  let '(loc, sessions) :=
    runLoop conversationId (sdk_messages run) (locals0, activeSessions p) in
  let p' :=
    {| activeSessions := sessions;
       agentConfig := agentConfig p;
       queries := queries p ++ [options] |} in
  match sdk_rejects run with
  | Some detail => (Thrown (SdkThrew detail), p')
  | None =>
      (Returned
         {| res_response := responseText loc;
            res_guidesUsed :=
              match structuredMetadata loc with
              | Some md => md_guidesUsed md
              | None =>
                  List.filter (fun t => bool_decide (t = "Read"))
                    (toolsUsed loc)
              end;
            res_confidence :=
              match structuredMetadata loc with
              | Some md => md_confidence md
              | None =>
                  match toolsUsed loc with
                  | [] => medium
                  | _ :: _ => high
                  end
              end;
            res_toolsUsed := toolsUsed loc;
            res_usage := usage loc;
            res_metadata := structuredMetadata loc |},
       p')
  end.

(** A turn as the orchestrator runs it: [executeInSandbox] provisions a new
    sandbox for every request, starts [node server.mjs] in it and stops the
    sandbox afterwards, so the turn meets a process in its start state. *)
Definition turnInFreshSandbox (onDisk : AgentConfig)
    (query : QueryOptions -> SdkRun) (input : ProcessMessageInput)
    : Outcome ProcessMessageResult * Process :=
  processMessage onDisk query input processStart.

(** *** Vocabulary for the properties of a turn *)

(** The tools named by the assistant messages of a run, in order. *)
Definition toolsOf (msgs : list SdkMessage) : list string :=
  flat_map (fun m => match m with
                     | AssistantMsg content => toolNames content
                     | _ => []
                     end) msgs.

(** No message is a success result that carries a structured output. *)
Definition noStructuredOutput (msgs : list SdkMessage) : Prop :=
  Forall (fun m => match m with
                   | ResultSuccess _ _ (Some _) => False
                   | _ => True
                   end) msgs.

(** The tools used in a run, read off its messages: the names of the
    tool-use blocks of the assistant messages, message by message and block
    by block. *)
Fixpoint toolUsesOfBlocks (content : list ContentBlock) : list string :=
  match content with
  | [] => []
  | ToolUseBlock _ name :: rest => name :: toolUsesOfBlocks rest
  | _ :: rest => toolUsesOfBlocks rest
  end.

Fixpoint toolUses (msgs : list SdkMessage) : list string :=
  match msgs with
  | [] => []
  | AssistantMsg content :: rest => toolUsesOfBlocks content ++ toolUses rest
  | _ :: rest => toolUses rest
  end.

(** The session id that a run leaves for a conversation: the one of its last
    [init] message that carries a non-empty id. *)
Definition capturedToken (msgs : list SdkMessage) : option string :=
  last (omap (fun m => match m with
                       | SystemInit sid => Js.truthy sid
                       | _ => None
                       end) msgs).

End Agent.

(** ** The orchestrator: configuration loader, sandbox manager, gateway *)

Module Orchestrator.

(** *** Shared types *)

(** The JSON body of a request, before validation. *)
Record RequestBody : Type := {
  body_message : option string;
  body_agentId : option string;
  body_conversationId : option string;
  body_customerId : option string;
  body_customerEmail : option string;
  body_modality : option string;
  body_gatewayContext : option string
}.

Record ProcessRequest : Type := {
  req_message : string;
  req_agentId : string;
  req_conversationId : option string;
  req_customerId : option string;
  req_customerEmail : option string;
  req_modality : option string;
  req_gatewayContext : option string
}.

Record AgentConfigBundle : Type := {
  claudeMd : string;
  agentConfigPretty : string;
  skills : gmap string string
}.

Record AgentProcessResponse : Type := {
  apr_requestId : string;
  apr_response : string;
  apr_confidence : option string;
  apr_duration : Z
}.

Record ExecutionTiming : Type := {
  sandboxCreate : Z;
  fileWrite : Z;
  serverStart : Z;
  healthPoll : Z;
  agentProcess : Z;
  total : Z
}.

Definition set_sandboxCreate (v : Z) (t : ExecutionTiming) :=
  {| sandboxCreate := v; fileWrite := fileWrite t;
     serverStart := serverStart t; healthPoll := healthPoll t;
     agentProcess := agentProcess t; total := total t |}.
Definition set_fileWrite (v : Z) (t : ExecutionTiming) :=
  {| sandboxCreate := sandboxCreate t; fileWrite := v;
     serverStart := serverStart t; healthPoll := healthPoll t;
     agentProcess := agentProcess t; total := total t |}.
Definition set_serverStart (v : Z) (t : ExecutionTiming) :=
  {| sandboxCreate := sandboxCreate t; fileWrite := fileWrite t;
     serverStart := v; healthPoll := healthPoll t;
     agentProcess := agentProcess t; total := total t |}.
Definition set_healthPoll (v : Z) (t : ExecutionTiming) :=
  {| sandboxCreate := sandboxCreate t; fileWrite := fileWrite t;
     serverStart := serverStart t; healthPoll := v;
     agentProcess := agentProcess t; total := total t |}.
Definition set_agentProcess (v : Z) (t : ExecutionTiming) :=
  {| sandboxCreate := sandboxCreate t; fileWrite := fileWrite t;
     serverStart := serverStart t; healthPoll := healthPoll t;
     agentProcess := v; total := total t |}.
Definition set_total (v : Z) (t : ExecutionTiming) :=
  {| sandboxCreate := sandboxCreate t; fileWrite := fileWrite t;
     serverStart := serverStart t; healthPoll := healthPoll t;
     agentProcess := agentProcess t; total := v |}.


(** *** The controlling host's files *)

#[local] Set Warnings "-register-all".

Inductive FsEntry : Type :=
| FsFile (name content : string)
| FsDir (name : string) (entries : list FsEntry)
| FsOther (name : string).

Inductive JsonFile : Type :=
| Parses (pretty : string)
| Malformed (detail : string).

(** [agent-configs/{agentId}/] *)
Record AgentDir : Type := {
  dir_claudeMd : option string;
  dir_agentConfigJson : option JsonFile;
  dir_skills : option (list FsEntry)
}.

(** The working directory of the orchestrator, [process.cwd()], and what
    it holds of interest: [agent-configs/], [dist/agent-server.mjs] and
    [.snapshot-id]. *)
Record Host : Type := {
  host_cwd : string;
  host_agentConfigs : gmap string AgentDir;
  host_agentBundle : option string;
  host_snapshotFile : option string
}.

Definition CONFIGS_DIR (host : Host) : string :=
  Js.pathJoin (host_cwd host) "agent-configs".
Definition AGENT_BUNDLE_PATH (host : Host) : string :=
  Js.pathJoin (host_cwd host) "dist/agent-server.mjs".

(** [skills] is a plain object: the assignment [skills[relativePath] =
    content] adds the key, except for the path [__proto__], where it
    reaches the setter of [Object.prototype], which ignores a string and
    adds no key. *)
Fixpoint loadSkillsRecursive (relativeDir : string) (entry : FsEntry)
    (skills : gmap string string) : gmap string string :=
  match entry with
  | FsFile name content =>
      if decide (relativeDir +:+ name = "__proto__") then skills
      else <[relativeDir +:+ name := content]> skills
  | FsDir name entries =>
      fold_left
        (fun acc e => loadSkillsRecursive (relativeDir +:+ name +:+ "/") e acc)
        entries skills
  | FsOther _ => skills
  end.

Definition loadAgentConfig (host : Host) (agentId : string)
    : Err + AgentConfigBundle :=
  match host_agentConfigs host !! agentId with
  | None => inl (AgentDirNotFound (Js.pathJoin (CONFIGS_DIR host) agentId))
  | Some agentDir =>
      match dir_claudeMd agentDir with
      | None => inl (ClaudeMdNotFound agentId)
      | Some md =>
          match dir_agentConfigJson agentDir with
          | None => inl (AgentConfigJsonNotFound agentId)
          | Some (Malformed detail) => inl (AgentConfigJsonInvalid detail)
          | Some (Parses pretty) =>
              let skills :=
                match dir_skills agentDir with
                | Some entries =>
                    fold_left (fun acc e => loadSkillsRecursive "" e acc)
                      entries ∅
                | None => ∅
                end in
              inr {| claudeMd := md; agentConfigPretty := pretty;
                     skills := skills |}
          end
      end
  end.

Definition loadAgentBundle (host : Host) : Err + string :=
  match host_agentBundle host with
  | None => inl (AgentBundleNotFound (AGENT_BUNDLE_PATH host))
  | Some text => inr text
  end.

Definition getSnapshotId (host : Host) : option string :=
  match host_snapshotFile host with
  | None => None
  | Some text => Js.truthy (Some (Js.trim text))
  end.

(** [JSON.stringify({ name: .., type: .., dependencies: {..} }, null, 2)] *)
Definition jsonMember (indent key value : string) : string :=
  indent +:+ Js.dquote +:+ key +:+ Js.dquote +:+ ": "
    +:+ Js.dquote +:+ value +:+ Js.dquote.

Definition packageJson : string :=
  Js.join Js.nl
    ["{";
     jsonMember "  " "name" "sandbox-agent" +:+ ",";
     jsonMember "  " "type" "module" +:+ ",";
     "  " +:+ Js.dquote +:+ "dependencies" +:+ Js.dquote +:+ ": {";
     jsonMember "    " "@anthropic-ai/claude-agent-sdk" "^0.1.56" +:+ ",";
     jsonMember "    " "@anthropic-ai/sdk" "^0.71.2" +:+ ",";
     jsonMember "    " "@hono/node-server" "^1.13.7" +:+ ",";
     jsonMember "    " "hono" "^4.6.0" +:+ ",";
     jsonMember "    " "dotenv" "^17.2.3" +:+ ",";
     jsonMember "    " "uuid" "^13.0.0";
     "  }";
     "}"].

Definition buildSandboxFiles (agentBundle : string)
    (agentConfig : AgentConfigBundle) : list (string * string) :=
  let fileMap : list (string * string) :=
    [("server.mjs", agentBundle);
     ("CLAUDE.md", claudeMd agentConfig);
     ("agent-config.json", agentConfigPretty agentConfig);
     ("package.json", packageJson)] in
  fileMap ++
    map (fun kv => (".claude/skills/" +:+ kv.1, kv.2))
      (map_to_list (skills agentConfig)).

(** *** Collaborators: the sandbox provider, the network, the clock *)

(** The reply to an awaited operation: how long it takes and whether the
    promise resolves or rejects.  Durations are natural numbers of
    milliseconds: the clock never runs backwards. *)
Inductive Reply (A : Type) : Type :=
| Resolves (ms : N) (a : A)
| Rejects (ms : N) (detail : string).
Arguments Resolves {A} ms a.
Arguments Rejects {A} ms detail.

(** What the sandbox's [/health] does on one attempt. *)
Inductive HealthReply : Type :=
| Refused (ms : N)
| Answers (ms : N) (ok : bool) (jsonBody : bool)
| Hangs.

(** A byte stream as the sandbox sends it: its chunks, and whether it ends
    by an error instead of a close. *)
Record Upstream : Type := {
  up_chunks : list string;
  up_errors : bool
}.

Record ProcessResponse : Type := {
  pr_ok : bool;
  pr_status : Z;
  pr_text : Reply string;
  pr_json : Reply AgentProcessResponse
}.

Record StreamResponse : Type := {
  sr_ok : bool;
  sr_status : Z;
  sr_body : option Upstream;
  sr_text : Reply string
}.

Record Env : Type := {
  env_host : Host;
  env_hostLoad : N;
  env_create : Reply string;
  env_writeFiles : Reply unit;
  env_install : Reply Z;
  env_installStderr : Reply string;
  env_start : Reply unit;
  env_domain : string;
  env_health : nat -> HealthReply;
  env_timerLag : nat -> N;
  env_process : Reply ProcessResponse;
  env_stream : Reply StreamResponse;
  env_stop : Reply unit
}.

Inductive Event : Type :=
| SandboxCreate (snapshotId : option string)
| WriteFiles (sandbox : string) (paths : list string)
| RunCommand (sandbox cmd : string) (args : list string) (detached : bool)
| ReadStderr (sandbox : string)
| Domain (sandbox : string) (port : Z)
| Stop (sandbox : string)
| Fetch (method url : string).

(** A readable stream of the platform: the chunks not yet read, whether it
    ends by an error, and whether a reader holds its lock. *)
Record ReadableStream : Type := {
  rs_chunks : list string;
  rs_errors : bool;
  rs_locked : bool
}.

Inductive Sink : Type :=
| Discard
| IntoReadable (id : nat).

(** A [pipeTo] promise that has not settled, with the sandbox that its
    [finally] callback stops. *)
Record Pipe : Type := {
  pipe_source : nat;
  pipe_sink : Sink;
  pipe_started : bool;
  pipe_sandbox : string
}.

Record World : Type := {
  now : Z;
  log : list Event;
  polls : nat;
  timers : nat;
  streams : list ReadableStream;
  pipes : list Pipe
}.

Definition boot (t0 : Z) : World :=
  {| now := t0; log := []; polls := 0; timers := 0;
     streams := []; pipes := [] |}.

Definition M (A : Type) : Type := World -> Outcome A * World.

Definition ret {A} (a : A) : M A := fun w => (Returned a, w).
Definition throw {A} (e : Err) : M A := fun w => (Thrown e, w).
Definition bind {A B} (m : M A) (k : A -> M B) : M B :=
  fun w =>
    match m w with
    | (Returned a, w') => k a w'
    | (Thrown e, w') => (Thrown e, w')
    | (OutOfFuel, w') => (OutOfFuel, w')
    end.

(** [try { m } catch (e) { handler e }] *)
Definition catch {A} (m : M A) (handler : Err -> M A) : M A :=
  fun w =>
    match m w with
    | (Thrown e, w') => handler e w'
    | other => other
    end.

Definition liftEither {A} (r : Err + A) : M A :=
  match r with
  | inl e => throw e
  | inr a => ret a
  end.

Definition dateNow : M Z := fun w => (Returned (now w), w).

Definition elapse (ms : N) (w : World) : World :=
  {| now := now w + Z.of_N ms; log := log w; polls := polls w;
     timers := timers w; streams := streams w; pipes := pipes w |}.

Definition record (ev : Event) (w : World) : World :=
  {| now := now w; log := log w ++ [ev]; polls := polls w;
     timers := timers w; streams := streams w; pipes := pipes w |}.

(** Time that passes on the host without any operation being issued. *)
Definition hostWork (ms : N) : M unit := fun w => (Returned tt, elapse ms w).

(** [await op]: the operation is issued, time passes, the promise settles. *)
Definition await {A} (ev : Event) (mkErr : string -> Err) (r : Reply A)
    : M A :=
  fun w =>
    match r with
    | Resolves ms a => (Returned a, elapse ms (record ev w))
    | Rejects ms detail => (Thrown (mkErr detail), elapse ms (record ev w))
    end.

(** Reading the body of a response that has arrived. *)
Definition awaitBody {A} (r : Reply A) : M A :=
  fun w =>
    match r with
    | Resolves ms a => (Returned a, elapse ms w)
    | Rejects ms detail => (Thrown (BodyUnreadable detail), elapse ms w)
    end.

Declare Scope m_scope.
Delimit Scope m_scope with M.
Notation "'let*' x ':=' m 'in' k" := (bind m (fun x => k))
  (at level 10, x name, m at level 100, k at level 200) : m_scope.
Local Open Scope m_scope.

(** *** The sandbox manager *)

Definition SANDBOX_TIMEOUT_MS : Z := 5 * 60 * 1000.
Definition HEALTH_POLL_TIMEOUT_MS : Z := 30000.
Definition HEALTH_POLL_INTERVAL_MS : Z := 500.
Definition HEALTH_ATTEMPT_TIMEOUT_MS : N := 2000.
Definition AGENT_PORT : Z := 3000.

Section WithEnv.

Variable env : Env.

(** [sleep(ms)]: the timer fires after [ms], possibly late. *)
Definition sleep (ms : Z) : M unit :=
  fun w =>
    let lag := env_timerLag env (timers w) in
    (Returned tt,
     {| now := now w + ms + Z.of_N lag; log := log w; polls := polls w;
        timers := S (timers w); streams := streams w; pipes := pipes w |}).

(** [fetch(healthUrl, { signal: AbortSignal.timeout(2000) })]: a reply
    that has not arrived after two seconds is cut off by a rejection.
    The result is [res.ok], with whether the body reads as JSON. *)
Definition fetchHealth (healthUrl : string) : M (bool * bool) :=
  fun w =>
    let w1 := record (Fetch "GET" healthUrl) w in
    let w1 :=
      {| now := now w1; log := log w1; polls := S (polls w1);
         timers := timers w1; streams := streams w1; pipes := pipes w1 |} in
    match env_health env (polls w) with
    | Hangs =>
        (Thrown (FetchRejected "TimeoutError"),
         elapse HEALTH_ATTEMPT_TIMEOUT_MS w1)
    | Refused ms =>
        if (HEALTH_ATTEMPT_TIMEOUT_MS <=? ms)%N
        then (Thrown (FetchRejected "TimeoutError"),
              elapse HEALTH_ATTEMPT_TIMEOUT_MS w1)
        else (Thrown (FetchRejected "ECONNREFUSED"), elapse ms w1)
    | Answers ms ok jsonBody =>
        if (HEALTH_ATTEMPT_TIMEOUT_MS <=? ms)%N
        then (Thrown (FetchRejected "TimeoutError"),
              elapse HEALTH_ATTEMPT_TIMEOUT_MS w1)
        else (Returned (ok, jsonBody), elapse ms w1)
    end.

(** One attempt: the [try] block of the loop.  [true] stands for the
    [return] inside it. *)
Definition healthAttempt (healthUrl : string) : M bool :=
  catch
    (let* res := fetchHealth healthUrl in
     if res.1 then
       (if res.2 then ret true
        else throw (BodyUnreadable "SyntaxError"))
     else ret false)
    (fun _ => ret false).

Fixpoint pollLoop (fuel : nat) (timeoutMs : Z) (healthUrl : string)
    (deadline : Z) : M unit :=
  match fuel with
  | O => fun w => (OutOfFuel, w)
  | S fuel' =>
      let* t := dateNow in
      if t <? deadline then
        let* passed := healthAttempt healthUrl in
        if passed : bool then ret tt
        else let* _ := sleep HEALTH_POLL_INTERVAL_MS in
             pollLoop fuel' timeoutMs healthUrl deadline
      else throw (HealthCheckTimedOut timeoutMs healthUrl)
  end.

(** The loop runs at most once per interval that fits before the
    deadline, and once more to find the deadline passed. *)
Definition pollFuel (timeoutMs : Z) : nat :=
  S (Z.to_nat (timeoutMs / HEALTH_POLL_INTERVAL_MS + 1)).

Definition pollHealth (domainUrl : string) (timeoutMs : Z) : M unit :=
  let healthUrl := domainUrl +:+ "/health" in
  let* t := dateNow in
  let deadline := t + timeoutMs in
  pollLoop (pollFuel timeoutMs) timeoutMs healthUrl deadline.

Definition setupSandbox (request : ProcessRequest)
    (timing : option ExecutionTiming)
    : M (string * string * option ExecutionTiming) :=
  let* agentConfig :=
    liftEither (loadAgentConfig (env_host env) (req_agentId request)) in
  let* agentBundle := liftEither (loadAgentBundle (env_host env)) in
  let snapshotId := getSnapshotId (env_host env) in
  let* _ := hostWork (env_hostLoad env) in
  (* 1. Create sandbox *)
  let* createStart := dateNow in
  let* sandbox :=
    await (SandboxCreate snapshotId) ProviderRejected (env_create env) in
  let* t := dateNow in
  let timing := set_sandboxCreate (t - createStart) <$> timing in
  (* 2. Write agent files *)
  let* writeStart := dateNow in
  let files := buildSandboxFiles agentBundle agentConfig in
  let* _ :=
    await (WriteFiles sandbox (map fst files)) ProviderRejected
      (env_writeFiles env) in
  let* t := dateNow in
  let timing := set_fileWrite (t - writeStart) <$> timing in
  (* 3. Install deps if no snapshot *)
  let* _ :=
    match snapshotId with
    | Some _ => ret tt
    | None =>
        let* exitCode :=
          await (RunCommand sandbox "npm" ["install"; "--production"] false)
            ProviderRejected (env_install env) in
        if decide (exitCode = 0) then ret tt
        else
          let* stderr :=
            await (ReadStderr sandbox) ProviderRejected
              (env_installStderr env) in
          throw (NpmInstallFailed stderr)
    end in
  (* 4. Start the agent server (detached) *)
  let* serverStart := dateNow in
  let* _ :=
    await (RunCommand sandbox "node" ["server.mjs"] true) ProviderRejected
      (env_start env) in
  let* t := dateNow in
  let timing := set_serverStart (t - serverStart) <$> timing in
  (* 5. Poll health *)
  let* healthStart := dateNow in
  let* domainUrl :=
    (fun w => (Returned (env_domain env),
               record (Domain sandbox AGENT_PORT) w)) in
  let* _ := pollHealth domainUrl HEALTH_POLL_TIMEOUT_MS in
  let* t := dateNow in
  let timing := set_healthPoll (t - healthStart) <$> timing in
  ret (sandbox, domainUrl, timing).

(** [try { await sandbox.stop() } catch (err) { console.error(..) }] *)
Definition stopQuietly (sandbox : string) : M unit :=
  catch (await (Stop sandbox) ProviderRejected (env_stop env))
    (fun _ => ret tt).

Definition zeroTiming : ExecutionTiming :=
  {| sandboxCreate := 0; fileWrite := 0; serverStart := 0;
     healthPoll := 0; agentProcess := 0; total := 0 |}.

(** The [try] block of [executeInSandbox].  Next to its outcome it gives
    the value that the local variable [sandbox] holds when control
    leaves the block. *)
Definition executeInSandbox_try (request : ProcessRequest)
    (timing : ExecutionTiming) (totalStart : Z) (w : World)
    : Outcome (AgentProcessResponse * ExecutionTiming) * option string
      * World :=
  match setupSandbox request (Some timing) w with
  | (Thrown e, w1) => (Thrown e, None, w1)
  | (OutOfFuel, w1) => (OutOfFuel, None, w1)
  | (Returned (sb, domainUrl, timing'), w1) =>
      let timing := default timing timing' in
      let rest : M (AgentProcessResponse * ExecutionTiming) :=
        (* 6. Proxy request to sandbox *)
        let* processStart := dateNow in
        let processUrl := domainUrl +:+ "/process" in
        let* res :=
          await (Fetch "POST" processUrl) FetchRejected (env_process env) in
        if pr_ok res then
          let* agentResponse := awaitBody (pr_json res) in
          let* t := dateNow in
          let timing := set_agentProcess (t - processStart) timing in
          let* t := dateNow in
          let timing := set_total (t - totalStart) timing in
          ret (agentResponse, timing)
        else
          let* errorText := awaitBody (pr_text res) in
          throw (AgentProcessRequestFailed (pr_status res) errorText) in
      let '(r, w2) := rest w1 in
      (r, Some sb, w2)
  end.

Definition executeInSandbox (request : ProcessRequest)
    : M (AgentProcessResponse * ExecutionTiming) :=
  fun w =>
    let timing := zeroTiming in
    let totalStart := now w in
    let '(r, sandbox, w1) :=
      executeInSandbox_try request timing totalStart w in
    (* finally *)
    match sandbox with
    | Some sb => (r, snd (stopQuietly sb w1))
    | None => (r, w1)
    end.

End WithEnv.

Section WithEnvStreaming.

Variable env : Env.

(** The body of a response that has arrived becomes a stream object of
    the platform. *)
Definition newReadable (chunks : list string) (errors : bool) : M nat :=
  fun w =>
    (Returned (length (streams w)),
     {| now := now w; log := log w; polls := polls w; timers := timers w;
        streams := streams w ++
          [{| rs_chunks := chunks; rs_errors := errors;
              rs_locked := false |}];
        pipes := pipes w |}).

Definition executeInSandboxStream (request : ProcessRequest)
    : M (nat * string) :=
  let* r := setupSandbox env request None in
  let '(sandbox, domainUrl, _) := r in
  (* Initiate streaming request *)
  let streamUrl := domainUrl +:+ "/process/stream" in
  let* res :=
    await (Fetch "POST" streamUrl) FetchRejected (env_stream env) in
  match sr_ok res, sr_body res with
  | true, Some body =>
      let* stream := newReadable (up_chunks body) (up_errors body) in
      ret (stream, sandbox)
  | _, _ =>
      let* _ := await (Stop sandbox) ProviderRejected (env_stop env) in
      let* errorText := awaitBody (sr_text res) in
      throw (AgentStreamRequestFailed (sr_status res) errorText)
  end.

(** The closure [cleanup] that [executeInSandboxStream] returns, for the
    sandbox it closes over. *)
Definition cleanup (sandbox : string) : M unit :=
  catch (await (Stop sandbox) ProviderRejected (env_stop env))
    (fun _ => ret tt).

(** *** The gateway *)

Inductive Payload : Type :=
| ErrorJson (error : string) (duration : option Z)
| ProcessJson (response : AgentProcessResponse) (timing : ExecutionTiming)
    (orchestratorDuration : Z)
| EventStream (body : nat).

Record HttpReply : Type := {
  status : Z;
  payload : Payload
}.

Definition asProcessRequest (body : RequestBody) (message agentId : string)
    : ProcessRequest :=
  {| req_message := message;
     req_agentId := agentId;
     req_conversationId := body_conversationId body;
     req_customerId := body_customerId body;
     req_customerEmail := body_customerEmail body;
     req_modality := body_modality body;
     req_gatewayContext := body_gatewayContext body |}.

(** [await c.req.json<ProcessRequest>()]; [None] is a body that is not
    JSON. *)
Definition reqJson (body : option RequestBody) : M RequestBody :=
  match body with
  | Some b => ret b
  | None => throw (BodyUnreadable "SyntaxError")
  end.

(** [app.post("/process", ...)] *)
Definition postProcess (rawBody : option RequestBody) : M HttpReply :=
  let* startTime := dateNow in
  catch
    (let* body := reqJson rawBody in
     match Js.truthy (body_message body) with
     | None =>
         ret {| status := 400;
                payload := ErrorJson "message is required" None |}
     | Some message =>
         match Js.truthy (body_agentId body) with
         | None =>
             ret {| status := 400;
                    payload := ErrorJson "agentId is required" None |}
         | Some agentId =>
             let* r :=
               executeInSandbox env
                 (asProcessRequest body message agentId) in
             let* t := dateNow in
             ret {| status := 200;
                    payload := ProcessJson r.1 r.2 (t - startTime) |}
         end
     end)
    (fun error =>
       let* t := dateNow in
       ret {| status := 500;
              payload := ErrorJson (message error)
                           (Some (t - startTime)) |}).

(** [source.pipeTo(sink).catch(() => {}).finally(() => cleanup())]: the
    part that runs at the call.  A source that already has a reader
    makes the promise reject at once; otherwise the pipe takes the
    source's lock.  Either way the promise is pending when the handler
    goes on. *)
Definition pipeTo_finally_cleanup (source : nat) (sink : Sink)
    (sandbox : string) : M unit :=
  fun w =>
    match streams w !! source with
    | None => (Returned tt, w)
    | Some s =>
        let started := negb (rs_locked s) in
        (Returned tt,
         {| now := now w; log := log w; polls := polls w;
            timers := timers w;
            streams :=
              <[source := {| rs_chunks := rs_chunks s;
                             rs_errors := rs_errors s;
                             rs_locked := true |}]> (streams w);
            pipes := pipes w ++
              [{| pipe_source := source; pipe_sink := sink;
                  pipe_started := started; pipe_sandbox := sandbox |}] |})
    end.

(** [new TransformStream()]: the readable side and the sink that feeds
    it. *)
Definition newTransformStream : M (nat * Sink) :=
  let* readable := newReadable [] false in
  ret (readable, IntoReadable readable).

(** [app.post("/process/stream", ...)] as [server.ts] has it: the
    response is built on the upstream stream, and the same stream is
    piped into a fresh [WritableStream]. *)
Definition postProcessStream (rawBody : option RequestBody)
    : M HttpReply :=
  catch
    (let* body := reqJson rawBody in
     match Js.truthy (body_message body) with
     | None =>
         ret {| status := 400;
                payload := ErrorJson "message is required" None |}
     | Some message =>
         match Js.truthy (body_agentId body) with
         | None =>
             ret {| status := 400;
                    payload := ErrorJson "agentId is required" None |}
         | Some agentId =>
             let* r := executeInSandboxStream
                         (asProcessRequest body message agentId) in
             let '(stream, sandbox) := r in
             let response :=
               {| status := 200; payload := EventStream stream |} in
             let* _ := pipeTo_finally_cleanup stream Discard sandbox in
             ret response
         end
     end)
    (fun error =>
       ret {| status := 500;
              payload := ErrorJson (message error) None |}).

(** The other [app.post("/process/stream", ...)] of the sources: the
    upstream is piped through a [TransformStream], whose readable side
    is the body of the response. *)
Definition postProcessStream_transform (rawBody : option RequestBody)
    : M HttpReply :=
  catch
    (let* body := reqJson rawBody in
     match Js.truthy (body_message body) with
     | None =>
         ret {| status := 400;
                payload := ErrorJson "message is required" None |}
     | Some message =>
         match Js.truthy (body_agentId body) with
         | None =>
             ret {| status := 400;
                    payload := ErrorJson "agentId is required" None |}
         | Some agentId =>
             let* r := executeInSandboxStream
                         (asProcessRequest body message agentId) in
             let '(stream, sandbox) := r in
             let* t := newTransformStream in
             let '(readable, writable) := t in
             let* _ := pipeTo_finally_cleanup stream writable sandbox in
             ret {| status := 200; payload := EventStream readable |}
         end
     end)
    (fun error =>
       ret {| status := 500;
              payload := ErrorJson (message error) None |}).

(** *** The platform after the handler has returned

    The server reads the body of the response for the caller and the
    pending pipes run.  [demand] is how many chunks the caller takes
    before it goes away ([None]: it stays to the end).

    The definitions of this part, like [pipeTo_finally_cleanup] and
    [newTransformStream] above, are not functions of the sources: they
    state what the platform's streams do, in the detail that the two
    handlers depend on.  A readable stream has at most one reader;
    [pipeTo] takes the reader's lock of its source and moves the chunks to
    its sink; the body of a response is read through a reader of its own,
    which a locked stream does not give; a fresh [WritableStream] accepts
    and drops every chunk; a [TransformStream] without transformer hands
    the chunks written to it to the reader of its readable side. *)

Record Delivery : Type := {
  received : list string;
  bodyFailed : bool
}.

Definition taken (demand : option nat) (chunks : list string)
    : list string :=
  match demand with
  | Some n => take n chunks
  | None => chunks
  end.

Definition drain (id : nat) (n : nat) (w : World) : World :=
  {| now := now w; log := log w; polls := polls w; timers := timers w;
     streams :=
       match streams w !! id with
       | Some s =>
           <[id := {| rs_chunks := drop n (rs_chunks s);
                      rs_errors := rs_errors s;
                      rs_locked := rs_locked s |}]> (streams w)
       | None => streams w
       end;
     pipes := pipes w |}.

(** One pending pipe, when [reader] is the stream that the server reads.
    The result is what reaches the caller through this pipe.  Whether
    the promise fulfils or rejects makes no difference to what follows:
    [.catch(() => {})] absorbs a rejection and [.finally] runs
    [cleanup] in both cases.  A pipe into a stream that nobody reads
    does not settle. *)
Definition runPipe (reader : option nat) (demand : option nat) (p : Pipe)
    : M (list string) :=
  if negb (pipe_started p) then
    let* _ := cleanup (pipe_sandbox p) in ret []
  else
    fun w =>
      let chunks :=
        default [] (rs_chunks <$> streams w !! pipe_source p) in
      match pipe_sink p with
      | Discard =>
          (let* _ := cleanup (pipe_sandbox p) in ret [])
            (drain (pipe_source p) (length chunks) w)
      | IntoReadable r =>
          if decide (reader = Some r) then
            let given := taken demand chunks in
            (let* _ := cleanup (pipe_sandbox p) in ret given)
              (drain (pipe_source p) (length given) w)
          else (Returned [], w)
      end.

Fixpoint runPipes (reader : option nat) (demand : option nat)
    (ps : list Pipe) : M (list string) :=
  match ps with
  | [] => ret []
  | p :: rest =>
      let* here := runPipe reader demand p in
      let* there := runPipes reader demand rest in
      ret (here ++ there)
  end.

Definition deliver (reply : HttpReply) (demand : option nat)
    : M Delivery :=
  match payload reply with
  | EventStream body =>
      fun w =>
        let s := streams w !! body in
        let locked := default false (rs_locked <$> s) in
        let reader := if locked then None else Some body in
        let own :=
          if locked then []
          else taken demand (default [] (rs_chunks <$> s)) in
        let pending := pipes w in
        let w1 :=
          {| now := now w; log := log w; polls := polls w;
             timers := timers w;
             streams :=
               match s with
               | Some bodyStream =>
                   if locked then streams w
                   else
                     <[body := {| rs_chunks :=
                                    drop (length own) (rs_chunks bodyStream);
                                  rs_errors := rs_errors bodyStream;
                                  rs_locked := true |}]> (streams w)
               | None => streams w
               end;
             pipes := [] |} in
        match runPipes reader demand pending w1 with
        | (Returned piped, w2) =>
            (Returned {| received := own ++ piped;
                         bodyFailed := locked |}, w2)
        | (Thrown e, w2) => (Thrown e, w2)
        | (OutOfFuel, w2) => (OutOfFuel, w2)
        end
  | _ => ret {| received := []; bodyFailed := false |}
  end.

(** A request from arrival to the end of its response. *)
Definition serve (handler : option RequestBody -> M HttpReply)
    (rawBody : option RequestBody) (demand : option nat)
    : M (HttpReply * Delivery) :=
  let* reply := handler rawBody in
  let* delivery := deliver reply demand in
  ret (reply, delivery).

End WithEnvStreaming.

(** *** Vocabulary for the properties of the health poll *)

(** An attempt passes when the reply arrives within the per-attempt limit,
    has a success status and a body that parses as JSON. *)
Definition attemptPasses (r : HealthReply) : bool :=
  match r with
  | Answers ms true true => (ms <? HEALTH_ATTEMPT_TIMEOUT_MS)%N
  | _ => false
  end.

(** An attempt returns a success status: the same without the condition on
    the body. *)
Definition attemptStatusOk (r : HealthReply) : bool :=
  match r with
  | Answers ms true _ => (ms <? HEALTH_ATTEMPT_TIMEOUT_MS)%N
  | _ => false
  end.

Definition attemptTime (r : HealthReply) : N :=
  match r with
  | Hangs => HEALTH_ATTEMPT_TIMEOUT_MS
  | Refused ms | Answers ms _ _ => N.min ms HEALTH_ATTEMPT_TIMEOUT_MS
  end.

Definition afterAttempt (env : Env) (healthUrl : string) (w : World) : World :=
  {| now := now w + Z.of_N (attemptTime (env_health env (polls w)));
     log := log w ++ [Fetch "GET" healthUrl];
     polls := S (polls w);
     timers := timers w; streams := streams w; pipes := pipes w |}.

Definition afterSleep (env : Env) (ms : Z) (w : World) : World :=
  {| now := now w + ms + Z.of_N (env_timerLag env (timers w));
     log := log w; polls := polls w;
     timers := S (timers w); streams := streams w; pipes := pipes w |}.

Definition replyTime {A} (r : Reply A) : N :=
  match r with
  | Resolves ms _ | Rejects ms _ => ms
  end.

(** The time that dependency installation takes: none with a snapshot. *)
Definition installTime (env : Env) : N :=
  match getSnapshotId (env_host env) with
  | Some _ => 0%N
  | None => replyTime (env_install env)
  end.

(** How often [stop] was issued for a sandbox, and whether it was created. *)
Definition stops (sandbox : string) (l : list Event) : nat :=
  length (List.filter
            (fun ev => match ev with
                       | Stop s => bool_decide (s = sandbox)
                       | _ => false
                       end) l).

Definition created (l : list Event) : bool :=
  existsb (fun ev => match ev with SandboxCreate _ => true | _ => false end)
    l.

End Orchestrator.

(** * Further parts of the sources *)

(** ** The streaming turn of the agent *)

Module AgentStream.
Import Agent.

Record Todo : Type := {
  todo_content : string;
  todo_status : string;
  todo_activeForm : string
}.

(** [block.input] of a tool use: a falsy value, a value that is not an
    object, or an object, with its [todos] member when it has one.  [raw]
    stands for the value itself, which is passed on untouched. *)
Inductive ToolInput : Type :=
| InputAbsent
| InputValue (raw : string)
| InputObject (raw : string) (todos : option (list Todo)).

Inductive Block : Type :=
| Text (text : string)
| Thinking (thinking : string)
| ToolUse (id name : string) (input : ToolInput).

Inductive UserBlock : Type :=
| ToolResult (tool_use_id : string) (is_error : bool) (content : string)
| OtherUserBlock.

Inductive StreamEv : Type :=
| ThinkingDelta (thinking : string)
| OtherStreamEvent.

Inductive Message : Type :=
| Init (session_id : option string)
| OtherSystem
| Assistant (content : list Block)
| User (content : list UserBlock)
| Partial (event : StreamEv)
| Success (usage : option SdkUsage) (total_cost_usd : option Z)
    (structured_output : option AgentResponse)
| Failure (subtype : option string) (errors : option (list string)).

Record StreamRun : Type := {
  run_messages : list Message;
  run_rejects : option string
}.

Inductive StreamChunk : Type :=
| ThinkingChunk (content : string)
| ToolStart (toolName toolId : string) (input : ToolInput)
| ToolEnd (toolName toolId : string) (success : bool) (result : string)
| TodoChunk (todos : list Todo)
| StructuredOutput (content : AgentResponse)
| Done (content : string) (usage : Usage) (metadata : option ResponseMetadata)
| ErrorChunk (content : string).

(** The local variables of [processMessageStream] that its loop updates. *)
Record StreamLocals : Type := {
  sl_toolsUsed : list string;
  pendingTools : gmap string string;
  hasStreamedThinking : bool
}.

(** One block of an assistant message: what it yields and the locals after. *)
Definition onBlock (block : Block) (loc : StreamLocals)
    : list StreamChunk * StreamLocals :=
  match block with
  | Thinking t =>
      (if hasStreamedThinking loc then [] else [ThinkingChunk t], loc)
  | ToolUse id name input =>
      let loc' :=
        {| sl_toolsUsed := sl_toolsUsed loc ++ [name];
           pendingTools := <[id := name]> (pendingTools loc);
           hasStreamedThinking := hasStreamedThinking loc |} in
      let todos :=
        match input with
        | InputObject _ (Some todos) =>
            if decide (name = "TodoWrite") then [TodoChunk todos] else []
        | _ => []
        end in
      (todos ++ [ToolStart name id input], loc')
  | Text _ => ([], loc)
  end.

(** One block of a user message. *)
Definition onUserBlock (block : UserBlock) (loc : StreamLocals)
    : list StreamChunk * StreamLocals :=
  match block with
  | ToolResult id is_error content =>
      let toolName :=
        default "unknown" (Js.truthy (pendingTools loc !! id)) in
      ([ToolEnd toolName id (negb is_error) content],
       {| sl_toolsUsed := sl_toolsUsed loc;
          pendingTools := delete id (pendingTools loc);
          hasStreamedThinking := hasStreamedThinking loc |})
  | OtherUserBlock => ([], loc)
  end.

(** A [for] loop over blocks that yields as it goes. *)
Fixpoint overBlocks {B : Type}
    (step : B -> StreamLocals -> list StreamChunk * StreamLocals)
    (blocks : list B) (loc : StreamLocals)
    : list StreamChunk * StreamLocals :=
  match blocks with
  | [] => ([], loc)
  | b :: rest =>
      let '(here, loc1) := step b loc in
      let '(there, loc2) := overBlocks step rest loc1 in
      (here ++ there, loc2)
  end.

Definition errorText (subtype : option string) (errors : option (list string))
    : string :=
  let errorMsg := "Agent error: " +:+ default "unknown" (Js.truthy subtype) in
  match errors with
  | Some (e :: es) => errorMsg +:+ " - " +:+ Js.join ", " (e :: es)
  | _ => errorMsg
  end.

(** The body of the [for await] loop, for one message. *)
Definition onMessage (conversationId : option string) (m : Message)
    (st : StreamLocals * gmap string string)
    : list StreamChunk * (StreamLocals * gmap string string) :=
  let '(loc, sessions) := st in
  let sessions :=
    match m, Js.truthy conversationId with
    | Init sid, Some c =>
        match Js.truthy sid with
        | Some s => <[c := s]> sessions
        | None => sessions
        end
    | _, _ => sessions
    end in
  match m with
  | Assistant content =>
      let '(chunks, loc') := overBlocks onBlock content loc in
      (chunks, (loc', sessions))
  | User content =>
      let '(chunks, loc') := overBlocks onUserBlock content loc in
      (chunks, (loc', sessions))
  | Partial (ThinkingDelta t) =>
      ([ThinkingChunk t],
       ({| sl_toolsUsed := sl_toolsUsed loc;
           pendingTools := pendingTools loc;
           hasStreamedThinking := true |}, sessions))
  | Success u cost so =>
      let resultUsage :=
        {| inputTokens := Js.num_or (u ≫= input_tokens) 0;
           outputTokens := Js.num_or (u ≫= output_tokens) 0;
           totalCostUsd := Js.num_or cost 0 |} in
      match so with
      | Some output =>
          ([StructuredOutput output;
            Done (ar_response output) resultUsage (Some (ar_metadata output))],
           (loc, sessions))
      | None => ([Done fallbackResponse resultUsage None], (loc, sessions))
      end
  | Failure subtype errors =>
      ([ErrorChunk (errorText subtype errors)], (loc, sessions))
  | _ => ([], (loc, sessions))
  end.

Fixpoint streamLoop (conversationId : option string) (msgs : list Message)
    (st : StreamLocals * gmap string string)
    : list StreamChunk * (StreamLocals * gmap string string) :=
  match msgs with
  | [] => ([], st)
  | m :: rest =>
      let '(here, st1) := onMessage conversationId m st in
      let '(there, st2) := streamLoop conversationId rest st1 in
      (here ++ there, st2)
  end.

(** [processMessageStream], read to its end by the consumer: the chunks it
    yields, in order, and the process afterwards.  The options of [query]
    are those of [processMessage] (with [includePartialMessages], which the
    record of the options does not show). *)
Definition processMessageStream (onDisk : AgentConfig)
    (query : QueryOptions -> StreamRun) (input : ProcessMessageInput)
    (p : Process) : list StreamChunk * Process :=
  let conversationId := in_conversationId input in
  let '(config, p) := getAgentConfig onDisk p in
  let modality := in_metadata input ≫= meta_modality in
  let effective := getEffectiveSettings config modality in
  let existingSessionId :=
    match Js.truthy conversationId with
    | Some c => activeSessions p !! c
    | None => None
    end in
  let contextString := buildContextString input in
  let fullPrompt :=
    if decide (contextString = "") then in_message input
    else contextString +:+ "Customer message:" +:+ Js.nl
           +:+ in_message input in
  let options :=
    {| q_prompt := fullPrompt;
       q_appendSystemPrompt :=
         Js.truthy (Some (cfg_additionalInstructions config));
       q_allowedTools := eff_allowedTools effective;
       q_mcpServers := eff_mcpServers effective;
       q_maxTurns := eff_maxTurns effective;
       q_maxThinkingTokens := eff_maxThinkingTokens effective;
       q_resume := Js.truthy existingSessionId |} in
  let run := query options in
  let locals0 :=
    {| sl_toolsUsed := []; pendingTools := ∅;
       hasStreamedThinking := false |} in
  let '(chunks, (loc, sessions)) :=
    streamLoop conversationId (run_messages run)
      (locals0, activeSessions p) in
  let p' :=
    {| activeSessions := sessions;
       agentConfig := agentConfig p;
       queries := queries p ++ [options] |} in
  match run_rejects run with
  | Some detail => (chunks ++ [ErrorChunk detail], p')
  | None => (chunks, p')
  end.

(** The same run as [processMessage] sees it: the two functions read the
    same fields of the messages they have in common. *)
Definition plainBlock (b : Block) : ContentBlock :=
  match b with
  | Text t => TextBlock t
  | Thinking t => ThinkingBlock t
  | ToolUse id name _ => ToolUseBlock id name
  end.

Definition plainMessage (m : Message) : SdkMessage :=
  match m with
  | Init sid => SystemInit sid
  | OtherSystem => SystemOther
  | Assistant content => AssistantMsg (map plainBlock content)
  | User _ => UserMsg
  | Partial _ => StreamEvent
  | Success u cost so => ResultSuccess u cost so
  | Failure subtype _ => ResultError (default "" subtype)
  end.

Definition plainRun (r : StreamRun) : SdkRun :=
  {| sdk_messages := map plainMessage (run_messages r);
     sdk_rejects := run_rejects r |}.

(** *** Vocabulary for the properties of the streaming turn *)

Definition isToolStart (toolId toolName : string) (c : StreamChunk) : Prop :=
  exists input, c = ToolStart toolName toolId input.

Definition thinkingChunks (chunks : list StreamChunk) : list string :=
  omap (fun c => match c with ThinkingChunk t => Some t | _ => None end)
    chunks.

Definition thinkingDeltas (msgs : list Message) : list string :=
  omap (fun m => match m with
                 | Partial (ThinkingDelta t) => Some t
                 | _ => None
                 end) msgs.

Definition toolStarts (chunks : list StreamChunk) : list string :=
  omap (fun c => match c with ToolStart name _ _ => Some name | _ => None end)
    chunks.

Definition doneChunks (chunks : list StreamChunk) : list StreamChunk :=
  List.filter (fun c => match c with Done _ _ _ => true | _ => false end)
    chunks.

(** The thinking blocks of the assistant messages of a run, in order. *)
Definition thinkingBlocks (msgs : list Message) : list string :=
  flat_map (fun m => match m with
                     | Assistant content =>
                         omap (fun b => match b with
                                        | Thinking t => Some t
                                        | _ => None
                                        end) content
                     | _ => []
                     end) msgs.

(** Every [tool_end] of a sequence of chunks names either [unknown] or the
    tool of a [tool_start] with the same id that came before it ([started]
    holds the ids and names of the starts seen so far). *)
Fixpoint paired (started : list (string * string))
    (chunks : list StreamChunk) : Prop :=
  match chunks with
  | [] => True
  | ToolStart name id _ :: rest => paired ((id, name) :: started) rest
  | ToolEnd name id _ _ :: rest =>
      (name = "unknown" ∨ (id, name) ∈ started) ∧ paired started rest
  | _ :: rest => paired started rest
  end.

(** What the map of pending tools holds has been announced by a start. *)
Definition announced (loc : StreamLocals) (s : list (string * string))
    : Prop :=
  forall id name, pendingTools loc !! id = Some name -> (id, name) ∈ s.

(** The session id that a streamed run leaves for a conversation: the one
    of its last [init] message that carries a non-empty id. *)
Definition streamedToken (msgs : list Message) : option string :=
  last (omap (fun m => match m with
                       | Init sid => Js.truthy sid
                       | _ => None
                       end) msgs).

(** The text and the usage of the [done] chunks, in order. *)
Definition doneOf (chunks : list StreamChunk) : list (string * Usage) :=
  omap (fun c => match c with
                 | Done content usage _ => Some (content, usage)
                 | _ => None
                 end) chunks.

Definition startsOf (chunks : list StreamChunk) : list (string * string) :=
  omap (fun c => match c with
                 | ToolStart name id _ => Some (id, name)
                 | _ => None
                 end) chunks.

End AgentStream.

(** ** The agent's HTTP server: events of the streaming endpoint *)

Module AgentServer.
Import Agent AgentStream.

Inductive SseData : Type :=
| PlainText (text : string)
| ToolStartJson (toolName toolId : string) (input : ToolInput)
| ToolEndJson (toolName toolId : string) (success : bool) (result : string)
| TodoJson (todos : list Todo)
| StructuredJson (content : AgentResponse)
| DoneJson (duration : Z) (confidence : ConfidenceLevel) (usage : Usage)
    (metadata : option ResponseMetadata)
| ErrorJson (error : string).

Record SseEvent : Type := {
  sse_event : string;
  sse_data : SseData
}.

(** The [switch] of the streaming endpoint, for a chunk that arrives
    [elapsed] ms after the request. *)
Definition writeSSE (elapsed : Z) (chunk : StreamChunk) : SseEvent :=
  match chunk with
  | ThinkingChunk content =>
      {| sse_event := "thinking"; sse_data := PlainText content |}
  | ToolStart name id input =>
      {| sse_event := "tool_start"; sse_data := ToolStartJson name id input |}
  | ToolEnd name id success result =>
      {| sse_event := "tool_end";
         sse_data := ToolEndJson name id success result |}
  | TodoChunk todos => {| sse_event := "todo"; sse_data := TodoJson todos |}
  | StructuredOutput content =>
      {| sse_event := "structured_output";
         sse_data := StructuredJson content |}
  | Done _ usage metadata =>
      {| sse_event := "done";
         sse_data :=
           DoneJson elapsed
             (default high (md_confidence <$> metadata)) usage metadata |}
  | ErrorChunk content =>
      {| sse_event := "error"; sse_data := ErrorJson content |}
  end.

(** The events written for the chunks of a turn, the chunk at position [i]
    arriving [elapsed i] ms after the request. *)
Definition eventsOf (elapsed : nat -> Z) (chunks : list StreamChunk)
    : list SseEvent :=
  imap (fun i chunk => writeSSE (elapsed i) chunk) chunks.

Definition doneConfidences (events : list SseEvent) : list ConfidenceLevel :=
  omap (fun e => match sse_data e with
                 | DoneJson _ c _ _ => Some c
                 | _ => None
                 end) events.

End AgentServer.

(** ** The snapshot file *)

Module SnapshotFile.
Import Orchestrator.

(** [saveSnapshotId]: the file is overwritten with the id as it is given. *)
Definition saveSnapshotId (id : string) (host : Host) : Host :=
  {| host_cwd := host_cwd host;
     host_agentConfigs := host_agentConfigs host;
     host_agentBundle := host_agentBundle host;
     host_snapshotFile := Some id |}.

(** A string of 7-bit characters none of which is white space. *)
Fixpoint isToken (s : string) : bool :=
  match s with
  | EmptyString => true
  | String c rest =>
      negb (Js.is_space c) && (nat_of_ascii c <? 128)%nat && isToken rest
  end.

End SnapshotFile.

(** ** The script that creates the snapshot *)

Module SnapshotScript.
Import Orchestrator.

Inductive Op : Type :=
| OpCreate
| OpWriteFiles (paths : list string)
| OpRunCommand (cmd : string) (args : list string)
| OpStderr
| OpSnapshot
| OpStop.

(** The errors of the script: a rejected call, or its own
    [Error("npm install failed")]. *)
Inductive ScriptErr : Type :=
| Rejected (detail : string)
| InstallFailed.

Inductive Answer (A : Type) : Type :=
| Ok (a : A)
| Fails (detail : string).
Arguments Ok {A} a.
Arguments Fails {A} detail.

Record ScriptEnv : Type := {
  s_create : Answer unit;
  s_writeFiles : Answer unit;
  s_install : Answer Z;
  s_installStderr : Answer string;
  s_global : Answer Z;
  s_globalStderr : Answer string;
  s_snapshot : Answer string;
  s_stop : Answer unit
}.

Record ScriptState : Type := {
  ops : list Op;
  host : Host
}.

Definition S (A : Type) : Type := ScriptState -> (ScriptErr + A) * ScriptState.

Definition sret {A} (a : A) : S A := fun st => (inr a, st).
Definition sthrow {A} (e : ScriptErr) : S A := fun st => (inl e, st).
Definition sbind {A B} (m : S A) (k : A -> S B) : S B :=
  fun st =>
    match m st with
    | (inr a, st') => k a st'
    | (inl e, st') => (inl e, st')
    end.

Definition call {A} (op : Op) (a : Answer A) : S A :=
  fun st =>
    let st' := {| ops := ops st ++ [op]; host := host st |} in
    match a with
    | Ok x => (inr x, st')
    | Fails detail => (inl (Rejected detail), st')
    end.

Declare Scope script_scope.
Notation "'let*' x ':=' m 'in' k" := (sbind m (fun x => k))
  (at level 10, x name, m at level 100, k at level 200) : script_scope.
Local Open Scope script_scope.

(** [fs.writeFileSync(SNAPSHOT_FILE, snapshot.snapshotId, "utf-8")] *)
Definition writeSnapshotFile (id : string) : S unit :=
  fun st =>
    (inr tt,
     {| ops := ops st; host := SnapshotFile.saveSnapshotId id (host st) |}).

(** The [try] block of [main]. *)
Definition main_try (env : ScriptEnv) : S unit :=
  (* 2. Write package.json with agent dependencies *)
  let* _ := call (OpWriteFiles ["package.json"]) (s_writeFiles env) in
  (* 3. Install dependencies *)
  let* exitCode :=
    call (OpRunCommand "npm" ["install"; "--production"]) (s_install env) in
  let* _ :=
    if decide (exitCode = 0) then sret tt
    else
      let* _ := call OpStderr (s_installStderr env) in
      sthrow InstallFailed in
  (* 4. Install Claude Code CLI globally *)
  let* globalCode :=
    call (OpRunCommand "npm" ["install"; "-g"; "@anthropic-ai/claude-code"])
      (s_global env) in
  let* _ :=
    if decide (globalCode = 0) then sret tt
    else
      let* _ := call OpStderr (s_globalStderr env) in
      sret tt in
  (* 5. Create snapshot (this stops the sandbox automatically) *)
  let* snapshotId := call OpSnapshot (s_snapshot env) in
  writeSnapshotFile snapshotId.

Definition main (env : ScriptEnv) : S unit :=
  (* 1. Create a bare sandbox *)
  let* _ := call OpCreate (s_create env) in
  fun st =>
    match main_try env st with
    | (inr tt, st') => (inr tt, st')
    | (inl error, st') =>
        (* If snapshot wasn't created, stop the sandbox manually *)
        (inl error, snd (call OpStop (s_stop env) st'))
    end.

Definition stopCount (l : list Op) : nat :=
  length (List.filter (fun op => match op with OpStop => true | _ => false end)
            l).

End SnapshotScript.

(** ** Vocabulary for the properties of provisioning *)

Module Provisioned.
Import Orchestrator.

(** The regular files below an entry of a directory, with their paths
    relative to [relativeDir], in the order of the listing. *)
Fixpoint filesOf (relativeDir : string) (entry : FsEntry)
    : list (string * string) :=
  match entry with
  | FsFile name content => [(relativeDir +:+ name, content)]
  | FsDir name entries =>
      flat_map (filesOf (relativeDir +:+ name +:+ "/")) entries
  | FsOther _ => []
  end.

(** The entries that a plain object takes as keys of its own: all but the
    one under [__proto__]. *)
Definition ownKeys (files : list (string * string))
    : list (string * string) :=
  List.filter (fun kv => negb (bool_decide (kv.1 = "__proto__"))) files.

(** The operations that a provisioning without failure issues before it
    polls, in order. *)
Definition setupOps (snapshotId : option string) (sandbox : string)
    (paths : list string) : list Event :=
  [SandboxCreate snapshotId; WriteFiles sandbox paths]
  ++ match snapshotId with
     | Some _ => []
     | None => [RunCommand sandbox "npm" ["install"; "--production"] false]
     end
  ++ [RunCommand sandbox "node" ["server.mjs"] true;
      Domain sandbox AGENT_PORT].

End Provisioned.

(** ** Vocabulary for the properties of the gateway *)

Module Conduct.
Import Orchestrator.

(** The bound on the unrolling of the poll loop is not what ends a
    computation: with replies that arrive, it returns or throws. *)
Definition settles {A : Type} (m : M A) : Prop :=
  forall w, (m w).1 ≠ OutOfFuel.

(** How often [stop] was issued, for whatever sandbox. *)
Definition stopCalls (l : list Event) : nat :=
  length (List.filter (fun ev => match ev with Stop _ => true | _ => false end)
            l).

(** A computation that stops no sandbox. *)
Definition stopsNothing {A : Type} (m : M A) : Prop :=
  forall w, stopCalls (log (m w).2) = stopCalls (log w).

Definition isStop (ev : Event) : bool :=
  match ev with Stop _ => true | _ => false end.

End Conduct.

(** ** Vocabulary for the properties of the snapshot file *)

Module SnapshotText.

(** A string of ASCII white space only. *)
Fixpoint isBlank (s : string) : bool :=
  match s with
  | EmptyString => true
  | String c rest => Js.is_space c && isBlank rest
  end.

End SnapshotText.

(** * Concrete inputs

    The configurations, environments and requests at which the properties
    below are exercised. *)

Module Examples.
Import Agent.

Definition chatOverride : ModalityRuntimeSettings :=
  {| mrs_maxThinkingTokens := None;
     mrs_maxTurns := Some 8;
     mrs_toolSettings :=
       Some {| ts_allowedTools := Some ["Read"; "Bash"];
               ts_disabledTools := Some ["Bash"] |};
     mrs_mcpSettings :=
       Some {| ms_enabledServers := Some ["docs"; "search"];
               ms_disabledServers := None |} |}.

Definition cfgBoth : AgentConfig :=
  {| cfg_allowedTools := ["Read"; "Glob"; "Grep"];
     cfg_mcpServers :=
       {[ "docs" := {| mcp_command := "docs-server" |};
          "crm" := {| mcp_command := "crm-server" |} ]};
     cfg_additionalInstructions := "";
     cfg_maxTurns := 20;
     cfg_modalitySettings := Some {[ "chat" := chatOverride ]} |}.

Definition helloInput (conversationId : option string) : ProcessMessageInput :=
  {| in_message := "How do I reset my password?";
     in_conversationId := conversationId;
     in_customerId := None;
     in_metadata := None;
     in_requestId := "req-1" |}.

(** A runtime that opens session [sid], uses one tool and ends with a
    success result without structured output. *)
Definition bareQuery (sid : string) (_ : QueryOptions) : SdkRun :=
  {| sdk_messages :=
       [SystemInit (Some sid);
        AssistantMsg [ThinkingBlock "..."; ToolUseBlock "tool-1" "Read"];
        ResultSuccess None None None];
     sdk_rejects := None |}.

Definition sampleHost (snapshot : option string) : Orchestrator.Host :=
  {| Orchestrator.host_cwd := "/srv/orchestrator";
     Orchestrator.host_agentConfigs :=
       {[ "sample" :=
            {| Orchestrator.dir_claudeMd := Some "# Customer Support Agent";
               Orchestrator.dir_agentConfigJson :=
                 Some (Orchestrator.Parses "{ maxTurns: 20 }");
               Orchestrator.dir_skills :=
                 Some [Orchestrator.FsDir "billing"
                         [Orchestrator.FsFile "SKILL.md" "refunds"]] |} ]};
     Orchestrator.host_agentBundle := Some "// agent bundle";
     Orchestrator.host_snapshotFile := snapshot |}.

Definition okReply : Orchestrator.AgentProcessResponse :=
  {| Orchestrator.apr_requestId := "req-1";
     Orchestrator.apr_response := "Use the reset link.";
     Orchestrator.apr_confidence := Some "high";
     Orchestrator.apr_duration := 4000 |}.

(** A provider on which every step succeeds: the sandbox is created from
    the snapshot (if any), the health endpoint answers according to
    [health], the agent replies in four seconds. *)
Definition healthyEnv (snapshot : option string)
    (health : nat -> Orchestrator.HealthReply) : Orchestrator.Env :=
  {| Orchestrator.env_host := sampleHost snapshot;
     Orchestrator.env_hostLoad := 3;
     Orchestrator.env_create := Orchestrator.Resolves 800 "sbx_1";
     Orchestrator.env_writeFiles := Orchestrator.Resolves 120 tt;
     Orchestrator.env_install := Orchestrator.Resolves 20000 0;
     Orchestrator.env_installStderr := Orchestrator.Resolves 1 "";
     Orchestrator.env_start := Orchestrator.Resolves 60 tt;
     Orchestrator.env_domain := "https://sbx-1.example";
     Orchestrator.env_health := health;
     Orchestrator.env_timerLag := fun _ => 0%N;
     Orchestrator.env_process :=
       Orchestrator.Resolves 4000
         {| Orchestrator.pr_ok := true;
            Orchestrator.pr_status := 200;
            Orchestrator.pr_text := Orchestrator.Resolves 0 "";
            Orchestrator.pr_json := Orchestrator.Resolves 1 okReply |};
     Orchestrator.env_stream :=
       Orchestrator.Resolves 30
         {| Orchestrator.sr_ok := true;
            Orchestrator.sr_status := 200;
            Orchestrator.sr_body :=
              Some {| Orchestrator.up_chunks :=
                        ["event: start"; "event: done"];
                      Orchestrator.up_errors := false |};
            Orchestrator.sr_text := Orchestrator.Resolves 0 "" |};
     Orchestrator.env_stop := Orchestrator.Resolves 40 tt |}.

(** The health endpoint answers at once. *)
Definition readyAtOnce (_ : nat) : Orchestrator.HealthReply :=
  Orchestrator.Answers 20 true true.

(** The health endpoint answers 200 with a body that is not JSON. *)
Definition okButNotJson (_ : nat) : Orchestrator.HealthReply :=
  Orchestrator.Answers 10 true false.

(** The first reply is a 503 after 1999 ms; later requests get no answer. *)
Definition slowThenSilent (i : nat) : Orchestrator.HealthReply :=
  match i with
  | O => Orchestrator.Answers 1999 false false
  | S _ => Orchestrator.Hangs
  end.

(** The connection is refused three times, then the server is up. *)
Definition upAfterThree (i : nat) : Orchestrator.HealthReply :=
  if (i <? 3)%nat then Orchestrator.Refused 5
  else Orchestrator.Answers 20 true true.

(** The same provider, on which the upload of the files is rejected. *)
Definition uploadFails (e : Orchestrator.Env) : Orchestrator.Env :=
  {| Orchestrator.env_host := Orchestrator.env_host e;
     Orchestrator.env_hostLoad := Orchestrator.env_hostLoad e;
     Orchestrator.env_create := Orchestrator.env_create e;
     Orchestrator.env_writeFiles := Orchestrator.Rejects 50 "upload failed";
     Orchestrator.env_install := Orchestrator.env_install e;
     Orchestrator.env_installStderr := Orchestrator.env_installStderr e;
     Orchestrator.env_start := Orchestrator.env_start e;
     Orchestrator.env_domain := Orchestrator.env_domain e;
     Orchestrator.env_health := Orchestrator.env_health e;
     Orchestrator.env_timerLag := Orchestrator.env_timerLag e;
     Orchestrator.env_process := Orchestrator.env_process e;
     Orchestrator.env_stream := Orchestrator.env_stream e;
     Orchestrator.env_stop := Orchestrator.env_stop e |}.

(** The same provider, on which the request to the agent is rejected. *)
Definition agentUnreachable (e : Orchestrator.Env) : Orchestrator.Env :=
  {| Orchestrator.env_host := Orchestrator.env_host e;
     Orchestrator.env_hostLoad := Orchestrator.env_hostLoad e;
     Orchestrator.env_create := Orchestrator.env_create e;
     Orchestrator.env_writeFiles := Orchestrator.env_writeFiles e;
     Orchestrator.env_install := Orchestrator.env_install e;
     Orchestrator.env_installStderr := Orchestrator.env_installStderr e;
     Orchestrator.env_start := Orchestrator.env_start e;
     Orchestrator.env_domain := Orchestrator.env_domain e;
     Orchestrator.env_health := Orchestrator.env_health e;
     Orchestrator.env_timerLag := Orchestrator.env_timerLag e;
     Orchestrator.env_process := Orchestrator.Rejects 15 "ECONNRESET";
     Orchestrator.env_stream := Orchestrator.Rejects 15 "ECONNRESET";
     Orchestrator.env_stop := Orchestrator.env_stop e |}.

(** A host on which the agent [draft] has its instruction document and no
    [agent-config.json]. *)
Definition draftHost : Orchestrator.Host :=
  {| Orchestrator.host_cwd := "/srv/orchestrator";
     Orchestrator.host_agentConfigs :=
       {[ "draft" :=
            {| Orchestrator.dir_claudeMd := Some "# Draft agent";
               Orchestrator.dir_agentConfigJson := None;
               Orchestrator.dir_skills := None |} ]};
     Orchestrator.host_agentBundle := Some "// agent bundle";
     Orchestrator.host_snapshotFile := Some "snap_1" |}.

Definition draftEnv : Orchestrator.Env :=
  {| Orchestrator.env_host := draftHost;
     Orchestrator.env_hostLoad := 3;
     Orchestrator.env_create := Orchestrator.Resolves 800 "sbx_1";
     Orchestrator.env_writeFiles := Orchestrator.Resolves 120 tt;
     Orchestrator.env_install := Orchestrator.Resolves 20000 0;
     Orchestrator.env_installStderr := Orchestrator.Resolves 1 "";
     Orchestrator.env_start := Orchestrator.Resolves 60 tt;
     Orchestrator.env_domain := "https://sbx-1.example";
     Orchestrator.env_health := readyAtOnce;
     Orchestrator.env_timerLag := fun _ => 0%N;
     Orchestrator.env_process := Orchestrator.Rejects 15 "ECONNRESET";
     Orchestrator.env_stream := Orchestrator.Rejects 15 "ECONNRESET";
     Orchestrator.env_stop := Orchestrator.Resolves 40 tt |}.

Definition requestFor (agentId : string) : Orchestrator.ProcessRequest :=
  {| Orchestrator.req_message := "How do I reset my password?";
     Orchestrator.req_agentId := agentId;
     Orchestrator.req_conversationId := None;
     Orchestrator.req_customerId := None;
     Orchestrator.req_customerEmail := None;
     Orchestrator.req_modality := None;
     Orchestrator.req_gatewayContext := None |}.

Definition bodyOf (message agentId : option string)
    : Orchestrator.RequestBody :=
  {| Orchestrator.body_message := message;
     Orchestrator.body_agentId := agentId;
     Orchestrator.body_conversationId := None;
     Orchestrator.body_customerId := None;
     Orchestrator.body_customerEmail := None;
     Orchestrator.body_modality := None;
     Orchestrator.body_gatewayContext := None |}.

Definition sampleRequest : Orchestrator.ProcessRequest :=
  {| Orchestrator.req_message := "How do I reset my password?";
     Orchestrator.req_agentId := "sample";
     Orchestrator.req_conversationId := None;
     Orchestrator.req_customerId := None;
     Orchestrator.req_customerEmail := None;
     Orchestrator.req_modality := None;
     Orchestrator.req_gatewayContext := None |}.

End Examples.

(** * Concrete inputs for the further properties *)

Module MoreExamples.
Import Agent.

(** An override for [chat] that sets nothing. *)
Definition emptyOverride : ModalityRuntimeSettings :=
  {| mrs_maxThinkingTokens := None;
     mrs_maxTurns := None;
     mrs_toolSettings := None;
     mrs_mcpSettings := None |}.

Definition cfgEmptyChat : AgentConfig :=
  {| cfg_allowedTools := ["Read"; "Glob"; "Grep"];
     cfg_mcpServers := {[ "docs" := {| mcp_command := "docs-server" |} ]};
     cfg_additionalInstructions := "Be brief.";
     cfg_maxTurns := 20;
     cfg_modalitySettings := Some {[ "chat" := emptyOverride ]} |}.

Definition rejectingQuery (_ : QueryOptions) : SdkRun :=
  {| sdk_messages := [SystemInit (Some "sess-9")];
     sdk_rejects := Some "socket hang up" |}.

Definition goodAnswer : AgentResponse :=
  {| ar_response := "Use the reset link.";
     ar_metadata :=
       {| md_confidence := low;
          md_guidesUsed := ["guides/reset.md"];
          md_flags := [] |} |}.

Definition structuredQuery (_ : QueryOptions) : SdkRun :=
  {| sdk_messages :=
       [SystemInit (Some "sess-3");
        AssistantMsg [ToolUseBlock "tool-1" "Read"];
        ResultSuccess None None (Some goodAnswer)];
     sdk_rejects := None |}.

(** A run with two success results: the first carries a structured answer
    of low confidence, the second, which ends the run, carries none.  No
    tool is used. *)
Definition staleOutputQuery (_ : QueryOptions) : SdkRun :=
  {| sdk_messages :=
       [SystemInit (Some "sess-6");
        ResultSuccess None None (Some goodAnswer);
        ResultSuccess None None None];
     sdk_rejects := None |}.

(** A streamed run: thinking in deltas, one tool call with its result, a
    success result without structured output. *)
Definition streamedQuery (_ : QueryOptions) : AgentStream.StreamRun :=
  {| AgentStream.run_messages :=
       [AgentStream.Init (Some "sess-4");
        AgentStream.Partial (AgentStream.ThinkingDelta "Let me look");
        AgentStream.Assistant
          [AgentStream.Thinking "Let me look";
           AgentStream.ToolUse "tool-1" "Grep" AgentStream.InputAbsent];
        AgentStream.User [AgentStream.ToolResult "tool-1" false "2 hits"];
        AgentStream.Success None None None];
     AgentStream.run_rejects := None |}.

(** A streamed run without tools or thinking. *)
Definition quietQuery (_ : QueryOptions) : AgentStream.StreamRun :=
  {| AgentStream.run_messages :=
       [AgentStream.Init (Some "sess-5");
        AgentStream.Success None None None];
     AgentStream.run_rejects := None |}.

End MoreExamples.

(** * Concrete inputs for the properties of the gateway *)

Module GatewayExamples.
Import Orchestrator.

(** A provider on which [npm install] ends with exit code 1. *)
Definition installFails (e : Env) : Env :=
  {| env_host := env_host e;
     env_hostLoad := env_hostLoad e;
     env_create := env_create e;
     env_writeFiles := env_writeFiles e;
     env_install := Resolves 9000 1;
     env_installStderr := Resolves 2 "npm ERR! ENOSPC";
     env_start := env_start e;
     env_domain := env_domain e;
     env_health := env_health e;
     env_timerLag := env_timerLag e;
     env_process := env_process e;
     env_stream := env_stream e;
     env_stop := env_stop e |}.

(** A provider on which the agent answers 503 to the buffered request. *)
Definition agentOverloaded (e : Env) : Env :=
  {| env_host := env_host e;
     env_hostLoad := env_hostLoad e;
     env_create := env_create e;
     env_writeFiles := env_writeFiles e;
     env_install := env_install e;
     env_installStderr := env_installStderr e;
     env_start := env_start e;
     env_domain := env_domain e;
     env_health := env_health e;
     env_timerLag := env_timerLag e;
     env_process :=
       Resolves 25
         {| pr_ok := false;
            pr_status := 503;
            pr_text := Resolves 1 "overloaded";
            pr_json := Rejects 1 "SyntaxError" |};
     env_stream := env_stream e;
     env_stop := env_stop e |}.

(** A provider on which the agent answers 502 to the streaming request and
    the sandbox cannot be stopped. *)
Definition streamRefused (e : Env) : Env :=
  {| env_host := env_host e;
     env_hostLoad := env_hostLoad e;
     env_create := env_create e;
     env_writeFiles := env_writeFiles e;
     env_install := env_install e;
     env_installStderr := env_installStderr e;
     env_start := env_start e;
     env_domain := env_domain e;
     env_health := env_health e;
     env_timerLag := env_timerLag e;
     env_process := env_process e;
     env_stream :=
       Resolves 30
         {| sr_ok := false;
            sr_status := 502;
            sr_body := None;
            sr_text := Resolves 2 "Bad Gateway" |};
     env_stop := Rejects 40 "sandbox gone" |}.

(** A host on which the skills directory of the agent [notes] holds a file
    named [__proto__], a sub-directory with one file, and a socket. *)
Definition notesHost : Host :=
  {| host_cwd := "/srv/orchestrator";
     host_agentConfigs :=
       {[ "notes" :=
            {| dir_claudeMd := Some "# Notes agent";
               dir_agentConfigJson := Some (Parses "{ maxTurns: 5 }");
               dir_skills :=
                 Some [FsFile "__proto__" "shadow";
                       FsDir "billing" [FsFile "SKILL.md" "refunds"];
                       FsOther "agent.sock"] |} ]};
     host_agentBundle := Some "// agent bundle";
     host_snapshotFile := None |}.

End GatewayExamples.

(** * Properties *)

(** ** The settings resolver *)

Section Resolver.
Import Agent.

Lemma filter_not_has (disabled l : list string) :
  List.filter (fun t => negb (has disabled t)) l
  = filter (fun t => t ∉ disabled) l.
Proof.
  induction l as [|t l IH]; [done|].
  cbn [List.filter]. rewrite filter_cons, IH. unfold has.
  destruct (decide (t ∉ disabled)) as [Hn|Hn].
  - by rewrite bool_decide_eq_false_2.
  - rewrite bool_decide_eq_true_2; [done|]. by apply dec_stable.
Qed.

Lemma filter_nothing_denied (l : list string) :
  filter (fun t => t ∉ @nil string) l = l.
Proof.
  induction l as [|t l IH]; [done|].
  rewrite filter_cons, IH. destruct (decide (t ∉ [])) as [|Hn]; [done|].
  exfalso. apply Hn. apply not_elem_of_nil.
Qed.

Lemma keepServers_lookup keep (servers : gmap string McpServerConfig) name srv :
  keepServers keep servers !! name = Some srv
  ↔ servers !! name = Some srv ∧ keep name = true.
Proof. unfold keepServers. by rewrite map_lookup_filter_Some. Qed.

Lemma has_true names name : has names name = true ↔ name ∈ names.
Proof. unfold has. apply bool_decide_eq_true. Qed.

Lemma not_has_true names name : negb (has names name) = true ↔ name ∉ names.
Proof.
  unfold has. rewrite negb_true_iff. apply bool_decide_eq_false.
Qed.


(** C3 (amended): under an override record for the modality, the tool
    allow-list in effect is the override's explicit allow-list when it gives
    one and the base list otherwise, and whenever the override gives a
    deny-list (with or without an explicit allow-list) its entries are
    removed from that list.  For the MCP servers the same two steps apply
    independently, where the list of enabled servers restricts the base
    servers to the named ones instead of replacing them. *)
Theorem C3_override_composition (config : AgentConfig) (modality : string)
    (ms : ModalityRuntimeSettings) :
  modality ≠ "" ->
  cfg_modalitySettings config ≫= (fun tbl => tbl !! modality) = Some ms ->
  let eff := getEffectiveSettings config (Some modality) in
  let allow := mrs_toolSettings ms ≫= ts_allowedTools in
  let deny := mrs_toolSettings ms ≫= ts_disabledTools in
  let enabled := mrs_mcpSettings ms ≫= ms_enabledServers in
  let disabled := mrs_mcpSettings ms ≫= ms_disabledServers in
  eff_allowedTools eff
  = filter (fun t => t ∉ default [] deny)
      (default (cfg_allowedTools config) allow)
  ∧ (deny = None -> eff_allowedTools eff
                    = default (cfg_allowedTools config) allow)
  ∧ (forall name srv,
       eff_mcpServers eff !! name = Some srv
       ↔ cfg_mcpServers config !! name = Some srv
         ∧ (forall e, enabled = Some e -> name ∈ e)
         ∧ (forall d, disabled = Some d -> name ∉ d)).
Proof.
  intros Hne Hms eff allow deny enabled disabled.
  assert (Htruthy : Js.truthy (Some modality) = Some modality).
  { unfold Js.truthy. by destruct (decide (modality = "")). }
  assert (Htools : eff_allowedTools eff
                   = filter (fun t => t ∉ default [] deny)
                       (default (cfg_allowedTools config) allow)).
  { subst eff. unfold getEffectiveSettings. rewrite Htruthy, Hms. cbn.
    fold allow deny.
    destruct allow as [a|], deny as [d|]; cbn;
      by rewrite ?filter_not_has, ?filter_nothing_denied. }
  split; [exact Htools|]. split.
  - intros Hd. rewrite Htools, Hd. cbn. apply filter_nothing_denied.
  - intros name srv. subst eff. unfold getEffectiveSettings.
    rewrite Htruthy, Hms. cbn. fold enabled disabled.
    destruct enabled as [e|], disabled as [d|]; cbn;
      rewrite ?keepServers_lookup, ?has_true, ?not_has_true.
    + split.
      * intros [[H1 H2] H3]. split; [done|]. split; intros ? [= <-]; done.
      * intros (H1 & H2 & H3). eauto.
    + split.
      * intros [H1 H2]. split; [done|]. split; [by intros ? [= <-]|done].
      * intros (H1 & H2 & _). eauto.
    + split.
      * intros [H1 H2]. split; [done|]. split; [done|by intros ? [= <-]].
      * intros (H1 & _ & H3). eauto.
    + split; [intros H1; by repeat split|by intros (H1 & _)].
Qed.

(** C3, as stated, fails: an override that gives both an explicit allow-list
    and a deny-list does not end with its allow-list; and a list of enabled
    servers does not become the server set. *)
Lemma C3_allow_list_does_not_win :
  ~ (forall (config : AgentConfig) (modality : string) ms ts allow deny,
       modality ≠ "" ->
       cfg_modalitySettings config ≫= (fun tbl => tbl !! modality) = Some ms ->
       mrs_toolSettings ms = Some ts ->
       ts_allowedTools ts = Some allow ->
       ts_disabledTools ts = Some deny ->
       eff_allowedTools (getEffectiveSettings config (Some modality)) = allow)
  ∧ eff_allowedTools (getEffectiveSettings Examples.cfgBoth (Some "chat"))
    = ["Read"]
  ∧ dom (eff_mcpServers (getEffectiveSettings Examples.cfgBoth (Some "chat")))
    = ({[ "docs" ]} : gset string).
Proof.
  split; [|split].
  - intros H.
    specialize (H Examples.cfgBoth "chat" Examples.chatOverride
                  {| ts_allowedTools := Some ["Read"; "Bash"];
                     ts_disabledTools := Some ["Bash"] |}
                  ["Read"; "Bash"] ["Bash"]).
    vm_compute in H.
    specialize (H ltac:(discriminate) eq_refl eq_refl eq_refl eq_refl).
    discriminate H.
  - by vm_compute.
  - by vm_compute.
Qed.

(** C3 at the configuration [cfgBoth], for the modality [chat]. *)
Lemma C3_override_composition_witness :
  "chat" ≠ ""
  ∧ cfg_modalitySettings Examples.cfgBoth ≫= (fun tbl => tbl !! "chat")
    = Some Examples.chatOverride
  ∧ eff_allowedTools (getEffectiveSettings Examples.cfgBoth (Some "chat"))
    = filter (fun t => t ∉ ["Bash"]) ["Read"; "Bash"].
Proof.
  assert (H1 : "chat" ≠ "") by discriminate.
  assert (H2 : cfg_modalitySettings Examples.cfgBoth
                 ≫= (fun tbl => tbl !! "chat")
               = Some Examples.chatOverride) by (vm_compute; reflexivity).
  split; [exact H1|]. split; [exact H2|].
  exact (proj1 (C3_override_composition Examples.cfgBoth "chat"
                  Examples.chatOverride H1 H2)).
Defined.

End Resolver.

(** ** Turns of the agent: the fallback reply and the session registry *)

Section Turns.
Import Agent.

Lemma runLoop_cons c m msgs st :
  runLoop c (m :: msgs) st = runLoop c msgs (onSdkMessage c m st).
Proof. reflexivity. Qed.

Lemma runLoop_app c msgs1 msgs2 st :
  runLoop c (msgs1 ++ msgs2) st = runLoop c msgs2 (runLoop c msgs1 st).
Proof. apply fold_left_app. Qed.

Lemma runLoop_locals c msgs loc sessions :
  noStructuredOutput msgs ->
  structuredMetadata loc = None ->
  structuredMetadata (runLoop c msgs (loc, sessions)).1 = None
  ∧ toolsUsed (runLoop c msgs (loc, sessions)).1
    = toolsUsed loc ++ toolsOf msgs.
Proof.
  intros Hno. revert loc sessions.
  induction Hno as [|m msgs Hm _ IH]; intros loc sessions Hnone.
  - cbn. by rewrite app_nil_r.
  - rewrite runLoop_cons.
    destruct (onSdkMessage c m (loc, sessions)) as [loc1 sessions1] eqn:Hstep.
    assert (structuredMetadata loc1 = None
            ∧ toolsUsed loc1
              = toolsUsed loc ++ toolsOf [m]) as [Hmd Htools].
    { unfold onSdkMessage in Hstep.
      destruct m as [sid| |content| | |u cost [out|]|sub];
        try contradiction; injection Hstep as <- _; cbn;
        rewrite ?app_nil_r; done. }
    destruct (IH loc1 sessions1 Hmd) as [IH1 IH2].
    split; [exact IH1|]. rewrite IH2, Htools. cbn. rewrite app_nil_r.
    by rewrite <- app_assoc.
Qed.

Lemma runLoop_sessions c msgs loc (sessions : gmap string string) :
  forall k,
    (runLoop c msgs (loc, sessions)).2 !! k
    = match Js.truthy c, capturedToken msgs with
      | Some conv, Some tok => if decide (conv = k) then Some tok
                               else sessions !! k
      | _, _ => sessions !! k
      end.
Proof.
  intros k. revert loc sessions.
  induction msgs as [|m msgs IH] using rev_ind; intros loc sessions.
  - cbn. by destruct (Js.truthy c).
  - rewrite runLoop_app.
    destruct (runLoop c msgs (loc, sessions)) as [loc1 sessions1] eqn:Hrun.
    specialize (IH loc sessions). rewrite Hrun in IH. cbn [snd] in IH.
    rewrite runLoop_cons. cbn [runLoop fold_left].
    unfold capturedToken. rewrite omap_app. cbn [omap].
    unfold onSdkMessage. cbn [snd].
    destruct m as [sid| |content| | |u cost out|sub]; cbn;
      rewrite ?app_nil_r; try (destruct (Js.truthy c); exact IH).
    destruct (Js.truthy c) as [conv|]; [|exact IH].
    destruct (Js.truthy sid) as [s|]; cbn.
    + rewrite last_snoc. rewrite lookup_insert.
      destruct (decide (conv = k)); [done|].
      rewrite IH. fold (capturedToken msgs).
      destruct (capturedToken msgs); [|done].
      by destruct (decide (conv = k)).
    + rewrite app_nil_r. exact IH.
Qed.

Lemma capturedToken_truthy msgs tok :
  capturedToken msgs = Some tok -> Js.truthy (Some tok) = Some tok.
Proof.
  unfold capturedToken. intros Hlast.
  assert (Hin : tok ∈ omap (fun m => match m with
                                      | SystemInit sid => Js.truthy sid
                                      | _ => None
                                      end) msgs).
  { apply last_Some in Hlast as [l' ->]. set_solver. }
  apply list_elem_of_omap in Hin as (m & _ & Hm).
  destruct m as [[sid|]| | | | | |]; try discriminate.
  cbn in Hm |- *. destruct (decide (sid = "")); [discriminate|].
  injection Hm as <-. by destruct (decide (sid = "")).
Qed.

(** What a turn does to the process: one more [query] call, whose [resume]
    option is the registered session of the conversation, and a registry
    that changes at most at the conversation of the turn. *)
Lemma processMessage_state onDisk query input p :
  exists o,
    queries (processMessage onDisk query input p).2 = queries p ++ [o]
    ∧ q_resume o
      = Js.truthy (Js.truthy (in_conversationId input)
                     ≫= (fun c => activeSessions p !! c))
    ∧ forall k,
        activeSessions (processMessage onDisk query input p).2 !! k
        = match Js.truthy (in_conversationId input),
                capturedToken (sdk_messages (query o)) with
          | Some conv, Some tok =>
              if decide (conv = k) then Some tok else activeSessions p !! k
          | _, _ => activeSessions p !! k
          end.
Proof.
  unfold processMessage.
  assert (Hcfg : activeSessions (getAgentConfig onDisk p).2 = activeSessions p
                 ∧ queries (getAgentConfig onDisk p).2 = queries p).
  { unfold getAgentConfig. by destruct (agentConfig p). }
  destruct (getAgentConfig onDisk p) as [config p0]. cbn [snd] in Hcfg.
  destruct Hcfg as [Hs Hq].
  match goal with
  | |- context [query ?opts] => set (o := opts)
  end.
  exists o.
  match goal with
  | |- context [runLoop ?c ?msgs ?st] =>
      pose proof (fun k => runLoop_sessions c msgs st.1 st.2 k) as Hloop;
      destruct (runLoop c msgs st) as [loc sessions] eqn:Hrun
  end.
  cbn [fst snd] in Hloop. rewrite Hrun in Hloop. cbn [snd] in Hloop.
  split; [|split].
  - destruct (sdk_rejects (query o)); cbn; by rewrite Hq.
  - subst o. cbn. rewrite Hs. by destruct (Js.truthy (in_conversationId input)).
  - intros k. rewrite <- Hs.
    destruct (sdk_rejects (query o)); cbn; apply Hloop.
Qed.

Lemma toolsOf_toolUses msgs : toolsOf msgs = toolUses msgs.
Proof.
  induction msgs as [|m msgs IH]; [done|].
  unfold toolsOf in *. cbn [flat_map]. rewrite IH.
  destruct m as [sid| |content| | |u cost so|sub]; try done.
  cbn [toolUses]. f_equal. unfold toolNames.
  induction content as [|b content IHc]; [done|].
  destruct b; cbn; by rewrite ?IHc.
Qed.

(** C10, as stated, fails: when an earlier success result of the run
    carried a structured output, a run that ends by a success result
    without one gives the apology with the confidence of the earlier
    output, here [low], although no tool was used and the statement asks
    for [medium]. *)
Lemma C10_earlier_output_decides_confidence :
  let run := MoreExamples.staleOutputQuery in
  let turn := processMessage defaultAgentConfig run
                (Examples.helloInput None) processStart in
  (forall o,
     sdk_rejects (run o) = None
     ∧ exists pre u cost,
         sdk_messages (run o) = pre ++ [ResultSuccess u cost None])
  ∧ (forall o, toolUses (sdk_messages (run o)) = [])
  ∧ exists result,
      turn.1 = Returned result
      ∧ res_response result
        = "I apologize, but I encountered an issue generating a response."
      ∧ res_confidence result = low
      ∧ forall o,
          ~ (res_confidence result
             = match toolUses (sdk_messages (run o)) with
               | [] => medium
               | _ :: _ => high
               end).
Proof.
  cbn zeta. split; [|split].
  - intros o. split; [reflexivity|].
    by exists [SystemInit (Some "sess-6");
               ResultSuccess None None (Some MoreExamples.goodAnswer)],
         None, None.
  - reflexivity.
  - eexists. split; [vm_compute; reflexivity|].
    split; [reflexivity|]. split; [reflexivity|]. intros o. discriminate.
Qed.

(** C10 (amended): when the run of the SDK ends, without a rejection, by a
    success result that carries no structured output, and no earlier
    message of the run carried one, [processMessage] returns; its response
    is the fixed apology, it has no metadata, its tools are the tools
    used in the run, and its confidence is [high] when a tool was used and
    [medium] otherwise. *)
Theorem C10_fallback_reply (onDisk : AgentConfig)
    (query : QueryOptions -> SdkRun) (input : ProcessMessageInput)
    (p : Process) :
  (forall o,
     sdk_rejects (query o) = None
     ∧ exists pre u cost,
         sdk_messages (query o) = pre ++ [ResultSuccess u cost None]
         ∧ noStructuredOutput pre) ->
  exists result o,
    (processMessage onDisk query input p).1 = Returned result
    ∧ last (queries (processMessage onDisk query input p).2) = Some o
    ∧ res_response result
      = "I apologize, but I encountered an issue generating a response."
    ∧ res_metadata result = None
    ∧ res_toolsUsed result = toolUses (sdk_messages (query o))
    ∧ res_confidence result
      = match toolUses (sdk_messages (query o)) with
        | [] => medium
        | _ :: _ => high
        end.
Proof.
  intros Hrun. unfold processMessage.
  destruct (getAgentConfig onDisk p) as [config p0].
  match goal with
  | |- context [query ?opts] => set (o := opts)
  end.
  destruct (Hrun o) as (Hrej & pre & u & cost & Hmsgs & Hno).
  rewrite Hrej, Hmsgs, runLoop_app.
  match goal with
  | |- context [runLoop ?c pre (?l, ?ss)] =>
      destruct (runLoop_locals c pre l ss Hno eq_refl) as [Hmd Htools];
      destruct (runLoop c pre (l, ss)) as [loc sessions]
  end.
  cbn [fst] in Hmd, Htools. cbn in Htools.
  assert (Hall : toolUses (pre ++ [ResultSuccess u cost None]) = toolsOf pre).
  { rewrite <- toolsOf_toolUses. unfold toolsOf. rewrite flat_map_app. cbn.
    by rewrite app_nil_r. }
  eexists. exists o. cbn.
  rewrite last_snoc, Hmd, Htools, Hmsgs, Hall.
  repeat split; reflexivity.
Qed.

(** C10 (amended) at a run that opens a session, uses the tool [Read] and
    ends by a success result without structured output: the reply is the
    apology, with the tool [Read] and confidence [high]. *)
Lemma C10_fallback_reply_witness :
  exists result,
    (processMessage defaultAgentConfig (Examples.bareQuery "sess-1")
       (Examples.helloInput None) processStart).1 = Returned result
    ∧ res_response result
      = "I apologize, but I encountered an issue generating a response."
    ∧ res_metadata result = None
    ∧ res_toolsUsed result = ["Read"]
    ∧ res_confidence result = high.
Proof.
  destruct (C10_fallback_reply defaultAgentConfig
              (Examples.bareQuery "sess-1") (Examples.helloInput None)
              processStart)
    as (result & o & Hret & _ & Hresp & Hmd & Htools & Hconf).
  - intros o. split; [reflexivity|].
    exists [SystemInit (Some "sess-1");
            AssistantMsg [ThinkingBlock "..."; ToolUseBlock "tool-1" "Read"]],
      None, None.
    split; [reflexivity|].
    repeat constructor.
  - exists result. split; [exact Hret|]. split; [exact Hresp|].
    split; [exact Hmd|]. split; [exact Htools|exact Hconf].
Defined.

(** C2, as stated, fails: when each turn meets a freshly started agent
    process, the session id that the first turn captured is not part of the
    second turn's [query] call. *)
Lemma C2_fresh_sandbox_forgets_token :
  let first := turnInFreshSandbox defaultAgentConfig
                 (Examples.bareQuery "sess-1")
                 (Examples.helloInput (Some "conv-1")) in
  let second := turnInFreshSandbox defaultAgentConfig
                  (Examples.bareQuery "sess-2")
                  (Examples.helloInput (Some "conv-1")) in
  activeSessions first.2 !! "conv-1" = Some "sess-1"
  ∧ q_resume <$> last (queries second.2) = Some None.
Proof. by vm_compute. Qed.

(** C2 (amended): for two sequential turns handled by the same agent
    process with the same non-empty conversation identifier, the second
    turn's [query] call resumes the session id captured from the first
    turn's run; and when the first turn has another identifier, the second
    turn's call carries what was registered for its own identifier before
    the first turn, whatever the first turn captured. *)
Theorem C2_session_continuity_in_one_process (onDisk : AgentConfig)
    (query1 query2 : QueryOptions -> SdkRun)
    (turn1 turn2 : ProcessMessageInput) (p : Process) (c : string) :
  c ≠ "" ->
  in_conversationId turn2 = Some c ->
  let p1 := (processMessage onDisk query1 turn1 p).2 in
  let p2 := (processMessage onDisk query2 turn2 p1).2 in
  exists o1 o2,
    queries p2 = queries p ++ [o1; o2]
    ∧ (in_conversationId turn1 = Some c ->
       forall tok,
         capturedToken (sdk_messages (query1 o1)) = Some tok ->
         q_resume o2 = Some tok)
    ∧ (in_conversationId turn1 ≠ Some c ->
       q_resume o2 = Js.truthy (activeSessions p !! c)).
Proof.
  intros Hc H2 p1 p2.
  assert (Htruthy : Js.truthy (Some c) = Some c).
  { unfold Js.truthy. by destruct (decide (c = "")). }
  destruct (processMessage_state onDisk query1 turn1 p)
    as (o1 & Hq1 & _ & Hs1).
  destruct (processMessage_state onDisk query2 turn2 p1)
    as (o2 & Hq2 & Hr2 & _).
  fold p1 in Hq1, Hs1. fold p2 in Hq2.
  exists o1, o2. split; [|split].
  - rewrite Hq2, Hq1, <- app_assoc. reflexivity.
  - intros H1 tok Htok. rewrite Hr2, H2, Htruthy. cbn.
    rewrite (Hs1 c), H1, Htruthy, Htok.
    destruct (decide (c = c)); [|done].
    by apply capturedToken_truthy in Htok.
  - intros H1. rewrite Hr2, H2, Htruthy. cbn. rewrite (Hs1 c).
    destruct (Js.truthy (in_conversationId turn1)) as [conv|] eqn:Hconv;
      [|done].
    destruct (capturedToken (sdk_messages (query1 o1))); [|done].
    destruct (decide (conv = c)) as [->|]; [|done].
    exfalso. apply H1. unfold Js.truthy in Hconv.
    destruct (in_conversationId turn1) as [v|]; [|done].
    destruct (decide (v = "")); [done|]. by injection Hconv as ->.
Qed.

(** C2 (amended) at two turns of the conversation [conv-1] in one process. *)
Lemma C2_session_continuity_in_one_process_witness :
  "conv-1" ≠ ""
  ∧ in_conversationId (Examples.helloInput (Some "conv-1")) = Some "conv-1"
  ∧ exists o1 o2,
      queries (processMessage defaultAgentConfig (Examples.bareQuery "sess-2")
                 (Examples.helloInput (Some "conv-1"))
                 (processMessage defaultAgentConfig
                    (Examples.bareQuery "sess-1")
                    (Examples.helloInput (Some "conv-1")) processStart).2).2
      = queries processStart ++ [o1; o2]
      ∧ (in_conversationId (Examples.helloInput (Some "conv-1"))
         = Some "conv-1" ->
         forall tok,
           capturedToken (sdk_messages (Examples.bareQuery "sess-1" o1))
           = Some tok ->
           q_resume o2 = Some tok)
      ∧ (in_conversationId (Examples.helloInput (Some "conv-1"))
         ≠ Some "conv-1" ->
         q_resume o2 = Js.truthy (activeSessions processStart !! "conv-1")).
Proof.
  split; [discriminate|]. split; [reflexivity|].
  apply (C2_session_continuity_in_one_process defaultAgentConfig
           (Examples.bareQuery "sess-1") (Examples.bareQuery "sess-2")
           (Examples.helloInput (Some "conv-1"))
           (Examples.helloInput (Some "conv-1")) processStart "conv-1").
  - discriminate.
  - reflexivity.
Defined.

End Turns.

(** ** The health poll *)

Section HealthPoll.
Import Orchestrator.

Variable env : Env.

Lemma healthAttempt_eq healthUrl w :
  healthAttempt env healthUrl w
  = (Returned (attemptPasses (env_health env (polls w))),
     afterAttempt env healthUrl w).
Proof.
  unfold healthAttempt, catch, bind, fetchHealth, afterAttempt, attemptPasses,
    attemptTime, elapse, record, ret, throw.
  destruct (env_health env (polls w)) as [ms|ms ok json|]; cbn.
  - destruct (N.leb_spec HEALTH_ATTEMPT_TIMEOUT_MS ms); cbn;
      do 2 f_equal; [rewrite N.min_r by done|rewrite N.min_l by lia]; done.
  - destruct (N.leb_spec HEALTH_ATTEMPT_TIMEOUT_MS ms) as [Hle|Hlt]; cbn.
    + rewrite N.min_r by done.
      assert ((ms <? HEALTH_ATTEMPT_TIMEOUT_MS)%N = false) as ->
        by (by apply N.ltb_ge).
      by destruct ok, json.
    + rewrite N.min_l by lia.
      assert ((ms <? HEALTH_ATTEMPT_TIMEOUT_MS)%N = true) as ->
        by (by apply N.ltb_lt).
      by destruct ok, json.
  - reflexivity.
Qed.

Lemma pollLoop_S fuel timeoutMs healthUrl deadline w :
  pollLoop env (S fuel) timeoutMs healthUrl deadline w
  = if now w <? deadline then
      if attemptPasses (env_health env (polls w))
      then (Returned tt, afterAttempt env healthUrl w)
      else pollLoop env fuel timeoutMs healthUrl deadline
             (afterSleep env HEALTH_POLL_INTERVAL_MS
                (afterAttempt env healthUrl w))
    else (Thrown (HealthCheckTimedOut timeoutMs healthUrl), w).
Proof.
  cbn [pollLoop]. unfold bind at 1. unfold dateNow.
  destruct (now w <? deadline); [|reflexivity].
  unfold bind at 1. rewrite healthAttempt_eq.
  destruct (attemptPasses (env_health env (polls w))); [reflexivity|].
  reflexivity.
Qed.

Lemma attemptTime_le r : (attemptTime r <= HEALTH_ATTEMPT_TIMEOUT_MS)%N.
Proof. destruct r; cbn [attemptTime]; lia. Qed.

(** The loop, for any bound on its unrolling: what the attempts made were,
    how many sleeps there were, and where the clock stands. *)
Lemma pollLoop_spec fuel timeoutMs healthUrl deadline :
  forall w r w',
    pollLoop env fuel timeoutMs healthUrl deadline w = (r, w') ->
    (polls w <= polls w')%nat
    ∧ (timers w <= timers w')%nat
    ∧ now w + 500 * Z.of_nat (timers w' - timers w) <= now w'
    ∧ (forall D L,
         (forall i, (polls w <= i < polls w')%nat ->
                    (attemptTime (env_health env i) <= D)%N) ->
         (forall i, (timers w <= i < timers w')%nat ->
                    (env_timerLag env i <= L)%N) ->
         now w' <= now w + Z.of_N D * Z.of_nat (polls w' - polls w)
                   + (500 + Z.of_N L) * Z.of_nat (timers w' - timers w))
    ∧ match r with
      | Returned _ =>
          (polls w < polls w')%nat
          ∧ attemptPasses (env_health env (polls w' - 1)) = true
          ∧ (timers w' - timers w = polls w' - polls w - 1)%nat
          ∧ (forall i, (polls w <= i < polls w' - 1)%nat ->
                       attemptPasses (env_health env i) = false)
      | Thrown e =>
          e = HealthCheckTimedOut timeoutMs healthUrl
          ∧ deadline <= now w'
          ∧ (timers w' - timers w = polls w' - polls w)%nat
          ∧ (forall i, (polls w <= i < polls w')%nat ->
                       attemptPasses (env_health env i) = false)
          ∧ (forall L,
               (forall i, (timers w <= i < timers w')%nat ->
                          (env_timerLag env i <= L)%N) ->
               now w' <= Z.max (now w) (deadline + 2499 + Z.of_N L))
      | OutOfFuel =>
          fuel = 0%nat ∨ 500 * (Z.of_nat fuel - 1) < deadline - now w
      end.
Proof.
  induction fuel as [|fuel IH]; intros w r w' Hrun.
  - cbn in Hrun. injection Hrun as <- <-.
    repeat split; lia.
  - rewrite pollLoop_S in Hrun.
    destruct (Z.ltb_spec (now w) deadline) as [Hlt|Hge].
    + destruct (attemptPasses (env_health env (polls w))) eqn:Hpass.
      * injection Hrun as <- <-. cbn.
        pose proof (attemptTime_le (env_health env (polls w))) as Hle.
        unfold HEALTH_ATTEMPT_TIMEOUT_MS in Hle.
        repeat split; try lia.
        -- intros D L HD _. specialize (HD (polls w) ltac:(lia)).
           replace (S (polls w) - polls w)%nat with 1%nat by lia. lia.
        -- by rewrite Nat.sub_0_r.
      * apply IH in Hrun. cbn in Hrun.
        destruct Hrun as (Hp & Ht & Hlo & Hhi & Hr).
        pose proof (attemptTime_le (env_health env (polls w))) as Hle.
        unfold HEALTH_ATTEMPT_TIMEOUT_MS in Hle.
        unfold HEALTH_POLL_INTERVAL_MS in *.
        assert (Hfail : forall i hi,
                  (forall j, (S (polls w) <= j < hi)%nat ->
                             attemptPasses (env_health env j) = false) ->
                  (polls w <= i < hi)%nat ->
                  attemptPasses (env_health env i) = false).
        { intros i hi Hrest Hi.
          destruct (decide (i = polls w)) as [->|]; [done|].
          apply Hrest. lia. }
        split; [lia|]. split; [lia|]. split; [lia|]. split.
        { intros D L HD HL.
          pose proof (HL (timers w) ltac:(lia)) as H0.
          pose proof (HD (polls w) ltac:(lia)) as H1.
          specialize (Hhi D L ltac:(intros i Hi; apply HD; lia)
                        ltac:(intros i Hi; apply HL; lia)).
          replace (polls w' - polls w)%nat
            with (S (polls w' - S (polls w))) by lia.
          replace (timers w' - timers w)%nat
            with (S (timers w' - S (timers w))) by lia.
          rewrite !Nat2Z.inj_succ. lia. }
        destruct r as [[]|e|].
        -- destruct Hr as (H1 & H2 & H3 & H4).
           repeat split; try lia; try done.
           intros i Hi. eapply Hfail; [exact H4|done].
        -- destruct Hr as (H1 & H2 & H3 & H4 & H5).
           repeat split; try lia; try done.
           ++ intros i Hi. eapply Hfail; [exact H4|done].
           ++ intros L HL.
              pose proof (HL (timers w) ltac:(lia)) as H0.
              specialize (H5 L ltac:(intros i Hi; apply HL; lia)). lia.
        -- right. destruct Hr as [->|Hr]; lia.
    + injection Hrun as <- <-.
      repeat split; lia.
Qed.

Lemma pollHealth_eq domainUrl timeoutMs w :
  pollHealth env domainUrl timeoutMs w
  = pollLoop env (pollFuel timeoutMs) timeoutMs (domainUrl +:+ "/health")
      (now w + timeoutMs) w.
Proof. reflexivity. Qed.

(** The bound on the unrolling is never reached. *)
Lemma pollHealth_total domainUrl timeoutMs w :
  (pollHealth env domainUrl timeoutMs w).1 ≠ OutOfFuel.
Proof.
  rewrite pollHealth_eq.
  destruct (pollLoop env (pollFuel timeoutMs) timeoutMs
              (domainUrl +:+ "/health") (now w + timeoutMs) w)
    as [r w'] eqn:Hrun.
  apply pollLoop_spec in Hrun as (_ & _ & _ & _ & Hr).
  destruct r as [?|?|]; cbn; try discriminate.
  exfalso. unfold pollFuel, HEALTH_POLL_INTERVAL_MS in Hr.
  destruct Hr as [Hr|Hr]; [discriminate|].
  destruct (Z.le_gt_cases 0 timeoutMs) as [Hpos|Hneg].
  - pose proof (Z.mul_succ_div_gt timeoutMs 500 ltac:(lia)).
    pose proof (Z.div_pos timeoutMs 500 Hpos ltac:(lia)).
    lia.
  - assert (timeoutMs / 500 < 0) by (apply Z.div_lt_upper_bound; lia).
    lia.
Qed.

(** C4 (amended): [pollHealth] always comes to an end; the only error it
    raises is the health time-out, and then the deadline has passed; it
    raises if and only if none of the attempts it made passed, where an
    attempt passes when it returns a success status with a body that reads
    as JSON; and every attempt that did not pass was followed by one sleep
    of at least the poll interval. *)
Theorem C4_poll_raises_iff_no_attempt_passes (domainUrl : string)
    (timeoutMs : Z) (w : World) :
  let r := (pollHealth env domainUrl timeoutMs w).1 in
  let w' := (pollHealth env domainUrl timeoutMs w).2 in
  let attempts := (polls w' - polls w)%nat in
  let sleeps := (timers w' - timers w)%nat in
  r ≠ OutOfFuel
  ∧ ((exists e, r = Thrown e)
     ↔ forall i, (i < attempts)%nat ->
                 attemptPasses (env_health env (polls w + i)) = false)
  ∧ (forall e, r = Thrown e ->
       e = HealthCheckTimedOut timeoutMs (domainUrl +:+ "/health")
       ∧ classify e = HealthTimeout
       ∧ now w + timeoutMs <= now w')
  ∧ sleeps = match r with
             | Returned _ => (attempts - 1)%nat
             | _ => attempts
             end
  ∧ now w + HEALTH_POLL_INTERVAL_MS * Z.of_nat sleeps <= now w'.
Proof.
  intros r w' attempts sleeps.
  pose proof (pollHealth_total domainUrl timeoutMs w) as Htotal.
  fold r in Htotal. subst r w' attempts sleeps.
  rewrite pollHealth_eq in *.
  destruct (pollLoop env (pollFuel timeoutMs) timeoutMs
              (domainUrl +:+ "/health") (now w + timeoutMs) w)
    as [r w'] eqn:Hrun.
  apply pollLoop_spec in Hrun as (Hp & Ht & Hlo & _ & Hr).
  cbn [fst snd] in *. unfold HEALTH_POLL_INTERVAL_MS.
  split; [exact Htotal|].
  destruct r as [[]|e|]; [| |done].
  - destruct Hr as (H1 & H2 & H3 & H4).
    split; [|split; [|split]]; try done; try lia.
    split.
    + intros [e He]. discriminate.
    + intros Hall. exfalso.
      specialize (Hall (polls w' - polls w - 1)%nat ltac:(lia)).
      replace (polls w + (polls w' - polls w - 1))%nat
        with (polls w' - 1)%nat in Hall by lia.
      congruence.
  - destruct Hr as (-> & H2 & H3 & H4 & _).
    split; [|split; [|split]]; try done; try lia.
    + split; [|by eauto].
      intros _ i Hi. apply H4. lia.
    + intros e [= <-]. done.
Qed.

(** C4, as stated, fails: with a health endpoint that answers 200 with a
    body that is not JSON, attempts return a success status and
    [pollHealth] raises all the same. *)
Lemma C4_success_status_is_not_enough :
  let env := Examples.healthyEnv None Examples.okButNotJson in
  let run := pollHealth env "https://sbx-1.example" HEALTH_POLL_TIMEOUT_MS
               (boot 0) in
  run.1 = Thrown (HealthCheckTimedOut 30000 "https://sbx-1.example/health")
  ∧ polls run.2 = 59%nat
  ∧ attemptStatusOk (env_health env 0) = true
  ∧ ~ ((exists e, run.1 = Thrown e)
       ↔ forall i, (i < polls run.2)%nat ->
                   attemptStatusOk (env_health env i) = false).
Proof.
  assert (Hrun :
    (pollHealth (Examples.healthyEnv None Examples.okButNotJson)
       "https://sbx-1.example" HEALTH_POLL_TIMEOUT_MS (boot 0)).1
    = Thrown (HealthCheckTimedOut 30000 "https://sbx-1.example/health")
    ∧ polls (pollHealth (Examples.healthyEnv None Examples.okButNotJson)
               "https://sbx-1.example" HEALTH_POLL_TIMEOUT_MS (boot 0)).2
      = 59%nat) by (by vm_compute).
  destruct Hrun as [Hr Hp]. cbn zeta.
  split; [exact Hr|]. split; [exact Hp|]. split; [reflexivity|].
  rewrite Hr, Hp. intros [Hall _].
  specialize (Hall ltac:(eauto) 0%nat ltac:(lia)). discriminate Hall.
Qed.

End HealthPoll.

(** ** The life cycle of a buffered request *)

Section Lifecycle.
Import Orchestrator.

Variable env : Env.

#[local] Arguments pollHealth : simpl never.
#[local] Arguments stops : simpl never.
#[local] Arguments created : simpl never.

Lemma stops_app sandbox l1 l2 :
  stops sandbox (l1 ++ l2) = (stops sandbox l1 + stops sandbox l2)%nat.
Proof. unfold stops. by rewrite List.filter_app, length_app. Qed.

Lemma created_app l1 l2 : created (l1 ++ l2) = created l1 || created l2.
Proof. unfold created. apply existsb_app. Qed.

(** The poll issues requests to the health endpoint and nothing else. *)
Lemma pollLoop_log fuel timeoutMs healthUrl deadline :
  forall w r w',
    pollLoop env fuel timeoutMs healthUrl deadline w = (r, w') ->
    exists n, log w' = log w ++ replicate n (Fetch "GET" healthUrl).
Proof.
  induction fuel as [|fuel IH]; intros w r w' Hrun.
  - injection Hrun as _ <-. exists 0%nat. by rewrite app_nil_r.
  - rewrite pollLoop_S in Hrun.
    destruct (now w <? deadline).
    + destruct (attemptPasses (env_health env (polls w))).
      * injection Hrun as _ <-. by exists 1%nat.
      * apply IH in Hrun as [n Hn]. exists (S n).
        rewrite Hn. cbn. by rewrite <- app_assoc.
    + injection Hrun as _ <-. exists 0%nat. by rewrite app_nil_r.
Qed.

Lemma stops_fetches sandbox n url :
  stops sandbox (replicate n (Fetch "GET" url)) = 0%nat.
Proof. induction n as [|n IH]; [done|]. exact IH. Qed.

(** The end of both branches of [setupSandbox_returns]: the poll is the
    last step, and the fields of the timing are differences of clock
    readings. *)
Ltac settle_setup H timing :=
  cbv beta iota zeta in H;
  match type of H with
  | context [pollHealth ?env ?u ?t ?w0] =>
      let Hpoll := fresh "Hpoll" in
      destruct (pollHealth env u t w0) as [[[]|?|] ?] eqn:Hpoll;
      try discriminate;
      injection H as <- <- <- <-;
      eexists; split; [exact Hpoll|]; cbn;
      split; [done|]; split; [lia|]; split;
      [intros ?; rewrite !stops_app; unfold stops; cbn; lia|];
      split;
      [rewrite !created_app;
       match goal with
       | |- context [created (log ?w)] => by destruct (created (log w))
       end|];
      destruct timing; cbn; [|done]; f_equal;
      unfold set_healthPoll, set_serverStart, set_fileWrite,
        set_sandboxCreate;
      cbn; f_equal; lia
  end.

Lemma setupSandbox_returns request timing w sb url timing' w' :
  setupSandbox env request timing w = (Returned (sb, url, timing'), w') ->
  exists w1,
    pollHealth env url HEALTH_POLL_TIMEOUT_MS w1 = (Returned tt, w')
    ∧ polls w1 = polls w
    ∧ now w1 = now w + Z.of_N (env_hostLoad env)
               + Z.of_N (replyTime (env_create env))
               + Z.of_N (replyTime (env_writeFiles env))
               + Z.of_N (installTime env)
               + Z.of_N (replyTime (env_start env))
    ∧ (forall sandbox, stops sandbox (log w1) = stops sandbox (log w))
    ∧ created (log w1) = true
    ∧ timing'
      = (fun t =>
           {| sandboxCreate := Z.of_N (replyTime (env_create env));
              fileWrite := Z.of_N (replyTime (env_writeFiles env));
              serverStart := Z.of_N (replyTime (env_start env));
              healthPoll := now w' - now w1;
              agentProcess := agentProcess t;
              total := total t |}) <$> timing.
Proof.
  intros H. unfold setupSandbox, installTime in *.
  unfold bind, liftEither, hostWork, dateNow, await, ret, throw in H.
  destruct (loadAgentConfig (env_host env) (req_agentId request)) as [e|cfg];
    [discriminate|].
  destruct (loadAgentBundle (env_host env)) as [e|bundle]; [discriminate|].
  destruct (env_create env) as [dc sbx|dc d1]; [|discriminate].
  destruct (env_writeFiles env) as [dw []|dw d2]; [|discriminate].
  assert (Hinstall :
    match getSnapshotId (env_host env) with
    | Some _ => True
    | None => exists di, env_install env = Resolves di 0
    end).
  { destruct (getSnapshotId (env_host env)); [done|].
    destruct (env_install env) as [di code|di d3]; [|discriminate].
    destruct (decide (code = 0)) as [->|]; [by eauto|].
    destruct (env_installStderr env); discriminate. }
  destruct (getSnapshotId (env_host env)) as [snap|].
  - destruct (env_start env) as [ds []|ds d4]; [|discriminate].
    settle_setup H timing.
  - destruct Hinstall as [di Hdi]. rewrite Hdi in H |- *.
    destruct (decide (0 = 0)); [|done].
    destruct (env_start env) as [ds []|ds d4]; [|discriminate].
    settle_setup H timing.
Qed.


(** Where [executeInSandbox] does release the sandbox: once [setupSandbox]
    has returned, [stop] is issued exactly once, whatever becomes of the
    proxied request and of [stop] itself; when [setupSandbox] throws, the
    error is passed on with the world as [setupSandbox] left it. *)
Lemma executeInSandbox_release request w :
  match setupSandbox env request (Some zeroTiming) w with
  | (Returned (sandbox, _, _), _) =>
      stops sandbox (log (executeInSandbox env request w).2)
      = S (stops sandbox (log w))
  | (Thrown e, w1) => executeInSandbox env request w = (Thrown e, w1)
  | (OutOfFuel, w1) => executeInSandbox env request w = (OutOfFuel, w1)
  end.
Proof.
  unfold executeInSandbox, executeInSandbox_try.
  destruct (setupSandbox env request (Some zeroTiming) w)
    as [[[[sb url] timing1]|e|] w1] eqn:Hsetup; [|done|done].
  apply setupSandbox_returns in Hsetup
    as (w0 & Hpoll & _ & _ & Hstops & _ & _).
  rewrite pollHealth_eq in Hpoll. apply pollLoop_log in Hpoll as [n Hlog].
  assert (Hw1 : stops sb (log w1) = stops sb (log w)).
  { rewrite Hlog, stops_app, stops_fetches, Hstops. lia. }
  unfold bind, dateNow, await, awaitBody, ret, throw, stopQuietly, catch.
  destruct (env_process env) as [dp res|dp d1];
    [destruct (pr_ok res);
     [destruct (pr_json res)|destruct (pr_text res)]|];
    destruct (env_stop env); cbn;
    rewrite !stops_app, Hw1; unfold stops; cbn;
    rewrite bool_decide_eq_true_2 by done; cbn; lia.
Qed.

End Lifecycle.

Section LifecycleAtExamples.
Import Orchestrator.



End LifecycleAtExamples.

(** ** Timing of the health poll *)

Section HealthTiming.
Import Orchestrator.

Variable env : Env.

#[local] Arguments pollHealth : simpl never.

(** C6 (amended), for timers that fire at most [L] ms late.  (1) When no
    attempt ever passes, [pollHealth] fails with the health time-out at
    least 30 s and less than 30 s + 2 s + 500 ms + [L] after it began.
    (2) When the first [n] attempts fail, each within [D] ms, the next one
    passes, and [n * (D + 500 + L)] ms is less than 30 s, [pollHealth]
    returns, at least [n * 500] ms after it began.  (3) Whenever
    [setupSandbox] returns after [n] failed attempts, the health-poll
    duration it reports is at least [n * 500] ms. *)
Theorem C6_health_poll_timing (L : N) :
  (forall i, (env_timerLag env i <= L)%N) ->
  (forall domainUrl w,
     (forall i, attemptPasses (env_health env (polls w + i)) = false) ->
     exists w',
       pollHealth env domainUrl HEALTH_POLL_TIMEOUT_MS w
       = (Thrown (HealthCheckTimedOut 30000 (domainUrl +:+ "/health")), w')
       ∧ classify (HealthCheckTimedOut 30000 (domainUrl +:+ "/health"))
         = HealthTimeout
       ∧ now w + 30000 <= now w'
       ∧ now w' < now w + 30000 + 2000 + 500 + Z.of_N L)
  ∧ (forall domainUrl w (n : nat) (D : N),
       (forall i, (i < n)%nat ->
          attemptPasses (env_health env (polls w + i)) = false
          ∧ (attemptTime (env_health env (polls w + i)) <= D)%N) ->
       attemptPasses (env_health env (polls w + n)) = true ->
       Z.of_nat n * (Z.of_N D + 500 + Z.of_N L) < 30000 ->
       exists w',
         pollHealth env domainUrl HEALTH_POLL_TIMEOUT_MS w = (Returned tt, w')
         ∧ now w + 500 * Z.of_nat n <= now w')
  ∧ (forall request timing w sandbox domainUrl timing' w' (n : nat),
       setupSandbox env request (Some timing) w
       = (Returned (sandbox, domainUrl, Some timing'), w') ->
       (forall i, (i < n)%nat ->
          attemptPasses (env_health env (polls w + i)) = false) ->
       500 * Z.of_nat n <= healthPoll timing').
Proof.
  intros Hlag. split; [|split].
  - intros domainUrl w Hnever.
    pose proof (pollHealth_total env domainUrl HEALTH_POLL_TIMEOUT_MS w)
      as Htotal.
    rewrite pollHealth_eq in *.
    destruct (pollLoop env (pollFuel HEALTH_POLL_TIMEOUT_MS)
                HEALTH_POLL_TIMEOUT_MS (domainUrl +:+ "/health")
                (now w + HEALTH_POLL_TIMEOUT_MS) w) as [r w'] eqn:Hrun.
    apply pollLoop_spec in Hrun as (Hp & Ht & Hlo & _ & Hr).
    unfold HEALTH_POLL_TIMEOUT_MS in *. cbn [fst] in Htotal.
    destruct r as [[]|e|]; [| |done].
    + exfalso. destruct Hr as (H1 & H2 & _).
      specialize (Hnever (polls w' - 1 - polls w)%nat).
      replace (polls w + (polls w' - 1 - polls w))%nat
        with (polls w' - 1)%nat in Hnever by lia.
      congruence.
    + destruct Hr as (-> & H2 & _ & _ & H5).
      exists w'. split; [reflexivity|]. split; [reflexivity|].
      split; [lia|].
      specialize (H5 L ltac:(intros i _; apply Hlag)). lia.
  - intros domainUrl w n D Hfail Hpass Hfit.
    pose proof (pollHealth_total env domainUrl HEALTH_POLL_TIMEOUT_MS w)
      as Htotal.
    rewrite pollHealth_eq in *.
    destruct (pollLoop env (pollFuel HEALTH_POLL_TIMEOUT_MS)
                HEALTH_POLL_TIMEOUT_MS (domainUrl +:+ "/health")
                (now w + HEALTH_POLL_TIMEOUT_MS) w) as [r w'] eqn:Hrun.
    apply pollLoop_spec in Hrun as (Hp & Ht & Hlo & Hhi & Hr).
    unfold HEALTH_POLL_TIMEOUT_MS in *. cbn [fst] in Htotal.
    destruct r as [[]|e|]; [| |done].
    + destruct Hr as (H1 & H2 & H3 & H4).
      assert (polls w' - 1 = polls w + n)%nat as Hlast.
      { destruct (Nat.lt_trichotomy (polls w' - 1) (polls w + n))
          as [Hlt|[Heq|Hgt]]; [|done|].
        - destruct (Hfail (polls w' - 1 - polls w)%nat ltac:(lia)) as [Hf _].
          replace (polls w + (polls w' - 1 - polls w))%nat
            with (polls w' - 1)%nat in Hf by lia.
          congruence.
        - specialize (H4 (polls w + n)%nat ltac:(lia)). congruence. }
      exists w'. split; [reflexivity|]. lia.
    + exfalso. destruct Hr as (_ & H2 & H3 & H4 & _).
      assert (polls w' - polls w <= n)%nat as Hfew.
      { destruct (Nat.le_gt_cases (polls w' - polls w) n); [done|].
        specialize (H4 (polls w + n)%nat ltac:(lia)). congruence. }
      specialize (Hhi D L).
      assert (now w' <= now w
                + Z.of_N D * Z.of_nat (polls w' - polls w)
                + (500 + Z.of_N L) * Z.of_nat (timers w' - timers w))
        as Hup.
      { apply Hhi; [|intros i _; apply Hlag].
        intros i Hi. destruct (Hfail (i - polls w)%nat ltac:(lia)) as [_ Hd].
        by replace (polls w + (i - polls w))%nat with i in Hd by lia. }
      rewrite H3 in Hup. nia.
  - intros request timing w sandbox domainUrl timing' w' n Hsetup Hfail.
    apply setupSandbox_returns in Hsetup
      as (w1 & Hpoll & Hpolls & _ & _ & _ & Ht).
    cbn in Ht. injection Ht as ->. cbn [healthPoll].
    rewrite pollHealth_eq in Hpoll.
    apply pollLoop_spec in Hpoll as (Hp & Htm & Hlo & _ & H1 & H2 & H3 & H4).
    assert (polls w1 + n <= polls w' - 1)%nat as Hmany.
    { destruct (Nat.le_gt_cases (polls w1 + n) (polls w' - 1)); [done|].
      specialize (Hfail (polls w' - 1 - polls w)%nat ltac:(lia)).
      replace (polls w + (polls w' - 1 - polls w))%nat
        with (polls w' - 1)%nat in Hfail by lia.
      congruence. }
    lia.
Qed.

End HealthTiming.

Section HealthTimingAtExamples.
Import Orchestrator.

(** C6, as stated, fails: a health endpoint that answers its first request
    with a 503 after 1999 ms and then stops answering makes [pollHealth]
    fail 32499 ms after it began, which is not less than 31 s. *)
Lemma C6_timeout_can_come_after_31s :
  let env := Examples.healthyEnv None Examples.slowThenSilent in
  let run := pollHealth env "https://sbx-1.example" HEALTH_POLL_TIMEOUT_MS
               (boot 0) in
  (forall i, attemptStatusOk (env_health env i) = false)
  ∧ run.1 = Thrown (HealthCheckTimedOut 30000 "https://sbx-1.example/health")
  ∧ now run.2 - now (boot 0) = 32499
  ∧ ~ (now run.2 - now (boot 0) < 31000).
Proof.
  cbn zeta. split; [by intros [|i]|].
  split; [by vm_compute|]. split; [by vm_compute|].
  vm_compute. discriminate.
Qed.

(** C6 (amended) at a server that refuses three connections and then is
    up, with exact timers. *)
Lemma C6_health_poll_timing_witness :
  (forall i, (env_timerLag
                (Examples.healthyEnv None Examples.upAfterThree) i <= 0)%N)
  ∧ exists w',
      pollHealth (Examples.healthyEnv None Examples.upAfterThree)
        "https://sbx-1.example" HEALTH_POLL_TIMEOUT_MS (boot 0)
      = (Returned tt, w')
      ∧ now (boot 0) + 500 * Z.of_nat 3 <= now w'.
Proof.
  assert (Hlag : forall i,
            (env_timerLag
               (Examples.healthyEnv None Examples.upAfterThree) i <= 0)%N).
  { intros i. cbn. lia. }
  split; [exact Hlag|].
  apply (proj1 (proj2 (C6_health_poll_timing
                         (Examples.healthyEnv None Examples.upAfterThree)
                         0%N Hlag))
           "https://sbx-1.example" (boot 0) 3%nat 5%N).
  - intros [|[|[|i]]] Hi; cbn; (split; [reflexivity|lia]) || lia.
  - reflexivity.
  - cbn. lia.
Defined.

End HealthTimingAtExamples.

(** ** Failures before and after the sandbox exists *)

Section Provisioning.
Import Orchestrator.

Variable env : Env.

Lemma loadAgentConfig_missing agentId :
  (forall d, host_agentConfigs (env_host env) !! agentId = Some d ->
             dir_claudeMd d = None ∨ dir_agentConfigJson d = None) ->
  exists e, loadAgentConfig (env_host env) agentId = inl e
            ∧ classify e = ConfigNotFound.
Proof.
  intros Hmissing. unfold loadAgentConfig.
  destruct (host_agentConfigs (env_host env) !! agentId) as [d|];
    [|by eauto].
  destruct (Hmissing d eq_refl) as [-> | Hcfg]; [by eauto|].
  destruct (dir_claudeMd d); rewrite ?Hcfg; by eauto.
Qed.

(** C5: when the instruction document or the structured configuration of
    the agent is missing on the host, provisioning and both ways of
    executing a request fail with the configuration-not-found error and
    leave the world as it was: no operation was issued to the provider, and
    no time has passed. *)
Theorem C5_missing_config_fails_before_any_provider_call
    (request : ProcessRequest) (timing : option ExecutionTiming)
    (w : World) :
  (forall d,
     host_agentConfigs (env_host env) !! req_agentId request = Some d ->
     dir_claudeMd d = None ∨ dir_agentConfigJson d = None) ->
  exists e,
    classify e = ConfigNotFound
    ∧ setupSandbox env request timing w = (Thrown e, w)
    ∧ executeInSandbox env request w = (Thrown e, w)
    ∧ executeInSandboxStream env request w = (Thrown e, w).
Proof.
  intros Hmissing.
  destruct (loadAgentConfig_missing (req_agentId request) Hmissing)
    as (e & Hload & Hclass).
  exists e. split; [exact Hclass|].
  assert (Hsetup : forall t, setupSandbox env request t w = (Thrown e, w)).
  { intros t. unfold setupSandbox. unfold bind at 1. by rewrite Hload. }
  split; [apply Hsetup|]. split.
  - unfold executeInSandbox, executeInSandbox_try. by rewrite Hsetup.
  - unfold executeInSandboxStream. unfold bind at 1. by rewrite Hsetup.
Qed.

(** C7: a [POST /process] whose body lacks [message] or [agentId] is
    answered by status 400 with a non-empty [error], and the world is as it
    was: nothing was asked of the provider. *)
Theorem C7_missing_field_is_rejected (body : RequestBody) (w : World) :
  body_message body = None ∨ body_agentId body = None ->
  exists error,
    postProcess env (Some body) w
    = (Returned {| status := 400; payload := ErrorJson error None |}, w)
    ∧ error ≠ ""
    ∧ log (postProcess env (Some body) w).2 = log w.
Proof.
  intros Hmissing. unfold postProcess, bind, catch, dateNow, reqJson, ret.
  destruct (Js.truthy (body_message body)) as [message|] eqn:Hm.
  - destruct Hmissing as [Hnone|Hnone].
    + rewrite Hnone in Hm. discriminate.
    + rewrite Hnone. cbn. by eexists.
  - cbn. by eexists.
Qed.

End Provisioning.

Section ProvisioningAtExamples.
Import Orchestrator.

(** C5 at the agent [draft], which has no [agent-config.json]. *)
Lemma C5_missing_config_fails_before_any_provider_call_witness :
  (forall d,
     host_agentConfigs (env_host Examples.draftEnv) !! "draft" = Some d ->
     dir_claudeMd d = None ∨ dir_agentConfigJson d = None)
  ∧ exists e,
      classify e = ConfigNotFound
      ∧ executeInSandbox Examples.draftEnv (Examples.requestFor "draft")
          (boot 0)
        = (Thrown e, boot 0).
Proof.
  assert (Hmissing : forall d,
            host_agentConfigs (env_host Examples.draftEnv) !! "draft" = Some d
            -> dir_claudeMd d = None ∨ dir_agentConfigJson d = None).
  { intros d Hd. vm_compute in Hd. injection Hd as <-. by right. }
  split; [exact Hmissing|].
  destruct (C5_missing_config_fails_before_any_provider_call
              Examples.draftEnv (Examples.requestFor "draft") None (boot 0)
              Hmissing) as (e & Hclass & _ & Hrun & _).
  by exists e.
Defined.

(** C7 at the body [{message: "hi"}]. *)
Lemma C7_missing_field_is_rejected_witness :
  (body_message (Examples.bodyOf (Some "hi") None) = None
   ∨ body_agentId (Examples.bodyOf (Some "hi") None) = None)
  ∧ exists error,
      postProcess (Examples.healthyEnv None Examples.readyAtOnce)
        (Some (Examples.bodyOf (Some "hi") None)) (boot 0)
      = (Returned {| status := 400; payload := ErrorJson error None |},
         boot 0)
      ∧ error ≠ "".
Proof.
  assert (Hmissing :
            body_message (Examples.bodyOf (Some "hi") None) = None
            ∨ body_agentId (Examples.bodyOf (Some "hi") None) = None)
    by (right; reflexivity).
  split; [exact Hmissing|].
  destruct (C7_missing_field_is_rejected
              (Examples.healthyEnv None Examples.readyAtOnce)
              (Examples.bodyOf (Some "hi") None) (boot 0) Hmissing)
    as (error & Hrun & Hne & _).
  by exists error.
Defined.

End ProvisioningAtExamples.

(** ** Release of the sandbox, and the two streaming handlers *)
Section StreamingHandlers.
Import Orchestrator.

Variable env : Env.

#[local] Arguments stops : simpl never.

Lemma cleanup_eq sandbox w :
  exists w',
    cleanup env sandbox w = (Returned tt, w')
    ∧ log w' = log w ++ [Stop sandbox]
    ∧ streams w' = streams w.
Proof.
  unfold cleanup, catch, await, ret.
  destruct (env_stop env) as [ms []|ms detail]; eexists; split; done.
Qed.

(** What the two streaming handlers deliver, for every upstream stream and
    every caller: once [executeInSandboxStream] has returned a stream that
    nobody reads yet, the handler of [server.ts] answers with a body that
    cannot be read, and the handler with the [TransformStream] hands the
    caller the chunks it takes; either way [stop] is issued once more. *)
Lemma streaming_handlers_differ (body : RequestBody) (message agentId : string)
    (demand : option nat) (w w1 : World) (stream : nat) (sandbox : string)
    (chunks : list string) (errors : bool) :
  Js.truthy (body_message body) = Some message ->
  Js.truthy (body_agentId body) = Some agentId ->
  executeInSandboxStream env (asProcessRequest body message agentId) w
  = (Returned (stream, sandbox), w1) ->
  streams w1 !! stream
  = Some {| rs_chunks := chunks; rs_errors := errors; rs_locked := false |} ->
  pipes w1 = [] ->
  (exists w',
     serve env (postProcessStream env) (Some body) demand w
     = (Returned ({| status := 200; payload := EventStream stream |},
                  {| received := []; bodyFailed := true |}), w')
     ∧ log w' = log w1 ++ [Stop sandbox])
  ∧ (exists w',
       serve env (postProcessStream_transform env) (Some body) demand w
       = (Returned ({| status := 200;
                       payload := EventStream (length (streams w1)) |},
                    {| received := taken demand chunks;
                       bodyFailed := false |}), w')
       ∧ log w' = log w1 ++ [Stop sandbox]).
Proof.
  intros Hm Ha Hexec Hs Hp.
  assert (Hlt : (stream < length (streams w1))%nat)
    by (by eapply lookup_lt_Some).
  split.
  - unfold serve, postProcessStream, bind at 1, catch, bind at 1, reqJson,
      ret at 1.
    rewrite Hm, Ha. unfold bind at 1. rewrite Hexec.
    unfold bind at 1, pipeTo_finally_cleanup. rewrite Hs.
    cbn -[lookup insert cleanup].
    unfold ret at 1, bind at 1, deliver. cbn -[lookup insert cleanup].
    rewrite (list_lookup_insert_eq (streams w1) stream _ Hlt).
    cbn -[lookup insert cleanup].
    rewrite Hp. cbn -[lookup insert cleanup]. unfold runPipe.
    cbn -[lookup insert cleanup].
    unfold bind.
    match goal with
    | |- context [cleanup env sandbox ?w0] =>
        destruct (cleanup_eq sandbox w0) as (w4 & Hc & Hlog & _); rewrite Hc
    end.
    cbn -[lookup insert cleanup].
    eexists. split; [reflexivity|]. by rewrite Hlog.
  - unfold serve, postProcessStream_transform, bind at 1, catch, bind at 1,
      reqJson, ret at 1.
    rewrite Hm, Ha. unfold bind at 1. rewrite Hexec.
    unfold bind at 1, newTransformStream, bind at 1, newReadable, ret at 1.
    unfold bind at 1, pipeTo_finally_cleanup.
    cbn -[lookup insert cleanup].
    rewrite (lookup_app_l (streams w1)) by done. rewrite Hs.
    cbn -[lookup insert cleanup].
    unfold ret at 1, bind at 1, deliver. cbn -[lookup insert cleanup].
    assert (Hnew : forall x fresh,
              <[stream:=x]> (streams w1 ++ [fresh]) !! length (streams w1)
              = Some fresh).
    { intros x fresh. rewrite list_lookup_insert_ne by lia.
      by apply list_lookup_middle. }
    rewrite !Hnew. cbn -[lookup insert cleanup].
    assert (Hnil : taken demand [] = [])
      by (destruct demand; [apply take_nil|done]).
    rewrite !Hnil. cbn -[lookup insert cleanup].
    rewrite Hp. cbn -[lookup insert cleanup]. unfold runPipe.
    cbn -[lookup insert cleanup].
    destruct (decide (Some (length (streams w1))
                      = Some (length (streams w1)))); [|done].
    unfold bind. cbn -[lookup insert cleanup].
    rewrite list_lookup_insert_ne by lia.
    rewrite list_lookup_insert_eq by (rewrite length_app; lia).
    cbn -[lookup insert cleanup].
    match goal with
    | |- context [cleanup env sandbox ?w0] =>
        destruct (cleanup_eq sandbox w0) as (w4 & Hc & Hlog & _); rewrite Hc
    end.
    cbn -[lookup insert cleanup].
    eexists. split; [by rewrite app_nil_r|]. by rewrite Hlog.
Qed.
End StreamingHandlers.


Section ReleaseAtExamples.
Import Orchestrator.

(** C1, on the code: when a step of [setupSandbox] after the creation of
    the sandbox fails (here the upload of the files, or the health poll),
    [executeInSandbox] and [executeInSandboxStream] raise the error with the
    sandbox created and [stop] never issued; the same happens when the
    streaming request itself is rejected.  On the path without failure
    [stop] is issued once. *)
Lemma C1_failure_after_create_leaves_sandbox_running :
  let healthy := Examples.healthyEnv (Some "snap_1") Examples.readyAtOnce in
  let silent := Examples.healthyEnv (Some "snap_1") Examples.slowThenSilent in
  let buffered := executeInSandbox (Examples.uploadFails healthy)
                    Examples.sampleRequest (boot 0) in
  let streamed := executeInSandboxStream (Examples.uploadFails healthy)
                    Examples.sampleRequest (boot 0) in
  let timedOut := executeInSandbox silent Examples.sampleRequest (boot 0) in
  let cutOff := executeInSandboxStream (Examples.agentUnreachable healthy)
                  Examples.sampleRequest (boot 0) in
  let fine := executeInSandbox healthy Examples.sampleRequest (boot 0) in
  (buffered.1 = Thrown (ProviderRejected "upload failed")
   ∧ created (log buffered.2) = true
   ∧ stops "sbx_1" (log buffered.2) = 0%nat)
  ∧ (streamed.1 = Thrown (ProviderRejected "upload failed")
     ∧ created (log streamed.2) = true
     ∧ stops "sbx_1" (log streamed.2) = 0%nat)
  ∧ (timedOut.1
     = Thrown (HealthCheckTimedOut 30000 "https://sbx-1.example/health")
     ∧ created (log timedOut.2) = true
     ∧ stops "sbx_1" (log timedOut.2) = 0%nat)
  ∧ (cutOff.1 = Thrown (FetchRejected "ECONNRESET")
     ∧ created (log cutOff.2) = true
     ∧ stops "sbx_1" (log cutOff.2) = 0%nat)
  ∧ (created (log fine.2) = true ∧ stops "sbx_1" (log fine.2) = 1%nat).
Proof. by vm_compute. Qed.

(** C9, on the code: for the same request and the same upstream stream of
    two chunks, the handler that pipes the upstream through a
    [TransformStream] delivers both chunks to the caller, while the handler
    that builds the response on the upstream and pipes that same stream
    into a fresh [WritableStream] delivers none: the pipe holds the lock of
    the response's body and drains it.  Both run [cleanup] once. *)
Lemma C9_direct_variant_delivers_no_bytes :
  let env := Examples.healthyEnv (Some "snap_1") Examples.readyAtOnce in
  let body := Some (Examples.bodyOf (Some "hi") (Some "sample")) in
  let direct := serve env (postProcessStream env) body None (boot 0) in
  let piped := serve env (postProcessStream_transform env) body None
                 (boot 0) in
  (exists reply,
     direct.1 = Returned (reply, {| received := []; bodyFailed := true |})
     ∧ status reply = 200)
  ∧ (exists reply,
       piped.1 = Returned (reply, {| received := ["event: start";
                                                  "event: done"];
                                     bodyFailed := false |})
       ∧ status reply = 200)
  ∧ stops "sbx_1" (log direct.2) = 1%nat
  ∧ stops "sbx_1" (log piped.2) = 1%nat.
Proof.
  cbn zeta. split; [|split; [|split]].
  - eexists. split; [by vm_compute|reflexivity].
  - eexists. split; [by vm_compute|reflexivity].
  - by vm_compute.
  - by vm_compute.
Qed.

End ReleaseAtExamples.

(** * Further properties *)

(** ** The settings resolver, beyond the override lists *)

Section ResolverMore.
Import Agent.

(** X1: without an override record for the modality, the tools and the MCP
    servers are those of the base configuration; the turn budget is the
    base one, capped at 15 for [chat] and at 10 for [voice], and the
    thinking budget is 5000 for these two and 10000 for every other
    modality, named or not. *)
Theorem X1_no_override_resolution (config : AgentConfig)
    (modality : option string) :
  (forall m, Js.truthy modality = Some m ->
             cfg_modalitySettings config ≫= (fun tbl => tbl !! m) = None) ->
  let eff := getEffectiveSettings config modality in
  eff_allowedTools eff = cfg_allowedTools config
  ∧ eff_mcpServers eff = cfg_mcpServers config
  ∧ (Js.truthy modality = Some "chat" ->
     eff_maxTurns eff = Z.min (cfg_maxTurns config) 15
     ∧ eff_maxThinkingTokens eff = 5000)
  ∧ (Js.truthy modality = Some "voice" ->
     eff_maxTurns eff = Z.min (cfg_maxTurns config) 10
     ∧ eff_maxThinkingTokens eff = 5000)
  ∧ (Js.truthy modality ≠ Some "chat" ->
     Js.truthy modality ≠ Some "voice" ->
     eff_maxTurns eff = cfg_maxTurns config
     ∧ eff_maxThinkingTokens eff = 10000)
  ∧ eff_maxTurns eff <= cfg_maxTurns config.
Proof.
  intros Hnone eff. subst eff. unfold getEffectiveSettings.
  destruct (Js.truthy modality) as [m|] eqn:Hm.
  - rewrite (Hnone m eq_refl). cbn.
    destruct (decide (m = "chat")) as [->|Hchat]; cbn.
    { split_and!; try done; try lia; by intros []. }
    destruct (decide (m = "voice")) as [->|Hvoice]; cbn.
    { split_and!; try done; try lia; intros; congruence. }
    split_and!; try done; try lia; intros; congruence.
  - cbn. split_and!; try done; lia.
Qed.

(** X2: an override record takes the place of the built-in caps, also
    where it is silent: the turn budget is the override's or else the base
    one, the thinking budget the override's or else 10000, for [chat] and
    [voice] as for any other modality. *)
Theorem X2_override_replaces_builtin_caps (config : AgentConfig)
    (modality : string) (ms : ModalityRuntimeSettings) :
  modality ≠ "" ->
  cfg_modalitySettings config ≫= (fun tbl => tbl !! modality) = Some ms ->
  let eff := getEffectiveSettings config (Some modality) in
  eff_maxTurns eff = default (cfg_maxTurns config) (mrs_maxTurns ms)
  ∧ eff_maxThinkingTokens eff = default 10000 (mrs_maxThinkingTokens ms).
Proof.
  intros Hne Hms eff. subst eff. unfold getEffectiveSettings.
  assert (Js.truthy (Some modality) = Some modality) as ->.
  { unfold Js.truthy. by destruct (decide (modality = "")). }
  by rewrite Hms.
Qed.

(** X3: whatever the configuration and the modality, every effective MCP
    server is a server of the base configuration, with its configuration
    unchanged, and every effective tool is a tool of the base list or of the
    explicit allow-list of the override in force. *)
Theorem X3_nothing_is_added (config : AgentConfig) (modality : option string) :
  let eff := getEffectiveSettings config modality in
  eff_mcpServers eff ⊆ cfg_mcpServers config
  ∧ forall t,
      t ∈ eff_allowedTools eff ->
      t ∈ cfg_allowedTools config
      ∨ exists m ms ts explicit,
          Js.truthy modality = Some m
          ∧ cfg_modalitySettings config ≫= (fun tbl => tbl !! m) = Some ms
          ∧ mrs_toolSettings ms = Some ts
          ∧ ts_allowedTools ts = Some explicit
          ∧ t ∈ explicit.
Proof.
  intros eff. subst eff. unfold getEffectiveSettings. split.
  - match goal with
    | |- context [let '(_, _) := ?x in _] => destruct x
    end.
    cbn. apply map_subseteq_spec. intros name srv.
    match goal with
    | |- context [?s ≫= ms_enabledServers] =>
        destruct (s ≫= ms_enabledServers), (s ≫= ms_disabledServers)
    end;
      rewrite ?keepServers_lookup; intros H;
      repeat (apply proj1 in H); exact H.
  - intros t.
    match goal with
    | |- context [let '(_, _) := ?x in _] => destruct x
    end.
    cbn.
    destruct (Js.truthy modality) as [m|]; [|by left].
    destruct (cfg_modalitySettings config ≫= (fun tbl => tbl !! m))
      as [ms|] eqn:Hms; [|by left].
    cbn. destruct (mrs_toolSettings ms) as [ts|] eqn:Hts; [|by left].
    cbn. intros Ht.
    assert (Hin : t ∈ default (cfg_allowedTools config) (ts_allowedTools ts)).
    { destruct (ts_allowedTools ts), (ts_disabledTools ts); cbn in *;
        rewrite ?filter_not_has in Ht; try done;
        by apply list_elem_of_filter in Ht as [_ ?]. }
    destruct (ts_allowedTools ts) as [explicit|] eqn:Hal; [|by left].
    right. by exists m, ms, ts, explicit.
Qed.

(** X4: a tool on the deny-list of the override in force is never among the
    effective tools, and a server on its list of disabled servers is never
    among the effective servers, whatever else the override says. *)
Theorem X4_denied_is_never_allowed (config : AgentConfig) (modality : string)
    (ms : ModalityRuntimeSettings) :
  modality ≠ "" ->
  cfg_modalitySettings config ≫= (fun tbl => tbl !! modality) = Some ms ->
  let eff := getEffectiveSettings config (Some modality) in
  (forall deny t,
     mrs_toolSettings ms ≫= ts_disabledTools = Some deny ->
     t ∈ deny -> t ∉ eff_allowedTools eff)
  ∧ (forall disabled name,
       mrs_mcpSettings ms ≫= ms_disabledServers = Some disabled ->
       name ∈ disabled -> eff_mcpServers eff !! name = None).
Proof.
  intros Hne Hms eff. subst eff. unfold getEffectiveSettings.
  assert (Js.truthy (Some modality) = Some modality) as ->.
  { unfold Js.truthy. by destruct (decide (modality = "")). }
  rewrite Hms. cbn. split.
  - intros deny t -> Hin Ht. rewrite filter_not_has in Ht.
    by apply list_elem_of_filter in Ht as [? _].
  - intros disabled name -> Hin.
    apply eq_None_not_Some. intros [srv Hsrv].
    apply keepServers_lookup in Hsrv as [_ Hkeep].
    by apply not_has_true in Hkeep.
Qed.

End ResolverMore.

Section ResolverMoreAtExamples.
Import Agent.

(** X1 at the default configuration, for the modality [chat]. *)
Lemma X1_no_override_resolution_witness :
  (forall m, Js.truthy (Some "chat") = Some m ->
             cfg_modalitySettings defaultAgentConfig
               ≫= (fun tbl => tbl !! m) = None)
  ∧ eff_maxTurns (getEffectiveSettings defaultAgentConfig (Some "chat"))
    <= cfg_maxTurns defaultAgentConfig.
Proof.
  assert (H : forall m, Js.truthy (Some "chat") = Some m ->
                        cfg_modalitySettings defaultAgentConfig
                          ≫= (fun tbl => tbl !! m) = None)
    by (intros m _; reflexivity).
  split; [exact H|].
  apply (X1_no_override_resolution defaultAgentConfig (Some "chat") H).
Defined.

(** X2 at a configuration whose override for [chat] sets nothing. *)
Lemma X2_override_replaces_builtin_caps_witness :
  "chat" ≠ ""
  ∧ cfg_modalitySettings MoreExamples.cfgEmptyChat
      ≫= (fun tbl => tbl !! "chat") = Some MoreExamples.emptyOverride
  ∧ eff_maxTurns (getEffectiveSettings MoreExamples.cfgEmptyChat (Some "chat"))
    = 20
  ∧ eff_maxThinkingTokens
      (getEffectiveSettings MoreExamples.cfgEmptyChat (Some "chat"))
    = 10000.
Proof.
  assert (H1 : "chat" ≠ "") by discriminate.
  assert (H2 : cfg_modalitySettings MoreExamples.cfgEmptyChat
                 ≫= (fun tbl => tbl !! "chat")
               = Some MoreExamples.emptyOverride) by (vm_compute; reflexivity).
  split; [exact H1|]. split; [exact H2|].
  exact (X2_override_replaces_builtin_caps MoreExamples.cfgEmptyChat "chat"
           MoreExamples.emptyOverride H1 H2).
Defined.

(** X4 at the configuration [cfgBoth]: [Bash] is denied for [chat]. *)
Lemma X4_denied_is_never_allowed_witness :
  "chat" ≠ ""
  ∧ cfg_modalitySettings Examples.cfgBoth ≫= (fun tbl => tbl !! "chat")
    = Some Examples.chatOverride
  ∧ "Bash" ∉ eff_allowedTools (getEffectiveSettings Examples.cfgBoth
                                 (Some "chat")).
Proof.
  assert (H1 : "chat" ≠ "") by discriminate.
  assert (H2 : cfg_modalitySettings Examples.cfgBoth
                 ≫= (fun tbl => tbl !! "chat")
               = Some Examples.chatOverride) by (vm_compute; reflexivity).
  split; [exact H1|]. split; [exact H2|].
  apply (proj1 (X4_denied_is_never_allowed Examples.cfgBoth "chat"
                  Examples.chatOverride H1 H2) ["Bash"] "Bash").
  - reflexivity.
  - apply list_elem_of_here.
Defined.

End ResolverMoreAtExamples.

(** ** Turns of the agent, beyond the fallback reply *)

Section TurnsMore.
Import Agent.

Lemma truthy_nonempty (s : string) : s ≠ "" -> Js.truthy (Some s) = Some s.
Proof. intros Hs. unfold Js.truthy. by destruct (decide (s = "")). Qed.

Lemma truthy_Some (o : option string) (s : string) :
  Js.truthy o = Some s -> o = Some s ∧ s ≠ "".
Proof.
  unfold Js.truthy. destruct o as [v|]; [|done].
  destruct (decide (v = "")); [done|]. by intros [= <-].
Qed.

Lemma getAgentConfig_sessions onDisk p :
  activeSessions (getAgentConfig onDisk p).2 = activeSessions p
  ∧ queries (getAgentConfig onDisk p).2 = queries p
  ∧ agentConfig (getAgentConfig onDisk p).2
    = Some (getAgentConfig onDisk p).1.
Proof.
  unfold getAgentConfig. destruct (agentConfig p) eqn:Hc; cbn; by rewrite ?Hc.
Qed.

(** The cache is filled by a turn and kept by it. *)
Lemma processMessage_config onDisk query input p :
  agentConfig (processMessage onDisk query input p).2
  = Some (default onDisk (agentConfig p)).
Proof.
  unfold processMessage.
  pose proof (getAgentConfig_sessions onDisk p) as (_ & _ & Hc).
  assert (Hd : (getAgentConfig onDisk p).1 = default onDisk (agentConfig p)).
  { unfold getAgentConfig. by destruct (agentConfig p). }
  destruct (getAgentConfig onDisk p) as [config p0]. cbn in Hc, Hd.
  match goal with
  | |- context [runLoop ?c ?msgs ?st] => destruct (runLoop c msgs st) as [??]
  end.
  match goal with
  | |- context [sdk_rejects ?r] => destruct (sdk_rejects r)
  end; cbn; by rewrite Hc, Hd.
Qed.

(** X5: the configuration file is read by the first turn of a process
    only: a later turn behaves the same whatever the file has become. *)
Theorem X5_config_is_read_once (onDisk onDisk' later : AgentConfig)
    (query query' : QueryOptions -> SdkRun)
    (first turn : ProcessMessageInput) (p : Process) :
  let p1 := (processMessage onDisk query first p).2 in
  processMessage later query' turn p1
  = processMessage onDisk' query' turn p1.
Proof.
  intros p1.
  pose proof (processMessage_config onDisk query first p) as Hc. fold p1 in Hc.
  unfold processMessage, getAgentConfig. by rewrite Hc.
Qed.

(** X6: when the run of the SDK ends by a rejection, [processMessage]
    raises that error, and the session id that an [init] message of the run
    carried is registered all the same; the [query] call is on record. *)
Theorem X6_rejected_turn_keeps_session (onDisk : AgentConfig)
    (query : QueryOptions -> SdkRun) (input : ProcessMessageInput)
    (p : Process) (c detail : string) :
  c ≠ "" ->
  in_conversationId input = Some c ->
  (forall o, sdk_rejects (query o) = Some detail) ->
  exists o,
    processMessage onDisk query input p
    = (Thrown (SdkThrew detail), (processMessage onDisk query input p).2)
    ∧ queries (processMessage onDisk query input p).2 = queries p ++ [o]
    ∧ forall tok,
        capturedToken (sdk_messages (query o)) = Some tok ->
        activeSessions (processMessage onDisk query input p).2 !! c
        = Some tok.
Proof.
  intros Hc Hin Hrej.
  destruct (processMessage_state onDisk query input p) as (o & Hq & _ & Hs).
  exists o. split; [|split; [exact Hq|]].
  - unfold processMessage.
    destruct (getAgentConfig onDisk p) as [config p0].
    match goal with
    | |- context [runLoop ?cv ?msgs ?st] =>
        destruct (runLoop cv msgs st) as [??]
    end.
    by rewrite Hrej.
  - intros tok Htok. rewrite (Hs c), Hin, (truthy_nonempty c Hc), Htok.
    by destruct (decide (c = c)).
Qed.

(** X7: a turn without conversation identifier (absent or empty) resumes
    nothing and leaves the session registry as it was. *)
Theorem X7_anonymous_turn_leaves_registry (onDisk : AgentConfig)
    (query : QueryOptions -> SdkRun) (input : ProcessMessageInput)
    (p : Process) :
  Js.truthy (in_conversationId input) = None ->
  activeSessions (processMessage onDisk query input p).2 = activeSessions p
  ∧ exists o,
      last (queries (processMessage onDisk query input p).2) = Some o
      ∧ q_resume o = None.
Proof.
  intros Hanon.
  destruct (processMessage_state onDisk query input p) as (o & Hq & Hr & Hs).
  split.
  - apply map_eq. intros k. by rewrite (Hs k), Hanon.
  - exists o. split; [by rewrite Hq, last_snoc|].
    by rewrite Hr, Hanon.
Qed.

(** X8: when the last success result of a run carries a structured
    output, the response is its text, and confidence, guides and metadata
    are those of its metadata, whatever tools were used. *)
Theorem X8_structured_output_is_returned (onDisk : AgentConfig)
    (query : QueryOptions -> SdkRun) (input : ProcessMessageInput)
    (p : Process) (out : AgentResponse) :
  (forall o,
     sdk_rejects (query o) = None
     ∧ exists pre u cost post,
         sdk_messages (query o)
         = pre ++ [ResultSuccess u cost (Some out)] ++ post
         ∧ Forall (fun m => match m with
                            | ResultSuccess _ _ _ => False
                            | _ => True
                            end) post) ->
  exists result,
    (processMessage onDisk query input p).1 = Returned result
    ∧ res_response result = ar_response out
    ∧ res_confidence result = md_confidence (ar_metadata out)
    ∧ res_guidesUsed result = md_guidesUsed (ar_metadata out)
    ∧ res_metadata result = Some (ar_metadata out).
Proof.
  intros Hrun. unfold processMessage.
  destruct (getAgentConfig onDisk p) as [config p0].
  match goal with
  | |- context [query ?opts] => set (o := opts)
  end.
  destruct (Hrun o) as (Hrej & pre & u & cost & post & Hmsgs & Hpost).
  rewrite Hrej, Hmsgs, !runLoop_app.
  match goal with
  | |- context [runLoop ?cv pre ?st] =>
      destruct (runLoop cv pre st) as [loc sessions]
  end.
  rewrite runLoop_cons. cbn [runLoop fold_left].
  match goal with
  | |- context [onSdkMessage ?cv ?m ?st] =>
      assert (Hstep : exists loc1 ss1,
                onSdkMessage cv m st = (loc1, ss1)
                ∧ responseText loc1 = ar_response out
                ∧ structuredMetadata loc1 = Some (ar_metadata out))
        by (unfold onSdkMessage; destruct (Js.truthy cv); by eexists _, _);
      destruct Hstep as (loc1 & ss1 & -> & Hresp & Hmd)
  end.
  fold (runLoop (in_conversationId input) post (loc1, ss1)).
  clear Hmsgs.
  assert (Hkeep : forall l ss,
            responseText l = ar_response out ->
            structuredMetadata l = Some (ar_metadata out) ->
            responseText (runLoop (in_conversationId input) post (l, ss)).1
            = ar_response out
            ∧ structuredMetadata
                (runLoop (in_conversationId input) post (l, ss)).1
              = Some (ar_metadata out)).
  { induction Hpost as [|m post Hm _ IH]; intros l ss Hl1 Hl2; [done|].
    rewrite runLoop_cons.
    destruct (onSdkMessage (in_conversationId input) m (l, ss))
      as [l' ss'] eqn:Hm'.
    assert (responseText l' = responseText l
            ∧ structuredMetadata l' = structuredMetadata l) as [E1 E2].
    { unfold onSdkMessage in Hm'.
      destruct m; try contradiction; injection Hm' as <- _; done. }
    apply IH; congruence. }
  destruct (Hkeep loc1 ss1 Hresp Hmd) as [H1 H2].
  destruct (runLoop (in_conversationId input) post (loc1, ss1))
    as [loc2 ss2].
  cbn in H1, H2. eexists. cbn. rewrite H1, H2. done.
Qed.

End TurnsMore.

Section TurnsMoreAtExamples.
Import Agent.

(** X6 at a run that opens the session [sess-9] and then breaks. *)
Lemma X6_rejected_turn_keeps_session_witness :
  "conv-1" ≠ ""
  ∧ activeSessions
      (processMessage defaultAgentConfig MoreExamples.rejectingQuery
         (Examples.helloInput (Some "conv-1")) processStart).2 !! "conv-1"
    = Some "sess-9".
Proof.
  assert (H1 : "conv-1" ≠ "") by discriminate.
  split; [exact H1|].
  destruct (X6_rejected_turn_keeps_session defaultAgentConfig
              MoreExamples.rejectingQuery
              (Examples.helloInput (Some "conv-1")) processStart
              "conv-1" "socket hang up" H1 eq_refl
              (fun _ => eq_refl)) as (o & _ & _ & Htok).
  apply Htok. reflexivity.
Defined.

(** X7 at a turn without conversation identifier. *)
Lemma X7_anonymous_turn_leaves_registry_witness :
  Js.truthy (in_conversationId (Examples.helloInput None)) = None
  ∧ activeSessions
      (processMessage defaultAgentConfig (Examples.bareQuery "sess-1")
         (Examples.helloInput None) processStart).2
    = activeSessions processStart.
Proof.
  split; [reflexivity|].
  apply (X7_anonymous_turn_leaves_registry defaultAgentConfig
           (Examples.bareQuery "sess-1") (Examples.helloInput None)
           processStart eq_refl).
Defined.

(** X8 at a run that ends by a structured answer of low confidence. *)
Lemma X8_structured_output_is_returned_witness :
  exists result,
    (processMessage defaultAgentConfig MoreExamples.structuredQuery
       (Examples.helloInput None) processStart).1 = Returned result
    ∧ res_response result = "Use the reset link."
    ∧ res_confidence result = low.
Proof.
  destruct (X8_structured_output_is_returned defaultAgentConfig
              MoreExamples.structuredQuery (Examples.helloInput None)
              processStart MoreExamples.goodAnswer) as (r & Hr & H1 & H2 & _).
  - intros o. split; [reflexivity|].
    exists [SystemInit (Some "sess-3");
            AssistantMsg [ToolUseBlock "tool-1" "Read"]], None, None, [].
    split; [reflexivity|constructor].
  - by exists r.
Defined.

End TurnsMoreAtExamples.

(** ** The prompt *)

Section Prompt.
Import Agent.

(** X9: the context string is empty exactly when the input carries no
    conversation id, no customer id, no customer e-mail and no modality
    (absent or empty); then, and only then, the prompt of the [query] call
    is the message itself. *)
Theorem X9_prompt_is_the_message_without_context (onDisk : AgentConfig)
    (query : QueryOptions -> SdkRun) (input : ProcessMessageInput)
    (p : Process) :
  let bare :=
    Js.truthy (in_conversationId input) = None
    ∧ Js.truthy (in_customerId input) = None
    ∧ Js.truthy (in_metadata input ≫= meta_customerEmail) = None
    ∧ Js.truthy (in_metadata input ≫= meta_modality) = None in
  (buildContextString input = "" ↔ bare)
  ∧ exists o,
      last (queries (processMessage onDisk query input p).2) = Some o
      ∧ (bare -> q_prompt o = in_message input)
      ∧ (~ bare ->
         q_prompt o
         = buildContextString input +:+ "Customer message:" +:+ Js.nl
             +:+ in_message input).
Proof.
  intros bare.
  assert (Hiff : buildContextString input = "" ↔ bare).
  { subst bare. unfold buildContextString.
    destruct (Js.truthy (in_conversationId input)),
      (Js.truthy (in_customerId input)),
      (in_metadata input) as [md|]; cbn;
      try destruct (Js.truthy (meta_customerEmail md));
      try destruct (Js.truthy (meta_modality md));
      cbn; split; try done; intros (? & ? & ? & ?); done. }
  split; [exact Hiff|].
  unfold processMessage.
  destruct (getAgentConfig onDisk p) as [config p0].
  match goal with
  | |- context [query ?opts] => set (o := opts)
  end.
  exists o.
  match goal with
  | |- context [runLoop ?c ?msgs ?st] => destruct (runLoop c msgs st) as [??]
  end.
  split.
  - destruct (sdk_rejects (query o)); cbn; by rewrite last_snoc.
  - subst o. cbn.
    destruct (decide (buildContextString input = "")) as [He|He].
    + split; [done|]. intros Hn. exfalso. by apply Hn, Hiff.
    + split; [|done]. intros Hb. exfalso. by apply He, Hiff.
Qed.

End Prompt.

(** ** The streaming turn *)

Section Streaming.
Import Agent AgentStream.

Lemma streamLoop_app c msgs1 msgs2 st :
  streamLoop c (msgs1 ++ msgs2) st
  = let '(a, st1) := streamLoop c msgs1 st in
    let '(b, st2) := streamLoop c msgs2 st1 in
    (a ++ b, st2).
Proof.
  revert st. induction msgs1 as [|m msgs1 IH]; intros st; cbn.
  - by destruct (streamLoop c msgs2 st).
  - destruct (onMessage c m st) as [here st1]. rewrite IH.
    destruct (streamLoop c msgs1 st1) as [a st2].
    destruct (streamLoop c msgs2 st2) as [b st3].
    by rewrite app_assoc.
Qed.

(** The registry goes through the streaming loop as through the loop of
    [processMessage]. *)
Lemma streamLoop_sessions c msgs loc l (ss : gmap string string) :
  (streamLoop c msgs (loc, ss)).2.2
  = (runLoop c (map plainMessage msgs) (l, ss)).2.
Proof.
  revert loc l ss. induction msgs as [|m msgs IH]; intros loc l ss; [done|].
  cbn [streamLoop map]. rewrite runLoop_cons.
  destruct (onMessage c m (loc, ss)) as [here [loc1 ss1]] eqn:Hm.
  destruct (onSdkMessage c (plainMessage m) (l, ss)) as [l1 ss1'] eqn:Hp.
  assert (ss1 = ss1') as <-.
  { unfold onMessage in Hm. unfold onSdkMessage in Hp.
    destruct m as [sid| |content|content|[t|]|u cost [out|]|sub errs];
      cbn in Hm, Hp;
      repeat match type of Hm with
             | context [overBlocks ?f ?bs ?x] =>
                 destruct (overBlocks f bs x) as [??]
             end;
      destruct (Js.truthy c); try destruct (Js.truthy sid);
      by simplify_eq. }
  specialize (IH loc1 l1 ss1).
  destruct (streamLoop c msgs (loc1, ss1)) as [there st2]. exact IH.
Qed.

Lemma capturedToken_plain msgs :
  capturedToken (map plainMessage msgs) = streamedToken msgs.
Proof.
  unfold capturedToken, streamedToken. f_equal.
  induction msgs as [|m msgs IH]; [done|].
  cbn [map omap list_omap]. rewrite IH.
  by destruct m as [sid| |content|content|ev|u cost so|sub errs].
Qed.

(** X10: sessions in the streaming turn.  [processMessageStream] makes one
    [query] call, whose [resume] option is the session registered for the
    conversation of the turn; afterwards the registry holds, for that
    conversation, the session id of the last [init] message of the run that
    carried a non-empty one, and is unchanged for every other
    conversation, and for this one too when the turn has no conversation
    identifier or the run no such message; all this whether the run ends
    well, in an error result or by a rejection. *)
Theorem X10_streaming_turn_keeps_sessions (onDisk : AgentConfig)
    (query : QueryOptions -> StreamRun) (input : ProcessMessageInput)
    (p : Process) :
  exists o,
    queries (processMessageStream onDisk query input p).2 = queries p ++ [o]
    ∧ q_resume o
      = Js.truthy (Js.truthy (in_conversationId input)
                     ≫= (fun c => activeSessions p !! c))
    ∧ forall k,
        activeSessions (processMessageStream onDisk query input p).2 !! k
        = match Js.truthy (in_conversationId input),
                streamedToken (run_messages (query o)) with
          | Some conv, Some tok =>
              if decide (conv = k) then Some tok else activeSessions p !! k
          | _, _ => activeSessions p !! k
          end.
Proof.
  unfold processMessageStream.
  assert (Hcfg : activeSessions (getAgentConfig onDisk p).2 = activeSessions p
                 ∧ queries (getAgentConfig onDisk p).2 = queries p).
  { unfold getAgentConfig. by destruct (agentConfig p). }
  destruct (getAgentConfig onDisk p) as [config p0]. cbn [snd] in Hcfg.
  destruct Hcfg as [Hs Hq].
  match goal with
  | |- context [query ?opts] => set (o := opts)
  end.
  exists o.
  match goal with
  | |- context [streamLoop ?c ?msgs (?loc, ?ss)] =>
      pose proof (streamLoop_sessions c msgs loc
                    {| toolsUsed := []; responseText := "";
                       usage := {| inputTokens := 0; outputTokens := 0;
                                   totalCostUsd := 0 |};
                       structuredMetadata := None |} ss) as Hloop;
      destruct (streamLoop c msgs (loc, ss)) as [chunks [loc' ss']]
  end.
  cbn [fst snd] in Hloop.
  split; [|split].
  - destruct (run_rejects (query o)); cbn; by rewrite Hq.
  - subst o. cbn. rewrite Hs. by destruct (Js.truthy (in_conversationId input)).
  - intros k. rewrite <- Hs, <- capturedToken_plain.
    assert (activeSessions
              match run_rejects (query o) with
              | Some detail =>
                  (chunks ++ [ErrorChunk detail],
                   {| activeSessions := ss'; agentConfig := agentConfig p0;
                      queries := queries p0 ++ [o] |})
              | None =>
                  (chunks,
                   {| activeSessions := ss'; agentConfig := agentConfig p0;
                      queries := queries p0 ++ [o] |})
              end.2 = ss') as -> by (by destruct (run_rejects (query o))).
    rewrite Hloop. apply runLoop_sessions.
Qed.

(** *** Tool starts and tool ends *)

Lemma paired_mono (s s' : list (string * string)) chunks :
  (forall x, x ∈ s -> x ∈ s') -> paired s chunks -> paired s' chunks.
Proof.
  revert s s'. induction chunks as [|c chunks IH]; intros s s' Hsub; [done|].
  destruct c; cbn; try (by apply IH).
  - apply IH. intros x. rewrite !elem_of_cons.
    intros [->|Hx]; [by left|right; by apply Hsub].
  - intros [Hn Hp]. split; [|by eapply IH].
    destruct Hn as [->|Hin]; [by left|right; by apply Hsub].
Qed.

Lemma paired_app (s : list (string * string)) a b :
  paired s a -> paired (startsOf a ++ s) b -> paired s (a ++ b).
Proof.
  revert s. induction a as [|c a IH]; intros s Ha Hb; [done|].
  destruct c; cbn in *; try (by apply IH).
  - apply IH; [done|]. eapply paired_mono; [|exact Hb].
    intros x. rewrite !elem_of_cons, !elem_of_app, !elem_of_cons.
    tauto.
  - destruct Ha as [Hn Ha]. split; [done|]. by apply IH.
Qed.

Lemma startsOf_app a b : startsOf (a ++ b) = startsOf a ++ startsOf b.
Proof. apply omap_app. Qed.

Lemma onBlock_paired b loc s :
  announced loc s ->
  paired s (onBlock b loc).1
  ∧ announced (onBlock b loc).2 (startsOf (onBlock b loc).1 ++ s).
Proof.
  intros Hinv. destruct b as [t|t|id name input]; cbn.
  - done.
  - destruct (hasStreamedThinking loc); cbn; done.
  - assert (Hann : announced
                     {| sl_toolsUsed := sl_toolsUsed loc ++ [name];
                        pendingTools := <[id:=name]> (pendingTools loc);
                        hasStreamedThinking := hasStreamedThinking loc |}
                     ((id, name) :: s)).
    { intros id' name'. cbn. rewrite lookup_insert.
      destruct (decide (id = id')) as [->|]; rewrite elem_of_cons.
      - intros [= ->]. by left.
      - intros H. right. by apply Hinv. }
    destruct input as [|raw|raw [todos|]]; cbn; try done.
    destruct (decide (name = "TodoWrite")); cbn; done.
Qed.

Lemma onUserBlock_paired b loc s :
  announced loc s ->
  paired s (onUserBlock b loc).1
  ∧ announced (onUserBlock b loc).2 (startsOf (onUserBlock b loc).1 ++ s).
Proof.
  intros Hinv. destruct b as [id is_error content|]; cbn; [|done].
  split.
  - split; [|done].
    destruct (pendingTools loc !! id) as [name|] eqn:Hp; cbn; [|by left].
    destruct (decide (name = "")); cbn; [by left|]. right. by apply Hinv.
  - intros id' name'. cbn. rewrite lookup_delete_Some.
    intros [_ H]. by apply Hinv.
Qed.

Lemma overBlocks_paired {B : Type}
    (step : B -> StreamLocals -> list StreamChunk * StreamLocals) :
  (forall b loc s,
     announced loc s ->
     paired s (step b loc).1
     ∧ announced (step b loc).2 (startsOf (step b loc).1 ++ s)) ->
  forall blocks loc s,
    announced loc s ->
    paired s (overBlocks step blocks loc).1
    ∧ announced (overBlocks step blocks loc).2
        (startsOf (overBlocks step blocks loc).1 ++ s).
Proof.
  intros Hstep blocks. induction blocks as [|b blocks IH]; intros loc s Hinv.
  - done.
  - cbn. destruct (Hstep b loc s Hinv) as [H1 H2].
    destruct (step b loc) as [here loc1]. cbn in H1, H2.
    destruct (IH loc1 _ H2) as [H3 H4].
    destruct (overBlocks step blocks loc1) as [there loc2]. cbn in *.
    split; [by apply paired_app|].
    intros id name Hp. specialize (H4 id name Hp).
    rewrite startsOf_app. revert H4. rewrite !elem_of_app. tauto.
Qed.

Lemma streamLoop_paired c msgs :
  forall loc ss s,
    announced loc s ->
    paired s (streamLoop c msgs (loc, ss)).1
    ∧ announced (streamLoop c msgs (loc, ss)).2.1
        (startsOf (streamLoop c msgs (loc, ss)).1 ++ s).
Proof.
  induction msgs as [|m msgs IH]; intros loc ss s Hinv; [done|].
  cbn [streamLoop].
  assert (Hm : paired s (onMessage c m (loc, ss)).1
               ∧ announced (onMessage c m (loc, ss)).2.1
                   (startsOf (onMessage c m (loc, ss)).1 ++ s)).
  { unfold onMessage.
    destruct m as [sid| |content|content|[t|]|u cost [out|]|sub errs];
      cbn; try done.
    - pose proof (overBlocks_paired onBlock onBlock_paired content loc s Hinv)
        as H.
      by destruct (overBlocks onBlock content loc).
    - pose proof (overBlocks_paired onUserBlock onUserBlock_paired content
                    loc s Hinv) as H.
      by destruct (overBlocks onUserBlock content loc). }
  destruct (onMessage c m (loc, ss)) as [here [loc1 ss1]].
  cbn in Hm. destruct Hm as [H1 H2].
  destruct (IH loc1 ss1 _ H2) as [H3 H4].
  destruct (streamLoop c msgs (loc1, ss1)) as [there [loc2 ss2]]. cbn in *.
  split; [by apply paired_app|].
  intros id name Hp. specialize (H4 id name Hp).
  rewrite startsOf_app. revert H4. rewrite !elem_of_app. tauto.
Qed.

(** X11: in the chunks of a streaming turn, every [tool_end] names either
    [unknown] or the tool of an earlier [tool_start] with the same id. *)
Theorem X11_tool_end_names_a_started_tool (onDisk : AgentConfig)
    (query : QueryOptions -> StreamRun) (input : ProcessMessageInput)
    (p : Process) :
  paired [] (processMessageStream onDisk query input p).1.
Proof.
  unfold processMessageStream.
  destruct (getAgentConfig onDisk p) as [config p0].
  match goal with
  | |- context [query ?opts] => set (o := opts)
  end.
  match goal with
  | |- context [streamLoop ?c ?msgs (?loc, ?ss)] =>
      assert (Hinv : announced loc [])
        by (intros ??; cbn; by rewrite lookup_empty);
      destruct (streamLoop_paired c msgs loc ss [] Hinv) as [Hp _];
      destruct (streamLoop c msgs (loc, ss)) as [chunks [loc' ss']]
  end.
  cbn in Hp.
  destruct (run_rejects (query o)); cbn; [|done].
  by apply paired_app.
Qed.

(** *** Thinking, tool starts and the final chunk *)

#[local] Arguments thinkingChunks : simpl never.
#[local] Arguments toolStarts : simpl never.
#[local] Arguments doneChunks : simpl never.
#[local] Arguments thinkingDeltas : simpl never.
#[local] Arguments thinkingBlocks : simpl never.

Lemma thinkingChunks_app a b :
  thinkingChunks (a ++ b) = thinkingChunks a ++ thinkingChunks b.
Proof. apply omap_app. Qed.

Lemma toolStarts_app a b : toolStarts (a ++ b) = toolStarts a ++ toolStarts b.
Proof. apply omap_app. Qed.

Lemma doneChunks_app a b : doneChunks (a ++ b) = doneChunks a ++ doneChunks b.
Proof. apply List.filter_app. Qed.

(** The blocks of an assistant message: the flag is left alone, a thinking
    block is yielded when the flag is down, a tool use always gives one
    start, and no final chunk is yielded. *)
Lemma overBlocks_onBlock content loc :
  hasStreamedThinking (overBlocks onBlock content loc).2
  = hasStreamedThinking loc
  ∧ thinkingChunks (overBlocks onBlock content loc).1
    = (if hasStreamedThinking loc then []
       else thinkingBlocks [Assistant content])
  ∧ toolStarts (overBlocks onBlock content loc).1
    = toolNames (map plainBlock content)
  ∧ doneChunks (overBlocks onBlock content loc).1 = [].
Proof.
  revert loc. induction content as [|b content IH]; intros loc.
  - cbn. by destruct (hasStreamedThinking loc).
  - cbn [overBlocks].
    assert (Hb : hasStreamedThinking (onBlock b loc).2
                 = hasStreamedThinking loc
                 ∧ thinkingChunks (onBlock b loc).1
                   = (if hasStreamedThinking loc then []
                      else thinkingBlocks [Assistant [b]])
                 ∧ toolStarts (onBlock b loc).1 = toolNames [plainBlock b]
                 ∧ doneChunks (onBlock b loc).1 = []).
    { unfold thinkingChunks, toolStarts, doneChunks, thinkingBlocks.
      destruct b as [t|t|id name [|raw|raw [todos|]]]; cbn;
        try destruct (decide (name = "TodoWrite"));
        destruct (hasStreamedThinking loc); done. }
    destruct (onBlock b loc) as [here loc1]. cbn in Hb.
    destruct Hb as (Hf & Ht & Hs & Hd).
    specialize (IH loc1).
    destruct (overBlocks onBlock content loc1) as [there loc2]. cbn in IH |- *.
    destruct IH as (IHf & IHt & IHs & IHd).
    rewrite thinkingChunks_app, toolStarts_app, doneChunks_app.
    rewrite IHf, IHt, IHs, IHd, Hf, Ht, Hs, Hd.
    split; [done|]. split; [|split; [|done]].
    + destruct (hasStreamedThinking loc); [done|].
      unfold thinkingBlocks. cbn. rewrite !app_nil_r. by destruct b.
    + unfold toolNames. cbn. by destruct (plainBlock b).
Qed.

Lemma overBlocks_onUserBlock content loc :
  hasStreamedThinking (overBlocks onUserBlock content loc).2
  = hasStreamedThinking loc
  ∧ thinkingChunks (overBlocks onUserBlock content loc).1 = []
  ∧ toolStarts (overBlocks onUserBlock content loc).1 = []
  ∧ doneChunks (overBlocks onUserBlock content loc).1 = [].
Proof.
  revert loc. induction content as [|b content IH]; intros loc; [done|].
  cbn [overBlocks]. specialize (IH (onUserBlock b loc).2).
  destruct b as [id e r|]; cbn in IH |- *;
    match goal with
    | |- context [overBlocks onUserBlock content ?l] =>
        destruct (overBlocks onUserBlock content l) as [there loc2]
    end; exact IH.
Qed.

(** One message: flag, thinking chunks, tool starts. *)
Lemma onMessage_chunks c m loc ss :
  let out := onMessage c m (loc, ss) in
  hasStreamedThinking out.2.1
  = (match m with
     | Partial (ThinkingDelta _) => true
     | _ => hasStreamedThinking loc
     end)
  ∧ thinkingChunks out.1
    = thinkingDeltas [m]
      ++ (if hasStreamedThinking loc then [] else thinkingBlocks [m])
  ∧ toolStarts out.1 = toolsOf [plainMessage m].
Proof.
  unfold onMessage.
  destruct m as [sid| |content|content|[t|]|u cost [out|]|sub errs]; cbn;
    try (by destruct (hasStreamedThinking loc)).
  - pose proof (overBlocks_onBlock content loc) as (H1 & H2 & H3 & _).
    destruct (overBlocks onBlock content loc) as [chunks loc']. cbn in *.
    by rewrite app_nil_r.
  - pose proof (overBlocks_onUserBlock content loc) as (H1 & H2 & H3 & _).
    destruct (overBlocks onUserBlock content loc) as [chunks loc']. cbn in *.
    rewrite H1, H2, H3. by destruct (hasStreamedThinking loc).
Qed.

Lemma thinkingDeltas_app a b :
  thinkingDeltas (a ++ b) = thinkingDeltas a ++ thinkingDeltas b.
Proof. apply omap_app. Qed.

Lemma streamLoop_thinking c msgs :
  forall loc ss,
    let out := streamLoop c msgs (loc, ss) in
    (hasStreamedThinking loc = true ->
     thinkingChunks out.1 = thinkingDeltas msgs
     ∧ hasStreamedThinking out.2.1 = true)
    ∧ (hasStreamedThinking loc = false ->
       thinkingDeltas msgs = [] ->
       thinkingChunks out.1 = thinkingBlocks msgs
       ∧ hasStreamedThinking out.2.1 = false)
    ∧ toolStarts out.1 = toolsOf (map plainMessage msgs).
Proof.
  induction msgs as [|m msgs IH]; intros loc ss; [done|].
  cbn [streamLoop].
  pose proof (onMessage_chunks c m loc ss) as (Hf & Ht & Hs).
  destruct (onMessage c m (loc, ss)) as [here [loc1 ss1]]. cbn in Hf, Ht, Hs.
  specialize (IH loc1 ss1).
  destruct (streamLoop c msgs (loc1, ss1)) as [there [loc2 ss2]].
  cbn in IH |- *. destruct IH as (IHon & IHoff & IHs).
  rewrite thinkingChunks_app, toolStarts_app, Ht, Hs, IHs.
  change (m :: msgs) with ([m] ++ msgs).
  rewrite thinkingDeltas_app.
  split; [|split].
  - intros Hon. rewrite Hon in Ht, Hf |- *.
    assert (hasStreamedThinking loc1 = true) as H1
      by (rewrite Hf; by destruct m as [| | | |[]| |]).
    destruct (IHon H1) as [-> ->]. by rewrite app_nil_r.
  - intros Hoff Hnone. rewrite Hoff in Hf |- *.
    apply app_eq_nil in Hnone as [Hm Hrest].
    assert (hasStreamedThinking loc1 = false) as H1.
    { rewrite Hf. by destruct m as [| | | |[]| |]. }
    destruct (IHoff H1 Hrest) as [-> ->]. rewrite Hm. cbn.
    unfold thinkingBlocks. cbn. by rewrite app_nil_r.
  - unfold toolsOf. cbn. by rewrite app_nil_r.
Qed.

(** The chunks of a streaming turn: those of the loop over the run that the
    one call of [query] gives, the locals starting empty, and the rejection
    of the run, if any, as a last [error] chunk. *)
Lemma processMessageStream_chunks (onDisk : AgentConfig)
    (query : QueryOptions -> StreamRun) (input : ProcessMessageInput)
    (p : Process) :
  exists o ss,
    last (queries (processMessageStream onDisk query input p).2) = Some o
    ∧ (processMessageStream onDisk query input p).1
      = (streamLoop (in_conversationId input) (run_messages (query o))
           ({| sl_toolsUsed := []; pendingTools := ∅;
               hasStreamedThinking := false |}, ss)).1
        ++ match run_rejects (query o) with
           | Some detail => [ErrorChunk detail]
           | None => []
           end.
Proof.
  unfold processMessageStream.
  destruct (getAgentConfig onDisk p) as [config p0].
  match goal with
  | |- context [query ?opts] => set (o := opts)
  end.
  exists o, (activeSessions p0).
  destruct (streamLoop _ _ _) as [chunks [loc ss]].
  destruct (run_rejects (query o)); cbn; rewrite last_snoc, ?app_nil_r; done.
Qed.

(** X12: thinking is not sent twice.  In a run without thinking deltas the
    thinking chunks are the thinking blocks of the assistant messages; from
    the first thinking delta on, the thinking chunks are the deltas alone,
    and the thinking blocks of later assistant messages are passed over. *)
Theorem X12_thinking_is_not_repeated (onDisk : AgentConfig)
    (query : QueryOptions -> StreamRun) (input : ProcessMessageInput)
    (p : Process) :
  exists o,
    last (queries (processMessageStream onDisk query input p).2) = Some o
    ∧ (thinkingDeltas (run_messages (query o)) = [] ->
       thinkingChunks (processMessageStream onDisk query input p).1
       = thinkingBlocks (run_messages (query o)))
    ∧ (forall pre t post,
         run_messages (query o) = pre ++ Partial (ThinkingDelta t) :: post ->
         thinkingDeltas pre = [] ->
         thinkingChunks (processMessageStream onDisk query input p).1
         = thinkingBlocks pre ++ t :: thinkingDeltas post).
Proof.
  destruct (processMessageStream_chunks onDisk query input p)
    as (o & ss0 & Hlast & ->).
  exists o. split; [done|].
  set (conv := in_conversationId input).
  set (loc0 := {| sl_toolsUsed := []; pendingTools := ∅;
                  hasStreamedThinking := false |}).
  assert (Htail : thinkingChunks
                    match run_rejects (query o) with
                    | Some detail => [ErrorChunk detail]
                    | None => []
                    end = []) by by destruct (run_rejects (query o)).
  rewrite thinkingChunks_app, Htail, app_nil_r. split.
  - intros Hnone.
    pose proof (streamLoop_thinking conv (run_messages (query o)) loc0 ss0)
      as (_ & Hoff & _).
    by apply Hoff.
  - intros pre t post -> Hpre.
    rewrite streamLoop_app.
    pose proof (streamLoop_thinking conv pre loc0 ss0) as (_ & Hoff & _).
    destruct (streamLoop conv pre (loc0, ss0)) as [a [loc1 ss1]].
    destruct (Hoff eq_refl Hpre) as [Ha _]. cbn in Ha.
    cbn [streamLoop onMessage].
    match goal with
    | |- context [streamLoop conv post (?l, ?s)] =>
        pose proof (streamLoop_thinking conv post l s) as (Hon & _ & _);
        destruct (streamLoop conv post (l, s)) as [b [loc2 ss2]]
    end.
    destruct (Hon eq_refl) as [Hb _]. cbn in Hb.
    cbn. rewrite thinkingChunks_app, Ha.
    change (ThinkingChunk t :: b) with ([ThinkingChunk t] ++ b).
    rewrite thinkingChunks_app, Hb. done.
Qed.

(** X13: every tool use of the run gives exactly one [tool_start], in the
    order of the run: the names of the starts are the tools that the
    buffered turn reports as used. *)
Theorem X13_one_tool_start_per_tool_use (onDisk : AgentConfig)
    (query : QueryOptions -> StreamRun) (input : ProcessMessageInput)
    (p : Process) :
  exists o,
    last (queries (processMessageStream onDisk query input p).2) = Some o
    ∧ toolStarts (processMessageStream onDisk query input p).1
      = toolsOf (sdk_messages (plainRun (query o))).
Proof.
  destruct (processMessageStream_chunks onDisk query input p)
    as (o & ss0 & Hlast & ->).
  exists o. split; [done|].
  rewrite toolStarts_app.
  match goal with
  | |- context [streamLoop ?c ?msgs (?loc, ?ss)] =>
      pose proof (streamLoop_thinking c msgs loc ss) as (_ & _ & ->)
  end.
  destruct (run_rejects (query o)); cbn; by rewrite app_nil_r.
Qed.

(** *** The streamed reply and the buffered reply *)

#[local] Arguments doneOf : simpl never.

Lemma doneOf_app a b : doneOf (a ++ b) = doneOf a ++ doneOf b.
Proof. apply omap_app. Qed.

(** Both turns on the same run, side by side. *)
Lemma turn_and_stream (onDisk : AgentConfig)
    (query : QueryOptions -> StreamRun) (input : ProcessMessageInput)
    (p : Process) :
  exists o ss,
    last (queries (processMessageStream onDisk query input p).2) = Some o
    ∧ (processMessageStream onDisk query input p).1
      = (streamLoop (in_conversationId input) (run_messages (query o))
           ({| sl_toolsUsed := []; pendingTools := ∅;
               hasStreamedThinking := false |}, ss)).1
        ++ match run_rejects (query o) with
           | Some detail => [ErrorChunk detail]
           | None => []
           end
    ∧ forall res,
        (processMessage onDisk (fun o => plainRun (query o)) input p).1
        = Returned res ->
        exists loc,
          loc = (runLoop (in_conversationId input)
                   (map plainMessage (run_messages (query o)))
                   ({| toolsUsed := [];
                       responseText := "";
                       usage := {| inputTokens := 0; outputTokens := 0;
                                   totalCostUsd := 0 |};
                       structuredMetadata := None |}, ss)).1
          ∧ res_response res = responseText loc
          ∧ res_usage res = usage loc
          ∧ res_toolsUsed res = toolsUsed loc
          ∧ res_metadata res = structuredMetadata loc
          ∧ res_confidence res
            = match structuredMetadata loc with
              | Some md => md_confidence md
              | None => match toolsUsed loc with
                        | [] => medium
                        | _ :: _ => high
                        end
              end.
Proof.
  unfold processMessageStream, processMessage.
  destruct (getAgentConfig onDisk p) as [config p0].
  match goal with
  | |- context [query ?opts] => set (o := opts)
  end.
  exists o, (activeSessions p0).
  cbn [plainRun sdk_messages sdk_rejects].
  destruct (streamLoop _ _ _) as [chunks [sloc ss]].
  destruct (runLoop _ _ _) as [loc ss'].
  destruct (run_rejects (query o)); cbn; rewrite last_snoc, ?app_nil_r;
    (split; [done|]); (split; [done|]); intros res [= <-].
  by exists loc.
Qed.

(** The last [done] chunk carries the text and the usage that the loop of
    the buffered turn ends with. *)
Lemma streamLoop_done c msgs :
  forall sloc loc (ss ss' : gmap string string),
    let l' := (runLoop c (map plainMessage msgs) (loc, ss')).1 in
    (responseText l', usage l')
    = default (responseText loc, usage loc)
        (last (doneOf (streamLoop c msgs (sloc, ss)).1)).
Proof.
  induction msgs as [|m msgs IH]; intros sloc loc ss ss'; [done|].
  cbn [streamLoop map]. rewrite runLoop_cons.
  assert (Hm : doneOf (onMessage c m (sloc, ss)).1
               = match m with
                 | Success _ _ _ =>
                     let l1 := (onSdkMessage c (plainMessage m) (loc, ss')).1 in
                     [(responseText l1, usage l1)]
                 | _ => []
                 end
               ∧ (match m with
                  | Success _ _ _ => True
                  | _ =>
                      let l1 :=
                        (onSdkMessage c (plainMessage m) (loc, ss')).1 in
                      responseText l1 = responseText loc
                      ∧ usage l1 = usage loc
                  end)).
  { unfold onMessage, onSdkMessage, doneOf.
    destruct m as [sid| |content|content|[t|]|u cost [out|]|sub errs];
      cbn; try done.
    - pose proof (overBlocks_onBlock content sloc) as (_ & _ & _ & Hd).
      destruct (overBlocks onBlock content sloc) as [chunks sloc'].
      cbn in Hd |- *. split; [|done].
      clear -Hd. unfold doneChunks in Hd.
      induction chunks as [|ch chunks IHc]; [done|].
      destruct ch; cbn in Hd |- *; try discriminate; by apply IHc.
    - pose proof (overBlocks_onUserBlock content sloc) as (_ & _ & _ & Hd).
      destruct (overBlocks onUserBlock content sloc) as [chunks sloc'].
      cbn in Hd |- *. split; [|done].
      clear -Hd. unfold doneChunks in Hd.
      induction chunks as [|ch chunks IHc]; [done|].
      destruct ch; cbn in Hd |- *; try discriminate; by apply IHc. }
  destruct (onMessage c m (sloc, ss)) as [here [sloc1 ss1]].
  destruct (onSdkMessage c (plainMessage m) (loc, ss')) as [loc1 ss1'].
  cbn [fst] in Hm. destruct Hm as [Hhere Hkeep].
  specialize (IH sloc1 loc1 ss1 ss1').
  destruct (streamLoop c msgs (sloc1, ss1)) as [there st2].
  cbn [fst] in IH |- *. cbn zeta in IH. rewrite IH.
  rewrite doneOf_app, last_app.
  destruct (last (doneOf there)) as [x|]; [done|]. cbn.
  rewrite Hhere. destruct m; cbn in Hkeep |- *;
    try lazymatch type of Hkeep with
        | _ ∧ _ => destruct Hkeep as [-> ->]
        end; done.
Qed.

(** X14: the streamed reply is the buffered reply.  When the buffered turn
    returns, its response text and its usage are those of the last [done]
    chunk that the streaming turn yields on the same run; when the
    streaming turn yields no [done] chunk, the buffered reply has the empty
    text and a usage of zero. *)
Theorem X14_last_done_chunk_is_the_buffered_reply (onDisk : AgentConfig)
    (query : QueryOptions -> StreamRun) (input : ProcessMessageInput)
    (p : Process) (res : ProcessMessageResult)
    (Hret : (processMessage onDisk (fun o => plainRun (query o)) input p).1
            = Returned res) :
  (res_response res, res_usage res)
  = default ("", {| inputTokens := 0; outputTokens := 0; totalCostUsd := 0 |})
      (last (doneOf (processMessageStream onDisk query input p).1)).
Proof.
  destruct (turn_and_stream onDisk query input p)
    as (o & ss & _ & -> & Hres).
  destruct (Hres res Hret) as (loc & Hloc & -> & -> & _).
  assert (Htail : doneOf
                    match run_rejects (query o) with
                    | Some detail => [ErrorChunk detail]
                    | None => []
                    end = []) by by destruct (run_rejects (query o)).
  rewrite doneOf_app, Htail, app_nil_r, Hloc.
  apply (streamLoop_done (in_conversationId input) (run_messages (query o))).
Qed.

(** Without structured output no [done] chunk has metadata. *)
Lemma streamLoop_plain_done c msgs :
  noStructuredOutput (map plainMessage msgs) ->
  forall st,
    Forall (fun chunk => match chunk with
                         | Done _ _ (Some _) => False
                         | _ => True
                         end) (streamLoop c msgs st).1.
Proof.
  induction msgs as [|m msgs IH]; intros Hno st; [by constructor|].
  apply Forall_cons in Hno as [Hm Hno].
  cbn [streamLoop].
  assert (Hhere : Forall (fun chunk => match chunk with
                                       | Done _ _ (Some _) => False
                                       | _ => True
                                       end) (onMessage c m st).1).
  { destruct st as [sloc ss]. unfold onMessage.
    destruct m as [sid| |content|content|[t|]|u cost [out|]|sub errs];
      cbn in Hm |- *; try contradiction; repeat constructor.
    - pose proof (overBlocks_onBlock content sloc) as (_ & _ & _ & Hd).
      destruct (overBlocks onBlock content sloc) as [chunks sloc'].
      cbn in Hd |- *. clear -Hd. unfold doneChunks in Hd.
      induction chunks as [|ch chunks IHc]; [by constructor|].
      destruct ch; cbn in Hd; try discriminate;
        (constructor; [done|by apply IHc]).
    - pose proof (overBlocks_onUserBlock content sloc) as (_ & _ & _ & Hd).
      destruct (overBlocks onUserBlock content sloc) as [chunks sloc'].
      cbn in Hd |- *. clear -Hd. unfold doneChunks in Hd.
      induction chunks as [|ch chunks IHc]; [by constructor|].
      destruct ch; cbn in Hd; try discriminate;
        (constructor; [done|by apply IHc]). }
  destruct (onMessage c m st) as [here st1].
  specialize (IH Hno st1).
  destruct (streamLoop c msgs st1) as [there st2].
  cbn in *. by apply Forall_app.
Qed.

Lemma doneConfidences_plain elapsed chunks :
  Forall (fun chunk => match chunk with
                       | Done _ _ (Some _) => False
                       | _ => True
                       end) chunks ->
  AgentServer.doneConfidences (AgentServer.eventsOf elapsed chunks)
  = map (fun _ => high) (doneChunks chunks).
Proof.
  intros Hall. revert elapsed.
  induction Hall as [|ch chunks Hch _ IH]; intros elapsed; [done|].
  unfold AgentServer.eventsOf. rewrite imap_cons.
  change (imap ((λ i chunk, AgentServer.writeSSE (elapsed i) chunk) ∘ S)
            chunks)
    with (AgentServer.eventsOf (elapsed ∘ S) chunks).
  assert (Hcons : forall e es,
            AgentServer.doneConfidences (e :: es)
            = match AgentServer.sse_data e with
              | AgentServer.DoneJson _ c _ _ => [c]
              | _ => []
              end ++ AgentServer.doneConfidences es).
  { intros e es. unfold AgentServer.doneConfidences. cbn.
    by destruct (AgentServer.sse_data e). }
  rewrite Hcons, IH. unfold doneChunks.
  by destruct ch as [| | | | |? ? [md|]|].
Qed.

(** X15: the two endpoints rate the same reply differently.  On a run
    without structured output and without tool use that the buffered turn
    answers, the buffered reply has confidence [medium], whereas every
    [done] event of the streaming endpoint says [high]. *)
Theorem X15_done_event_says_high_where_reply_says_medium
    (onDisk : AgentConfig) (query : QueryOptions -> StreamRun)
    (input : ProcessMessageInput) (p : Process)
    (res : ProcessMessageResult) (elapsed : nat -> Z)
    (Hplain : forall o, noStructuredOutput (sdk_messages (plainRun (query o))))
    (Hnotools : forall o, toolsOf (sdk_messages (plainRun (query o))) = [])
    (Hret : (processMessage onDisk (fun o => plainRun (query o)) input p).1
            = Returned res) :
  res_confidence res = medium
  ∧ AgentServer.doneConfidences
      (AgentServer.eventsOf elapsed
         (processMessageStream onDisk query input p).1)
    = map (fun _ => high)
        (doneChunks (processMessageStream onDisk query input p).1).
Proof.
  destruct (turn_and_stream onDisk query input p)
    as (o & ss & _ & -> & Hres).
  destruct (Hres res Hret) as (loc & Hloc & _ & _ & _ & _ & ->).
  split.
  - match type of Hloc with
    | _ = (runLoop ?c ?msgs (?l, ?s)).1 =>
        destruct (runLoop_locals c msgs l s (Hplain o) eq_refl) as [Hmd Ht]
    end.
    rewrite <- Hloc in Hmd, Ht. rewrite Hmd, Ht.
    specialize (Hnotools o). cbn [plainRun sdk_messages] in Hnotools.
    by rewrite Hnotools.
  - apply doneConfidences_plain, Forall_app. split.
    + apply streamLoop_plain_done, (Hplain o).
    + destruct (run_rejects (query o)); repeat constructor.
Qed.

End Streaming.

Section StreamingAtExamples.
Import Agent AgentStream.

(** X14 at a streamed run with thinking, one tool call and a success result
    without structured output. *)
Lemma X14_last_done_chunk_is_the_buffered_reply_witness :
  exists res,
    (processMessage defaultAgentConfig
       (fun o => plainRun (MoreExamples.streamedQuery o))
       (Examples.helloInput (Some "conv-1")) processStart).1 = Returned res
    ∧ (res_response res, res_usage res)
      = default
          ("", {| inputTokens := 0; outputTokens := 0; totalCostUsd := 0 |})
          (last (doneOf (processMessageStream defaultAgentConfig
                           MoreExamples.streamedQuery
                           (Examples.helloInput (Some "conv-1"))
                           processStart).1)).
Proof.
  eexists. split; [vm_compute; reflexivity|].
  apply (X14_last_done_chunk_is_the_buffered_reply defaultAgentConfig
           MoreExamples.streamedQuery (Examples.helloInput (Some "conv-1"))
           processStart).
  vm_compute; reflexivity.
Defined.

(** X15 at a run without tools, thinking or structured output. *)
Lemma X15_done_event_says_high_where_reply_says_medium_witness :
  exists res,
    (processMessage defaultAgentConfig
       (fun o => plainRun (MoreExamples.quietQuery o))
       (Examples.helloInput None) processStart).1 = Returned res
    ∧ res_confidence res = medium
    ∧ AgentServer.doneConfidences
        (AgentServer.eventsOf (fun i => 40 + Z.of_nat i)
           (processMessageStream defaultAgentConfig MoreExamples.quietQuery
              (Examples.helloInput None) processStart).1)
      = map (fun _ => high)
          (doneChunks (processMessageStream defaultAgentConfig
                         MoreExamples.quietQuery (Examples.helloInput None)
                         processStart).1).
Proof.
  eexists. split; [vm_compute; reflexivity|].
  apply (X15_done_event_says_high_where_reply_says_medium defaultAgentConfig
           MoreExamples.quietQuery (Examples.helloInput None) processStart).
  - intros o. repeat constructor.
  - intros o. reflexivity.
  - vm_compute; reflexivity.
Defined.

End StreamingAtExamples.

(** ** The conduct of the sandbox manager and of the gateway *)

Section Conducts.
Import Orchestrator Conduct.

Variable env : Env.

#[local] Arguments pollHealth : simpl never.
#[local] Arguments stopCalls : simpl never.

Lemma settles_ret {A} (a : A) : settles (ret a).
Proof. by intros w. Qed.

Lemma settles_throw {A} e : settles (@throw A e).
Proof. by intros w. Qed.

Lemma settles_bind {A B} (m : M A) (k : A -> M B) :
  settles m -> (forall a, settles (k a)) -> settles (bind m k).
Proof.
  intros Hm Hk w. unfold bind. specialize (Hm w).
  destruct (m w) as [[a|e|] w1]; [apply Hk|done|done].
Qed.

Lemma settles_catch {A} (m : M A) handler :
  settles m -> (forall e, settles (handler e)) -> settles (catch m handler).
Proof.
  intros Hm Hh w. unfold catch. specialize (Hm w).
  destruct (m w) as [[a|e|] w1]; [done|apply Hh|done].
Qed.

Lemma settles_await {A} ev mkErr (r : Reply A) : settles (await ev mkErr r).
Proof. intros w. by destruct r. Qed.

Lemma settles_awaitBody {A} (r : Reply A) : settles (awaitBody r).
Proof. intros w. by destruct r. Qed.

Lemma settles_liftEither {A} (r : Err + A) : settles (liftEither r).
Proof. intros w. by destruct r. Qed.

Lemma settles_pollHealth url timeoutMs : settles (pollHealth env url timeoutMs).
Proof. intros w. apply pollHealth_total. Qed.

Lemma stopCalls_app l1 l2 :
  stopCalls (l1 ++ l2) = (stopCalls l1 + stopCalls l2)%nat.
Proof. unfold stopCalls. by rewrite List.filter_app, length_app. Qed.

Lemma quiet_ret {A} (a : A) : stopsNothing (ret a).
Proof. by intros w. Qed.

Lemma quiet_throw {A} e : stopsNothing (@throw A e).
Proof. by intros w. Qed.

Lemma quiet_bind {A B} (m : M A) (k : A -> M B) :
  stopsNothing m -> (forall a, stopsNothing (k a)) -> stopsNothing (bind m k).
Proof.
  intros Hm Hk w. unfold bind. specialize (Hm w).
  destruct (m w) as [[a|e|] w1]; cbn in *; [|done|done].
  by rewrite Hk.
Qed.

Lemma quiet_await {A} ev mkErr (r : Reply A) :
  isStop ev = false -> stopsNothing (await ev mkErr r).
Proof.
  intros Hev w. destruct r; cbn; rewrite stopCalls_app;
    unfold stopCalls at 2; destruct ev; try discriminate; cbn; lia.
Qed.

Lemma quiet_liftEither {A} (r : Err + A) : stopsNothing (liftEither r).
Proof. intros w. by destruct r. Qed.

Lemma quiet_pollHealth url timeoutMs :
  stopsNothing (pollHealth env url timeoutMs).
Proof.
  intros w. rewrite pollHealth_eq.
  destruct (pollLoop _ _ _ _ _ w) as [r w'] eqn:Hrun.
  apply pollLoop_log in Hrun as [n Hlog]. cbn [snd].
  rewrite Hlog, stopCalls_app. clear Hlog.
  assert (stopCalls (replicate n (Fetch "GET" (url +:+ "/health"))) = 0%nat)
    as ->; [|lia].
  induction n as [|n IH]; [done|exact IH].
Qed.

Lemma quiet_record {A} (a : A) ev :
  isStop ev = false -> stopsNothing (fun w => (Returned a, record ev w)).
Proof.
  intros Hev w. cbn. rewrite stopCalls_app. unfold stopCalls at 2.
  destruct ev; try discriminate; cbn; lia.
Qed.

Ltac conduct :=
  repeat first
    [ apply settles_ret | apply settles_throw | apply settles_await
    | apply settles_awaitBody | apply settles_liftEither
    | apply settles_pollHealth
    | apply quiet_ret | apply quiet_throw | apply quiet_liftEither
    | apply quiet_pollHealth
    | apply quiet_await; reflexivity
    | apply quiet_record; reflexivity
    | apply settles_bind; [|intros ?]
    | apply quiet_bind; [|intros ?]
    | match goal with
      | |- settles (match ?x with _ => _ end) => destruct x
      | |- stopsNothing (match ?x with _ => _ end) => destruct x
      end
    | by intros ? ].

Lemma setupSandbox_settles request timing :
  settles (setupSandbox env request timing).
Proof. unfold setupSandbox, hostWork, dateNow. conduct. Qed.

Lemma setupSandbox_quiet request timing :
  stopsNothing (setupSandbox env request timing).
Proof. unfold setupSandbox, hostWork, dateNow. conduct. Qed.

(** The errors that provisioning raises. *)
Lemma setupSandbox_errors request timing w e :
  (setupSandbox env request timing w).1 = Thrown e ->
  match e with
  | AgentDirNotFound _ | ClaudeMdNotFound _ | AgentConfigJsonNotFound _
  | AgentConfigJsonInvalid _ | AgentBundleNotFound _ | ProviderRejected _
  | NpmInstallFailed _ | HealthCheckTimedOut _ _ => True
  | _ => False
  end.
Proof.
  unfold setupSandbox.
  unfold bind, liftEither, hostWork, dateNow, await, ret, throw.
  unfold loadAgentConfig, loadAgentBundle.
  destruct (host_agentConfigs (env_host env) !! req_agentId request)
    as [d|]; [|by intros [= <-]].
  destruct (dir_claudeMd d); [|by intros [= <-]].
  destruct (dir_agentConfigJson d) as [[pretty|detail]|];
    [|by intros [= <-]|by intros [= <-]].
  destruct (host_agentBundle (env_host env)); [|by intros [= <-]].
  destruct (env_create env) as [dc sbx|dc d1]; [|by intros [= <-]].
  destruct (env_writeFiles env) as [dw []|dw d2]; [|by intros [= <-]].
  destruct (getSnapshotId (env_host env)) as [snap|].
  - destruct (env_start env) as [ds []|ds d4]; [|by intros [= <-]].
    cbv beta iota zeta.
    match goal with
    | |- context [pollHealth ?env ?u ?t ?w0] =>
        destruct (pollHealth env u t w0) as [[[]|e'|] w'] eqn:Hpoll
    end; try discriminate.
    intros [= <-]. rewrite pollHealth_eq in Hpoll.
    apply pollLoop_spec in Hpoll as (_ & _ & _ & _ & -> & _). done.
  - destruct (env_install env) as [di code|di d3]; [|by intros [= <-]].
    destruct (decide (code = 0)) as [->|].
    + destruct (env_start env) as [ds []|ds d4]; [|by intros [= <-]].
      cbv beta iota zeta.
      match goal with
      | |- context [pollHealth ?env ?u ?t ?w0] =>
          destruct (pollHealth env u t w0) as [[[]|e'|] w'] eqn:Hpoll
      end; try discriminate.
      intros [= <-]. rewrite pollHealth_eq in Hpoll.
      apply pollLoop_spec in Hpoll as (_ & _ & _ & _ & -> & _). done.
    + destruct (env_installStderr env); by intros [= <-].
Qed.

(** X16: a buffered request never releases twice.  Whatever the provider
    and the agent do, [executeInSandbox] issues at most one [stop]; it has
    issued exactly one when it returns; and a [stop] that it issues is the
    last thing it asks of the provider. *)
Theorem X16_request_stops_at_most_once (request : ProcessRequest)
    (w : World) :
  (stopCalls (log (executeInSandbox env request w).2)
   <= S (stopCalls (log w)))%nat
  ∧ ((exists r, (executeInSandbox env request w).1 = Returned r) ->
     stopCalls (log (executeInSandbox env request w).2)
     = S (stopCalls (log w)))
  ∧ (stopCalls (log (executeInSandbox env request w).2)
     = S (stopCalls (log w)) ->
     exists sandbox,
       last (log (executeInSandbox env request w).2) = Some (Stop sandbox)).
Proof.
  unfold executeInSandbox, executeInSandbox_try.
  pose proof (setupSandbox_quiet request (Some zeroTiming) w) as Hq.
  destruct (setupSandbox env request (Some zeroTiming) w)
    as [[[[sb url] t1]|e|] w1]; cbn [fst snd] in Hq.
  - unfold bind, dateNow, await, awaitBody, ret, throw, stopQuietly, catch.
    destruct (env_process env) as [dp res|dp d1];
      [destruct (pr_ok res);
       [destruct (pr_json res)|destruct (pr_text res)]|];
      destruct (env_stop env); cbn;
      rewrite !stopCalls_app, Hq, ?app_assoc, last_snoc;
      unfold stopCalls; cbn;
      (split; [lia|]); (split; [intros _; lia|]); intros _; by exists sb.
  - cbn. rewrite Hq. split; [lia|]. split; [by intros [r [=]]|]. lia.
  - cbn. rewrite Hq. split; [lia|]. split; [by intros [r [=]]|]. lia.
Qed.

(** The clock at the end of a buffered request that returns. *)
Lemma executeInSandbox_clock request w response timing w' :
  executeInSandbox env request w = (Returned (response, timing), w') ->
  now w' = now w + total timing + Z.of_N (replyTime (env_stop env)).
Proof.
  unfold executeInSandbox, executeInSandbox_try.
  destruct (setupSandbox env request (Some zeroTiming) w)
    as [[[[sb url] t1]|e|] w1]; try discriminate.
  unfold bind, dateNow, await, awaitBody, ret, throw, stopQuietly, catch.
  destruct (env_process env) as [dp res|dp d1]; [|discriminate].
  destruct (pr_ok res).
  - destruct (pr_json res) as [dj body|dj d2]; [|discriminate].
    destruct (env_stop env); intros [= _ <- <-]; cbn; lia.
  - destruct (pr_text res); discriminate.
Qed.

(** X17: [POST /process] passes on what [executeInSandbox] comes to.  For
    a body with a message and an agent id, the handler asks nothing of the
    provider itself: the world it leaves is the one [executeInSandbox]
    leaves.  When [executeInSandbox] returns, the reply is 200 with the
    agent's response and the timing as returned, and with the time since
    the request arrived, which is not less than the total of the timing;
    when it raises, the error does not escape: the reply is 500 with the
    message of that error and the time since the request arrived. *)
Theorem X17_process_handler_passes_on_the_outcome (body : RequestBody)
    (msg agentId : string) (w : World)
    (Hmsg : Js.truthy (body_message body) = Some msg)
    (Hagent : Js.truthy (body_agentId body) = Some agentId) :
  let run := executeInSandbox env (asProcessRequest body msg agentId) w in
  let out := postProcess env (Some body) w in
  out.2 = run.2
  ∧ match run.1 with
    | Returned (response, timing) =>
        out.1
        = Returned {| status := 200;
                      payload :=
                        ProcessJson response timing (now run.2 - now w) |}
        ∧ total timing <= now run.2 - now w
    | Thrown e =>
        out.1
        = Returned {| status := 500;
                      payload :=
                        ErrorJson (message e) (Some (now run.2 - now w)) |}
    | OutOfFuel => True
    end.
Proof.
  intros run out. subst run out.
  destruct (postProcess env (Some body) w) as [o w'] eqn:Hrun.
  cbn [fst snd].
  unfold postProcess, bind, dateNow, catch, reqJson, ret, throw in Hrun.
  rewrite Hmsg, Hagent in Hrun.
  destruct (executeInSandbox env (asProcessRequest body msg agentId) w)
    as [[[response timing]|e|] w1] eqn:Hexec;
    injection Hrun as <- <-; cbn [fst snd]; [|done|done].
  split; [done|]. split; [done|].
  apply executeInSandbox_clock in Hexec. lia.
Qed.

(** The requests of the poll, counted. *)
Lemma pollLoop_fetches fuel timeoutMs healthUrl deadline :
  forall w r w',
    pollLoop env fuel timeoutMs healthUrl deadline w = (r, w') ->
    log w' = log w ++ replicate (polls w' - polls w) (Fetch "GET" healthUrl)
    ∧ ((polls w' - polls w)%nat = 0%nat
       ∨ 500 * (Z.of_nat (polls w' - polls w) - 1) < deadline - now w).
Proof.
  induction fuel as [|fuel IH]; intros w r w' Hrun.
  - injection Hrun as _ <-. rewrite Nat.sub_diag. cbn.
    split; [by rewrite app_nil_r|by left].
  - rewrite pollLoop_S in Hrun.
    destruct (Z.ltb_spec (now w) deadline) as [Hlt|Hge].
    + destruct (attemptPasses (env_health env (polls w))).
      * injection Hrun as _ <-. cbn.
        replace (S (polls w) - polls w)%nat with 1%nat by lia.
        split; [done|]. right. lia.
      * pose proof (pollLoop_spec _ _ _ _ _ _ _ _ Hrun) as (Hp & _).
        apply IH in Hrun as [Hlog Hn]. cbn in Hp, Hlog, Hn.
        replace (polls w' - polls w)%nat
          with (S (polls w' - S (polls w))) by lia.
        split; [rewrite Hlog; cbn; by rewrite <- app_assoc|].
        right. unfold HEALTH_POLL_INTERVAL_MS in Hn.
        destruct Hn as [Hn|Hn]; [rewrite Hn; lia|]. lia.
    + injection Hrun as _ <-. rewrite Nat.sub_diag. cbn.
      split; [by rewrite app_nil_r|by left].
Qed.


(** The end of both branches of the proof below: the poll is the last step
    and its requests are the last entries of the log. *)
Ltac settle_order H :=
  cbv beta iota zeta in H;
  match type of H with
  | context [pollHealth ?env ?u ?t ?w0] =>
      let Hpoll := fresh "Hpoll" in
      destruct (pollHealth env u t w0) as [[[]|?|] ?] eqn:Hpoll;
      try discriminate;
      injection H as <- <- <- <-;
      rewrite pollHealth_eq in Hpoll;
      pose proof (pollLoop_spec _ _ _ _ _ _ _ _ Hpoll)
        as (_ & _ & _ & _ & Hlt & _);
      apply pollLoop_fetches in Hpoll as [Hlog _];
      cbn in Hlt, Hlog;
      match type of Hlog with
      | _ = _ ++ replicate ?n _ => eexists _, _, n
      end;
      split; [reflexivity|]; split; [reflexivity|];
      split; [reflexivity|]; split; [lia|];
      rewrite Hlog; unfold Provisioned.setupOps; cbn;
      by rewrite <- !app_assoc
  end.

(** X19: the order of provisioning.  When [setupSandbox] returns, what it
    asked of the provider is, in this order: the sandbox (from the snapshot,
    if the host has one), the upload of the files of [buildSandboxFiles],
    the installation of the dependencies exactly when there is no snapshot,
    the start of the server, the domain of the agent's port; then come the
    requests to [/health] at that domain, one at least, and nothing else. *)
Theorem X19_provisioning_order (request : ProcessRequest)
    (timing : option ExecutionTiming) (w : World) (sandbox url : string)
    (timing' : option ExecutionTiming) (w' : World)
    (Hrun : setupSandbox env request timing w
            = (Returned (sandbox, url, timing'), w')) :
  exists agentConfig agentBundle attempts,
    loadAgentConfig (env_host env) (req_agentId request) = inr agentConfig
    ∧ loadAgentBundle (env_host env) = inr agentBundle
    ∧ url = env_domain env
    ∧ (0 < attempts)%nat
    ∧ log w'
      = log w
        ++ Provisioned.setupOps (getSnapshotId (env_host env)) sandbox
             (map fst (buildSandboxFiles agentBundle agentConfig))
        ++ replicate attempts (Fetch "GET" (url +:+ "/health")).
Proof.
  unfold setupSandbox in Hrun.
  unfold bind, liftEither, hostWork, dateNow, await, ret, throw in Hrun.
  destruct (loadAgentConfig (env_host env) (req_agentId request)) as [e|cfg];
    [discriminate|].
  destruct (loadAgentBundle (env_host env)) as [e|bundle]; [discriminate|].
  destruct (env_create env) as [dc sbx|dc d1]; [|discriminate].
  destruct (env_writeFiles env) as [dw []|dw d2]; [|discriminate].
  destruct (getSnapshotId (env_host env)) as [snap|].
  - destruct (env_start env) as [ds []|ds d4]; [|discriminate].
    settle_order Hrun.
  - destruct (env_install env) as [di code|di d3]; [|discriminate].
    destruct (decide (code = 0)) as [->|];
      [|destruct (env_installStderr env); discriminate].
    destruct (env_start env) as [ds []|ds d4]; [|discriminate].
    settle_order Hrun.
Qed.

(** X20: the installation error and what it implies.  [setupSandbox] raises
    [npm install failed] only on a host without snapshot, when [npm install]
    ended with an exit code other than zero; the text is what the command
    wrote to its error stream; and reading that stream was the last thing
    asked of the provider: the server was not started and the sandbox was
    not stopped. *)
Theorem X20_failed_install_ends_provisioning (request : ProcessRequest)
    (timing : option ExecutionTiming) (w : World) (stderr : string)
    (Hrun : (setupSandbox env request timing w).1
            = Thrown (NpmInstallFailed stderr)) :
  getSnapshotId (env_host env) = None
  ∧ (exists ms exitCode,
       env_install env = Resolves ms exitCode ∧ exitCode ≠ 0)
  ∧ (exists ms, env_installStderr env = Resolves ms stderr)
  ∧ exists sandbox paths,
      log (setupSandbox env request timing w).2
      = log w ++ [SandboxCreate None; WriteFiles sandbox paths;
                  RunCommand sandbox "npm" ["install"; "--production"] false;
                  ReadStderr sandbox].
Proof.
  revert Hrun. unfold setupSandbox.
  unfold bind, liftEither, hostWork, dateNow, await, ret, throw.
  unfold loadAgentConfig, loadAgentBundle.
  destruct (host_agentConfigs (env_host env) !! req_agentId request)
    as [d|]; [|discriminate].
  destruct (dir_claudeMd d); [|discriminate].
  destruct (dir_agentConfigJson d) as [[pretty|detail]|]; try discriminate.
  destruct (host_agentBundle (env_host env)); [|discriminate].
  destruct (env_create env) as [dc sbx|dc d1]; [|discriminate].
  destruct (env_writeFiles env) as [dw []|dw d2]; [|discriminate].
  destruct (getSnapshotId (env_host env)) as [snap|].
  - destruct (env_start env) as [ds []|ds d4]; [|discriminate].
    cbv beta iota zeta.
    match goal with
    | |- context [pollHealth ?env ?u ?t ?w0] =>
        destruct (pollHealth env u t w0) as [[[]|e'|] w'] eqn:Hpoll
    end; try discriminate.
    cbn [fst snd]. intros [= ->]. rewrite pollHealth_eq in Hpoll.
    apply pollLoop_spec in Hpoll as (_ & _ & _ & _ & [=] & _).
  - destruct (env_install env) as [di code|di d3]; [|discriminate].
    destruct (decide (code = 0)) as [->|Hcode].
    + destruct (env_start env) as [ds []|ds d4]; [|discriminate].
      cbv beta iota zeta.
      match goal with
      | |- context [pollHealth ?env ?u ?t ?w0] =>
          destruct (pollHealth env u t w0) as [[[]|e'|] w'] eqn:Hpoll
      end; try discriminate.
      cbn [fst snd]. intros [= ->]. rewrite pollHealth_eq in Hpoll.
      apply pollLoop_spec in Hpoll as (_ & _ & _ & _ & [=] & _).
    + destruct (env_installStderr env) as [de text|de d5]; [|discriminate].
      cbn [fst snd]. intros [= ->]. split; [done|]. split; [by eauto|].
      split; [by eauto|]. eexists _, _. cbn.
      by rewrite <- !app_assoc.
Qed.

(** X21: an error reply of the agent.  [executeInSandbox] raises
    [Agent process request failed] only when the agent answered with a
    status that is not a success; the error carries that status and the
    text of the body; and the sandbox was stopped: the request and the
    [stop] are the last two entries of the log. *)
Theorem X21_agent_error_reply_is_reported (request : ProcessRequest)
    (w : World) (status : Z) (errorText : string)
    (Hrun : (executeInSandbox env request w).1
            = Thrown (AgentProcessRequestFailed status errorText)) :
  (exists ms res ms',
     env_process env = Resolves ms res
     ∧ pr_ok res = false
     ∧ pr_status res = status
     ∧ pr_text res = Resolves ms' errorText)
  ∧ exists sandbox url timing w1,
      setupSandbox env request (Some zeroTiming) w
      = (Returned (sandbox, url, timing), w1)
      ∧ log (executeInSandbox env request w).2
        = log w1 ++ [Fetch "POST" (url +:+ "/process"); Stop sandbox].
Proof.
  revert Hrun. unfold executeInSandbox, executeInSandbox_try.
  pose proof (setupSandbox_errors request (Some zeroTiming) w) as Herr.
  destruct (setupSandbox env request (Some zeroTiming) w)
    as [[[[sb url] t1]|e|] w1]; [| |discriminate].
  - clear Herr.
    unfold bind, dateNow, await, awaitBody, ret, throw, stopQuietly, catch.
    destruct (env_process env) as [dp res|dp d1].
    + destruct (pr_ok res) eqn:Hok.
      * destruct (pr_json res); destruct (env_stop env); discriminate.
      * destruct (pr_text res) as [dt text|dt d2] eqn:Htext;
          [|destruct (env_stop env); discriminate].
        intros Hthrown.
        assert (pr_status res = status ∧ text = errorText) as [Hst ->]
          by (destruct (env_stop env); by injection Hthrown).
        split; [by eauto 10|].
        eexists _, _, _, _. split; [reflexivity|].
        destruct (env_stop env); cbn; by rewrite <- !app_assoc.
    + destruct (env_stop env); discriminate.
  - cbn. intros [= ->]. by specialize (Herr _ eq_refl).
Qed.

Lemma settles_newReadable chunks errors : settles (newReadable chunks errors).
Proof. by intros w. Qed.

Lemma executeInSandboxStream_settles request :
  settles (executeInSandboxStream env request).
Proof.
  unfold executeInSandboxStream.
  apply settles_bind; [apply setupSandbox_settles|].
  intros [[sb url] t].
  apply settles_bind; [apply settles_await|]. intros res.
  destruct (sr_ok res), (sr_body res);
    repeat first [ apply settles_bind; [|intros ?] | apply settles_await
                 | apply settles_awaitBody | apply settles_newReadable
                 | apply settles_ret | apply settles_throw ].
Qed.

(** X22: a streaming request that the agent does not accept.  When the
    agent's reply has no success status or no body, [executeInSandboxStream]
    stops the sandbox, once, and raises; the [stop] is awaited outside any
    [try], so when it is rejected its error is the one raised, in place of
    the agent's status and text. *)
Theorem X22_refused_stream_stops_then_raises (request : ProcessRequest)
    (w w1 : World) (sandbox url : string)
    (timing : option ExecutionTiming) (ms : N) (res : StreamResponse)
    (Hsetup : setupSandbox env request None w
              = (Returned (sandbox, url, timing), w1))
    (Hstream : env_stream env = Resolves ms res)
    (Hbad : sr_ok res = false ∨ sr_body res = None) :
  (executeInSandboxStream env request w).1
  = Thrown (match env_stop env, sr_text res with
            | Rejects _ detail, _ => ProviderRejected detail
            | Resolves _ _, Rejects _ detail => BodyUnreadable detail
            | Resolves _ _, Resolves _ errorText =>
                AgentStreamRequestFailed (sr_status res) errorText
            end)
  ∧ log (executeInSandboxStream env request w).2
    = log w1 ++ [Fetch "POST" (url +:+ "/process/stream"); Stop sandbox].
Proof.
  destruct (executeInSandboxStream env request w) as [o w'] eqn:Hrun.
  cbn [fst snd].
  unfold executeInSandboxStream, bind in Hrun. rewrite Hsetup in Hrun.
  unfold await at 1 in Hrun. rewrite Hstream in Hrun.
  unfold await, awaitBody, throw in Hrun.
  assert (Hno : match sr_ok res, sr_body res with
                | true, Some _ => False
                | _, _ => True
                end).
  { destruct Hbad as [-> | ->]; [done|]. by destruct (sr_ok res). }
  destruct (sr_ok res), (sr_body res); try contradiction;
    (destruct (env_stop env) as [d1 []|d1 detail];
     [destruct (sr_text res)|]);
    injection Hrun as <- <-; cbn; by rewrite <- !app_assoc.
Qed.

(** X23: the two handlers of [POST /process/stream] never raise, and they
    differ in the body of a 200 reply only: they answer with the same
    status, leave the same log, and every reply other than 200 is the same
    reply in the same world. *)
Theorem X23_streaming_handlers_agree_but_for_the_body
    (rawBody : option RequestBody) (w : World) :
  exists direct piped,
    (postProcessStream env rawBody w).1 = Returned direct
    ∧ (postProcessStream_transform env rawBody w).1 = Returned piped
    ∧ status direct = status piped
    ∧ log (postProcessStream env rawBody w).2
      = log (postProcessStream_transform env rawBody w).2
    ∧ (status direct ≠ 200 ->
       postProcessStream_transform env rawBody w
       = postProcessStream env rawBody w).
Proof.
  destruct (postProcessStream env rawBody w) as [oa wa] eqn:Ha.
  destruct (postProcessStream_transform env rawBody w) as [ob wb] eqn:Hb.
  cbn [fst snd].
  unfold postProcessStream, catch, bind, reqJson, ret, throw in Ha.
  unfold postProcessStream_transform, catch, bind, reqJson, ret, throw in Hb.
  destruct rawBody as [body|];
    [|injection Ha as <- <-; injection Hb as <- <-; by eexists _, _].
  destruct (Js.truthy (body_message body)) as [message|];
    [|injection Ha as <- <-; injection Hb as <- <-; by eexists _, _].
  destruct (Js.truthy (body_agentId body)) as [agentId|];
    [|injection Ha as <- <-; injection Hb as <- <-; by eexists _, _].
  pose proof (executeInSandboxStream_settles
                (asProcessRequest body message agentId) w) as Hs.
  destruct (executeInSandboxStream env
              (asProcessRequest body message agentId) w)
    as [[[stream sb]|e|] w1]; [| |done];
    [|injection Ha as <- <-; injection Hb as <- <-; by eexists _, _].
  unfold newTransformStream, newReadable, pipeTo_finally_cleanup, bind, ret
    in Ha, Hb.
  cbn -[lookup insert] in Ha, Hb.
  destruct (streams w1 !! stream) as [s|] eqn:Hstream.
  - rewrite (lookup_app_l_Some _ _ _ _ Hstream) in Hb.
    injection Ha as <- <-; injection Hb as <- <-.
    eexists _, _. cbn. repeat split; done.
  - destruct ((streams w1 ++ _) !! stream) eqn:Hnew;
      injection Ha as <- <-; injection Hb as <- <-;
      eexists _, _; cbn; repeat split; done.
Qed.

End Conducts.

Section ConductsAtExamples.
Import Orchestrator Conduct.

(** X17 at a request that a healthy provider serves from a snapshot: the
    reply is 200 with the agent's response. *)
Lemma X17_process_handler_passes_on_the_outcome_witness :
  let env := Examples.healthyEnv (Some "snap_1") Examples.readyAtOnce in
  let body := Examples.bodyOf (Some "How do I reset my password?")
                (Some "sample") in
  exists timing duration,
    (postProcess env (Some body) (boot 0)).1
    = Returned {| status := 200;
                  payload := ProcessJson Examples.okReply timing duration |}
    ∧ total timing <= duration.
Proof.
  intros env body.
  pose proof (X17_process_handler_passes_on_the_outcome env body
                "How do I reset my password?" "sample" (boot 0)
                eq_refl eq_refl) as [_ H].
  assert (Hrun : exists timing,
            (executeInSandbox env
               (asProcessRequest body "How do I reset my password?" "sample")
               (boot 0)).1 = Returned (Examples.okReply, timing))
    by (eexists; vm_compute; reflexivity).
  destruct Hrun as [timing Hrun]. rewrite Hrun in H.
  destruct H as [Hout Htotal]. by eexists timing, _.
Defined.

(** X19 at a request served from a snapshot by an agent that is up after
    three refused connections. *)
Lemma X19_provisioning_order_witness :
  let env := Examples.healthyEnv (Some "snap_1") Examples.upAfterThree in
  let out := setupSandbox env Examples.sampleRequest None (boot 0) in
  out = (Returned ("sbx_1", "https://sbx-1.example", None), out.2)
  ∧ exists agentConfig agentBundle attempts,
      loadAgentConfig (env_host env) "sample" = inr agentConfig
      ∧ loadAgentBundle (env_host env) = inr agentBundle
      ∧ "https://sbx-1.example" = env_domain env
      ∧ (0 < attempts)%nat
      ∧ log out.2
        = log (boot 0)
          ++ Provisioned.setupOps (getSnapshotId (env_host env)) "sbx_1"
               (map fst (buildSandboxFiles agentBundle agentConfig))
          ++ replicate attempts
               (Fetch "GET" ("https://sbx-1.example" +:+ "/health")).
Proof.
  intros env out.
  assert (H : out = (Returned ("sbx_1", "https://sbx-1.example", None),
                     out.2)) by (vm_compute; reflexivity).
  split; [exact H|].
  exact (X19_provisioning_order env Examples.sampleRequest None (boot 0)
           "sbx_1" "https://sbx-1.example" None out.2 H).
Defined.

(** X20 on a host without snapshot, when [npm install] exits with 1. *)
Lemma X20_failed_install_ends_provisioning_witness :
  let env := GatewayExamples.installFails
               (Examples.healthyEnv None Examples.readyAtOnce) in
  let out := setupSandbox env Examples.sampleRequest None (boot 0) in
  out.1 = Thrown (NpmInstallFailed "npm ERR! ENOSPC")
  ∧ getSnapshotId (env_host env) = None
  ∧ exists sandbox paths,
      log out.2
      = log (boot 0)
        ++ [SandboxCreate None; WriteFiles sandbox paths;
            RunCommand sandbox "npm" ["install"; "--production"] false;
            ReadStderr sandbox].
Proof.
  intros env out.
  assert (H : out.1 = Thrown (NpmInstallFailed "npm ERR! ENOSPC"))
    by (vm_compute; reflexivity).
  split; [exact H|].
  destruct (X20_failed_install_ends_provisioning env Examples.sampleRequest
              None (boot 0) "npm ERR! ENOSPC" H) as (Hsnap & _ & _ & Hlog).
  split; [exact Hsnap|exact Hlog].
Defined.

(** X21 when the agent answers 503. *)
Lemma X21_agent_error_reply_is_reported_witness :
  let env := GatewayExamples.agentOverloaded
               (Examples.healthyEnv (Some "snap_1") Examples.readyAtOnce) in
  let out := executeInSandbox env Examples.sampleRequest (boot 0) in
  out.1 = Thrown (AgentProcessRequestFailed 503 "overloaded")
  ∧ exists sandbox url timing w1,
      setupSandbox env Examples.sampleRequest (Some zeroTiming) (boot 0)
      = (Returned (sandbox, url, timing), w1)
      ∧ log out.2
        = log w1 ++ [Fetch "POST" (url +:+ "/process"); Stop sandbox].
Proof.
  intros env out.
  assert (H : out.1 = Thrown (AgentProcessRequestFailed 503 "overloaded"))
    by (vm_compute; reflexivity).
  split; [exact H|].
  exact (proj2 (X21_agent_error_reply_is_reported env Examples.sampleRequest
                  (boot 0) 503 "overloaded" H)).
Defined.

(** X22 when the agent answers 502 and the sandbox cannot be stopped: the
    error raised is that of [stop]. *)
Lemma X22_refused_stream_stops_then_raises_witness :
  let env := GatewayExamples.streamRefused
               (Examples.healthyEnv (Some "snap_1") Examples.readyAtOnce) in
  let out := executeInSandboxStream env Examples.sampleRequest (boot 0) in
  out.1 = Thrown (ProviderRejected "sandbox gone")
  ∧ stopCalls (log out.2) = 1%nat.
Proof.
  intros env out.
  set (setup := setupSandbox env Examples.sampleRequest None (boot 0)).
  assert (Hsetup : setup
                   = (Returned ("sbx_1", "https://sbx-1.example", None),
                      setup.2)) by (vm_compute; reflexivity).
  destruct (X22_refused_stream_stops_then_raises env Examples.sampleRequest
              (boot 0) setup.2 "sbx_1" "https://sbx-1.example" None 30
              {| sr_ok := false; sr_status := 502; sr_body := None;
                 sr_text := Resolves 2 "Bad Gateway" |}
              Hsetup eq_refl (or_introl eq_refl)) as [Hout Hlog].
  split; [exact Hout|].
  fold out in Hlog. rewrite Hlog. vm_compute. reflexivity.
Defined.

End ConductsAtExamples.

(** ** The snapshot file and the script that writes it *)

Section Snapshots.
Import Orchestrator SnapshotFile SnapshotText.

Lemma string_app_cons x (a b : string) :
  String x a +:+ b = String x (a +:+ b).
Proof. reflexivity. Qed.

Lemma string_app_assoc (a b c : string) : (a +:+ b) +:+ c = a +:+ (b +:+ c).
Proof.
  induction a as [|x a IH]; [done|]. by rewrite !string_app_cons, IH.
Qed.

Lemma string_app_nil_r (a : string) : a +:+ "" = a.
Proof. induction a as [|x a IH]; [done|]. by rewrite string_app_cons, IH. Qed.

Lemma rev_app_spec (a b : string) :
  String.rev_app a b = String.rev a +:+ b.
Proof.
  unfold String.rev. revert b.
  induction a as [|x a IH]; intros b; [done|].
  cbn. rewrite (IH (String x b)), (IH (String x "")).
  by rewrite string_app_assoc.
Qed.

Lemma rev_cons x (a : string) :
  String.rev (String x a) = String.rev a +:+ String x "".
Proof. unfold String.rev at 1. cbn. apply rev_app_spec. Qed.

Lemma rev_app_distr (a b : string) :
  String.rev (a +:+ b) = String.rev b +:+ String.rev a.
Proof.
  induction a as [|x a IH].
  - by rewrite string_app_nil_r.
  - by rewrite string_app_cons, !rev_cons, IH, string_app_assoc.
Qed.

Lemma rev_involutive (a : string) : String.rev (String.rev a) = a.
Proof.
  induction a as [|x a IH]; [done|].
  by rewrite rev_cons, rev_app_distr, IH.
Qed.

Lemma isBlank_app a b : isBlank (a +:+ b) = isBlank a && isBlank b.
Proof.
  induction a as [|x a IH]; [done|]. rewrite string_app_cons. cbn.
  rewrite IH. by destruct (Js.is_space x).
Qed.

Lemma isBlank_rev a : isBlank (String.rev a) = isBlank a.
Proof.
  induction a as [|x a IH]; [done|].
  rewrite rev_cons, isBlank_app, IH. cbn.
  destruct (Js.is_space x), (isBlank a); done.
Qed.

Lemma isToken_app a b : isToken (a +:+ b) = isToken a && isToken b.
Proof.
  induction a as [|x a IH]; [done|]. rewrite string_app_cons. cbn.
  rewrite IH. by rewrite andb_assoc.
Qed.

Lemma isToken_rev a : isToken (String.rev a) = isToken a.
Proof.
  induction a as [|x a IH]; [done|].
  rewrite rev_cons, isToken_app, IH. cbn.
  rewrite andb_true_r. apply andb_comm.
Qed.

(** Leading white space goes; a token stops the trimming. *)
Lemma trimStart_blank_token pre tok rest :
  isBlank pre = true -> isToken tok = true -> tok ≠ "" ->
  Js.trimStart (pre +:+ tok +:+ rest) = tok +:+ rest.
Proof.
  intros Hpre Htok Hne.
  induction pre as [|x pre IH].
  - destruct tok as [|c tok]; [done|].
    change ("" +:+ String c tok +:+ rest) with (String c (tok +:+ rest)).
    cbn in Htok |- *. by destruct (Js.is_space c).
  - rewrite string_app_cons. cbn in Hpre |- *.
    destruct (Js.is_space x); [|done]. by apply IH.
Qed.

Lemma rev_nonempty (a : string) : a ≠ "" -> String.rev a ≠ "".
Proof.
  destruct a as [|x a]; [done|]. intros _. rewrite rev_cons.
  by destruct (String.rev a).
Qed.

Lemma trim_padded pre tok post :
  isBlank pre = true -> isBlank post = true ->
  isToken tok = true -> tok ≠ "" ->
  Js.trim (pre +:+ tok +:+ post) = tok.
Proof.
  intros Hpre Hpost Htok Hne. unfold Js.trim.
  rewrite (trimStart_blank_token pre tok post Hpre Htok Hne).
  rewrite rev_app_distr.
  rewrite <- (string_app_nil_r (String.rev tok)).
  rewrite trimStart_blank_token.
  - by rewrite string_app_nil_r, rev_involutive.
  - by rewrite isBlank_rev.
  - by rewrite isToken_rev.
  - by apply rev_nonempty.
Qed.

Lemma trim_blank s : isBlank s = true -> Js.trim s = "".
Proof.
  intros Hs. unfold Js.trim.
  assert (Js.trimStart s = "") as ->; [|done].
  induction s as [|x s IH]; [done|].
  cbn in Hs |- *. destruct (Js.is_space x); [by apply IH|done].
Qed.

(** X24: the snapshot id survives the file.  An id that is a non-empty
    word of ASCII characters without white space is read back as it was
    saved, and also when the file pads it with white space, such as a final
    line break; a file of white space only counts as no snapshot. *)
Theorem X24_snapshot_id_round_trip (host : Host) (id pre post : string)
    (Hid : isToken id = true) (Hne : id ≠ "")
    (Hpre : isBlank pre = true) (Hpost : isBlank post = true) :
  getSnapshotId (saveSnapshotId id host) = Some id
  ∧ getSnapshotId (saveSnapshotId (pre +:+ id +:+ post) host) = Some id
  ∧ getSnapshotId (saveSnapshotId pre host) = None.
Proof.
  unfold getSnapshotId, saveSnapshotId. cbn [host_snapshotFile].
  rewrite (trim_padded pre id post Hpre Hpost Hid Hne).
  rewrite (trim_blank pre Hpre).
  pose proof (trim_padded "" id "" eq_refl eq_refl Hid Hne) as Hplain.
  change ("" +:+ id +:+ "") with (id +:+ "") in Hplain.
  rewrite string_app_nil_r in Hplain. rewrite Hplain.
  cbn. by destruct (decide (id = "")).
Qed.

End Snapshots.

Section SnapshotsAtExamples.
Import Orchestrator SnapshotFile SnapshotText.

(** X24 at the id [snap_1], saved as it is and with a final line break. *)
Lemma X24_snapshot_id_round_trip_witness :
  getSnapshotId (saveSnapshotId "snap_1" (Examples.sampleHost None))
  = Some "snap_1"
  ∧ getSnapshotId
      (saveSnapshotId ("" +:+ "snap_1" +:+ Js.nl) (Examples.sampleHost None))
    = Some "snap_1"
  ∧ getSnapshotId (saveSnapshotId "" (Examples.sampleHost None)) = None.
Proof.
  apply (X24_snapshot_id_round_trip (Examples.sampleHost None) "snap_1" ""
           Js.nl); [reflexivity|discriminate|reflexivity|reflexivity].
Defined.

End SnapshotsAtExamples.

Section Script.
Import Orchestrator SnapshotFile SnapshotScript.

#[local] Arguments stopCount : simpl never.

Lemma stopCount_app l1 l2 :
  stopCount (l1 ++ l2) = (stopCount l1 + stopCount l2)%nat.
Proof. unfold stopCount. by rewrite List.filter_app, length_app. Qed.

Ltac count_stops :=
  split; [rewrite ?stopCount_app; unfold stopCount; cbn; lia|].

(** The [try] block of the script: it stops nothing, it changes the
    snapshot file only when it succeeds, and then the file holds the id
    that the provider gave. *)
Lemma main_try_spec env st :
  stopCount (ops (main_try env st).2) = stopCount (ops st)
  ∧ match (main_try env st).1 with
    | inr _ =>
        exists id,
          s_install env = Ok 0
          ∧ s_snapshot env = Ok id
          ∧ host (main_try env st).2 = saveSnapshotId id (host st)
    | inl _ => host (main_try env st).2 = host st
    end.
Proof.
  unfold main_try, sbind, call, sret, sthrow, writeSnapshotFile.
  destruct (s_writeFiles env) as [[]|d1]; cbn [fst snd ops host];
    [|by count_stops].
  destruct (s_install env) as [code|d2]; cbn [fst snd ops host];
    [|by count_stops].
  destruct (decide (code = 0)) as [->|Hcode]; cbn [fst snd ops host].
  - destruct (s_global env) as [gcode|d3]; cbn [fst snd ops host];
      [|by count_stops].
    destruct (decide (gcode = 0)) as [->|Hg]; cbn [fst snd ops host].
    + destruct (s_snapshot env) as [id|d4]; cbn [fst snd ops host];
        count_stops; [by exists id|done].
    + destruct (s_globalStderr env) as [text|d5]; cbn [fst snd ops host];
        [|by count_stops].
      destruct (s_snapshot env) as [id|d4]; cbn [fst snd ops host];
        count_stops; [by exists id|done].
  - destruct (s_installStderr env) as [text|d6]; cbn [fst snd ops host];
      by count_stops.
Qed.

(** X25: the snapshot script either saves or stops.  When the script
    succeeds, dependencies were installed with exit code zero, the file
    holds the id of the snapshot that was taken, and the script itself
    stopped nothing; when it fails after the sandbox was created, the
    snapshot file is untouched, the sandbox was stopped exactly once, as the
    last operation, and the error is the one of the failed step even when
    stopping fails too; when the sandbox could not be created, nothing else
    was attempted. *)
Theorem X25_snapshot_script_saves_or_stops (env : ScriptEnv)
    (st : ScriptState) :
  match (main env st).1 with
  | inr _ =>
      stopCount (ops (main env st).2) = stopCount (ops st)
      ∧ s_install env = Ok 0
      ∧ exists id,
          s_snapshot env = Ok id
          ∧ host (main env st).2 = saveSnapshotId id (host st)
  | inl e =>
      host (main env st).2 = host st
      ∧ match s_create env with
        | Fails detail =>
            e = Rejected detail ∧ ops (main env st).2 = ops st ++ [OpCreate]
        | Ok _ =>
            stopCount (ops (main env st).2) = (stopCount (ops st) + 1)%nat
            ∧ last (ops (main env st).2) = Some OpStop
            ∧ (main_try env {| ops := ops st ++ [OpCreate];
                               host := host st |}).1 = inl e
        end
  end.
Proof.
  unfold main, sbind. unfold call at 1 3 5 7 9 11 13.
  destruct (s_create env) as [[]|d0]; cbn [fst snd ops host]; [|done].
  pose proof (main_try_spec env {| ops := ops st ++ [OpCreate];
                                   host := host st |}) as [Hstops Hres].
  destruct (main_try env {| ops := ops st ++ [OpCreate]; host := host st |})
    as [[e|[]] st1]; cbn [fst snd ops host] in *.
  - unfold call.
    destruct (s_stop env); cbn [fst snd ops host];
      rewrite stopCount_app, last_snoc, Hstops, stopCount_app;
      (split; [done|]); (split; [unfold stopCount; cbn; lia|done]).
  - destruct Hres as (id & Hinstall & Hsnap & Hhost).
    rewrite Hstops, stopCount_app.
    split; [unfold stopCount; cbn; lia|]. by eauto.
Qed.

End Script.

(** ** What is loaded from the host and what is uploaded *)

Section Files.
Import Orchestrator Provisioned.

(** Induction over a directory tree, with the entries of a directory. *)
Lemma FsEntry_tree_ind (P : FsEntry -> Prop)
    (Hfile : forall name content, P (FsFile name content))
    (Hdir : forall name entries, Forall P entries -> P (FsDir name entries))
    (Hother : forall name, P (FsOther name)) :
  forall entry, P entry.
Proof.
  fix IH 1. intros [name content|name entries|name].
  - apply Hfile.
  - apply Hdir. induction entries as [|e entries IHentries].
    + constructor.
    + constructor; [apply IH|exact IHentries].
  - apply Hother.
Qed.

(** The recursive loader writes the regular files of the tree into the
    record, in the order of the listing, but for the path [__proto__]. *)
Lemma loadSkillsRecursive_filesOf entry :
  forall relativeDir skills,
    loadSkillsRecursive relativeDir entry skills
    = fold_left (fun acc kv => <[kv.1 := kv.2]> acc)
        (ownKeys (filesOf relativeDir entry)) skills.
Proof.
  induction entry as [name content|name entries IH|name]
    using FsEntry_tree_ind; intros relativeDir skills; [|
    |done].
  - unfold ownKeys. cbn [loadSkillsRecursive filesOf List.filter fst].
    destruct (decide (relativeDir +:+ name = "__proto__")) as [Heq|Hne].
    + by rewrite bool_decide_eq_true_2.
    + by rewrite bool_decide_eq_false_2.
  - cbn [loadSkillsRecursive filesOf].
    revert skills.
    induction IH as [|e entries He _ IHentries]; intros skills; [done|].
    cbn [fold_left flat_map]. unfold ownKeys in *.
    rewrite List.filter_app, fold_left_app, He. apply IHentries.
Qed.

Lemma loadSkills_entries entries :
  forall relativeDir skills,
    fold_left (fun acc e => loadSkillsRecursive relativeDir e acc) entries
      skills
    = fold_left (fun acc kv => <[kv.1 := kv.2]> acc)
        (ownKeys (flat_map (filesOf relativeDir) entries)) skills.
Proof.
  induction entries as [|e entries IH]; intros relativeDir skills; [done|].
  cbn [fold_left flat_map]. rewrite loadSkillsRecursive_filesOf, IH.
  unfold ownKeys. by rewrite List.filter_app, fold_left_app.
Qed.

Lemma ownKeys_elem (files : list (string * string)) path content :
  (path, content) ∈ ownKeys files
  ↔ (path, content) ∈ files ∧ path ≠ "__proto__".
Proof.
  unfold ownKeys. rewrite !list_elem_of_In, List.filter_In. cbn [fst].
  rewrite negb_true_iff, bool_decide_eq_false. done.
Qed.

Lemma fold_insert_lookup (files : list (string * string))
    (skills : gmap string string) path :
  (forall content,
     fold_left (fun acc kv => <[kv.1 := kv.2]> acc) files skills !! path
     = Some content ->
     (path, content) ∈ files ∨ skills !! path = Some content)
  ∧ (path ∈ files.*1 ∨ is_Some (skills !! path) ->
     is_Some (fold_left (fun acc kv => <[kv.1 := kv.2]> acc) files skills
                !! path)).
Proof.
  revert skills. induction files as [|[k v] files IH]; intros skills.
  - cbn. split; [by auto|]. intros [H|H]; [by apply elem_of_nil in H|done].
  - cbn [fold_left fst snd]. destruct (IH (<[k := v]> skills)) as [IH1 IH2].
    split.
    + intros content Hc. destruct (IH1 content Hc) as [Hin|Hlook].
      * left. by apply elem_of_cons; right.
      * destruct (decide (k = path)) as [->|Hne].
        -- rewrite lookup_insert_eq in Hlook. injection Hlook as ->.
           left. by apply elem_of_cons; left.
        -- rewrite lookup_insert_ne in Hlook by done. by right.
    + intros Hin. apply IH2.
      destruct (decide (k = path)) as [->|Hne].
      * right. rewrite lookup_insert_eq. by eexists.
      * destruct Hin as [Hin|Hsome].
        -- left. cbn in Hin. apply elem_of_cons in Hin as [->|Hin]; done.
        -- right. by rewrite lookup_insert_ne.
Qed.

(** X26: the skills of an agent are the regular files below its skills
    directory.  When the configuration of an agent loads, a path is a key
    of [skills] exactly when a regular file lies at that path, relative
    to the skills directory, at whatever depth, and the path is not
    [__proto__], which a plain object does not take as a key; the content
    under a key is the content of such a file; directories and entries that
    are neither file nor directory give no key; and without a skills
    directory there are no skills. *)
Theorem X26_skills_are_the_regular_files (host : Host) (agentId : string)
    (bundle : AgentConfigBundle)
    (Hload : loadAgentConfig host agentId = inr bundle) :
  exists agentDir,
    host_agentConfigs host !! agentId = Some agentDir
    ∧ (forall path,
         is_Some (skills bundle !! path)
         ↔ path ∈ (flat_map (filesOf "")
                     (default [] (dir_skills agentDir))).*1
           ∧ path ≠ "__proto__")
    ∧ (forall path content,
         skills bundle !! path = Some content ->
         (path, content)
         ∈ flat_map (filesOf "") (default [] (dir_skills agentDir))).
Proof.
  unfold loadAgentConfig in Hload.
  destruct (host_agentConfigs host !! agentId) as [agentDir|];
    [|discriminate].
  destruct (dir_claudeMd agentDir); [|discriminate].
  destruct (dir_agentConfigJson agentDir) as [[pretty|detail]|];
    try discriminate.
  injection Hload as <-. exists agentDir. split; [done|].
  cbn [skills].
  assert (Hskills :
    match dir_skills agentDir with
    | Some entries =>
        fold_left (fun acc e => loadSkillsRecursive "" e acc) entries ∅
    | None => ∅
    end
    = fold_left (fun acc kv => <[kv.1 := kv.2]> acc)
        (ownKeys (flat_map (filesOf "") (default [] (dir_skills agentDir))))
        (∅ : gmap string string)).
  { destruct (dir_skills agentDir) as [entries|]; [|done].
    apply loadSkills_entries. }
  rewrite Hskills.
  set (files := flat_map (filesOf "") (default [] (dir_skills agentDir))).
  split.
  - intros path.
    destruct (fold_insert_lookup (ownKeys files) ∅ path) as [H1 H2].
    split.
    + intros [content Hc]. destruct (H1 content Hc) as [Hin|Hempty].
      * apply ownKeys_elem in Hin as [Hin Hne]. split; [|done].
        apply list_elem_of_fmap. by exists (path, content).
      * by rewrite lookup_empty in Hempty.
    + intros [Hin Hne]. apply H2. left.
      apply list_elem_of_fmap in Hin as ([k v] & -> & Hin).
      apply list_elem_of_fmap. exists (k, v). split; [done|].
      by apply ownKeys_elem.
  - intros path content Hc.
    destruct (fold_insert_lookup (ownKeys files) ∅ path) as [H1 _].
    destruct (H1 content Hc) as [Hin|Hempty].
    + by apply ownKeys_elem in Hin as [Hin _].
    + by rewrite lookup_empty in Hempty.
Qed.

(** X27: what is uploaded.  The files of [buildSandboxFiles] have distinct
    paths; they are the server bundle, the instruction document, the
    configuration and the package manifest under their fixed names, and
    every skill under [.claude/skills/] followed by its key, with its
    content. *)
Theorem X27_uploaded_files_are_distinct (agentBundle : string)
    (agentConfig : AgentConfigBundle) :
  NoDup (map fst (buildSandboxFiles agentBundle agentConfig))
  ∧ forall path content,
      (path, content) ∈ buildSandboxFiles agentBundle agentConfig
      ↔ (path, content)
          ∈ [("server.mjs", agentBundle);
             ("CLAUDE.md", claudeMd agentConfig);
             ("agent-config.json", agentConfigPretty agentConfig);
             ("package.json", packageJson)]
        ∨ exists relativePath,
            path = ".claude/skills/" +:+ relativePath
            ∧ skills agentConfig !! relativePath = Some content.
Proof.
  unfold buildSandboxFiles. split.
  - rewrite map_app. apply NoDup_app. split; [|split].
    + apply (bool_decide_unpack _). by vm_compute.
    + intros path Hfixed Hskill. rewrite map_map in Hskill.
      apply list_elem_of_fmap in Hskill as ([k v] & -> & _).
      cbn [map fst] in Hfixed.
      repeat (apply elem_of_cons in Hfixed as [Hfixed|Hfixed];
              [discriminate Hfixed|]).
      by apply elem_of_nil in Hfixed.
    + rewrite map_map.
      change (map (λ x : string * string, (".claude/skills/" +:+ x.1, x.2).1)
                (map_to_list (skills agentConfig)))
        with ((String.append ".claude/skills/" ∘ fst)
                <$> map_to_list (skills agentConfig)).
      rewrite list_fmap_compose. apply NoDup_fmap_2; [apply _|].
      apply NoDup_fst_map_to_list.
  - intros path content. rewrite elem_of_app. split.
    + intros [Hfixed|Hskill]; [by left|right].
      apply list_elem_of_fmap in Hskill as ([k v] & [= -> ->] & Hin).
      exists k. split; [done|]. by apply elem_of_map_to_list in Hin.
    + intros [Hfixed|(rel & -> & Hlook)]; [by left|right].
      apply list_elem_of_fmap. exists (rel, content). split; [done|].
      by apply elem_of_map_to_list.
Qed.

End Files.

Section FilesAtExamples.
Import Orchestrator Provisioned.

(** X26 at an agent whose skills directory holds a file named [__proto__]
    next to a skill in a sub-directory: the one key is the skill. *)
Lemma X26_skills_are_the_regular_files_witness :
  exists bundle,
    loadAgentConfig GatewayExamples.notesHost "notes" = inr bundle
    ∧ (forall path,
         is_Some (skills bundle !! path)
         ↔ path ∈ ["__proto__"; "billing/SKILL.md"] ∧ path ≠ "__proto__")
    ∧ skills bundle !! "billing/SKILL.md" = Some "refunds"
    ∧ skills bundle !! "__proto__" = None.
Proof.
  destruct (loadAgentConfig GatewayExamples.notesHost "notes")
    as [e|bundle] eqn:Hload; [by vm_compute in Hload|].
  exists bundle. split; [done|].
  destruct (X26_skills_are_the_regular_files GatewayExamples.notesHost
              "notes" bundle Hload) as (agentDir & Hdir & Hkeys & _).
  vm_compute in Hdir. injection Hdir as <-. split; [exact Hkeys|].
  vm_compute in Hload. injection Hload as <-. by vm_compute.
Defined.

End FilesAtExamples.

(** ** The guides of a reply, and the timing record *)

Section Guides.
Import Agent.

Lemma filter_Read (tools : list string) :
  List.filter (fun t => bool_decide (t = "Read")) tools
  = replicate
      (length (List.filter (fun t => bool_decide (t = "Read")) tools))
      "Read".
Proof.
  induction tools as [|t tools IH]; [done|]. cbn.
  destruct (bool_decide_reflect (t = "Read")) as [->|]; [|exact IH].
  cbn. by rewrite <- IH.
Qed.

(** X28: the guides of a reply without structured output.  When no
    message of the run carries a structured output and the run is not
    rejected, the reply has no metadata and its [guidesUsed] holds the tool
    name [Read], once for each use of that tool in the run, and nothing
    else: the entries count the reads and do not name what was read. *)
Theorem X28_guides_fallback_counts_reads (onDisk : AgentConfig)
    (query : QueryOptions -> SdkRun) (input : ProcessMessageInput)
    (p : Process)
    (Hrun : forall o,
       sdk_rejects (query o) = None
       ∧ noStructuredOutput (sdk_messages (query o))) :
  exists result o,
    (processMessage onDisk query input p).1 = Returned result
    ∧ last (queries (processMessage onDisk query input p).2) = Some o
    ∧ res_metadata result = None
    ∧ res_guidesUsed result
      = replicate
          (length (List.filter (fun t => bool_decide (t = "Read"))
                     (toolsOf (sdk_messages (query o)))))
          "Read".
Proof.
  unfold processMessage.
  destruct (getAgentConfig onDisk p) as [config p0].
  match goal with
  | |- context [query ?opts] => set (o := opts)
  end.
  destruct (Hrun o) as [Hrej Hno]. rewrite Hrej.
  match goal with
  | |- context [runLoop ?c ?msgs (?l, ?ss)] =>
      destruct (runLoop_locals c msgs l ss Hno eq_refl) as [Hmd Htools];
      destruct (runLoop c msgs (l, ss)) as [loc sessions]
  end.
  cbn [fst] in Hmd, Htools. cbn in Htools.
  eexists. exists o. cbn.
  rewrite last_snoc, Hmd, Htools.
  split; [reflexivity|]. split; [reflexivity|]. split; [reflexivity|].
  cbn. apply filter_Read.
Qed.

End Guides.

Section GuidesAtExamples.
Import Agent.

(** X28 at a run that reads once. *)
Lemma X28_guides_fallback_counts_reads_witness :
  exists result,
    (processMessage defaultAgentConfig (Examples.bareQuery "sess-1")
       (Examples.helloInput None) processStart).1 = Returned result
    ∧ res_metadata result = None
    ∧ res_guidesUsed result = ["Read"].
Proof.
  destruct (X28_guides_fallback_counts_reads defaultAgentConfig
              (Examples.bareQuery "sess-1") (Examples.helloInput None)
              processStart) as (result & o & Hret & _ & Hmd & Hguides).
  - intros o. split; [reflexivity|repeat constructor].
  - exists result. split; [exact Hret|]. split; [exact Hmd|exact Hguides].
Defined.

End GuidesAtExamples.

Section Bookkeeping.
Import Orchestrator.

Variable env : Env.

#[local] Arguments pollHealth : simpl never.

(** X29: the bookkeeping of the timing has no part in provisioning.
    [setupSandbox] with a timing record to fill, as [executeInSandbox]
    calls it, and without one, as [executeInSandboxStream] calls it, ask
    the same of the provider, leave the same world, and end alike: with the
    same sandbox and domain, or with the same error. *)
Theorem X29_timing_does_not_steer_provisioning (request : ProcessRequest)
    (timing : ExecutionTiming) (w : World) :
  (setupSandbox env request (Some timing) w).2
  = (setupSandbox env request None w).2
  ∧ match (setupSandbox env request (Some timing) w).1,
          (setupSandbox env request None w).1 with
    | Returned (sandbox, url, filled), Returned (sandbox', url', none) =>
        sandbox = sandbox' ∧ url = url' ∧ none = None
        ∧ exists t, filled = Some t
                    ∧ agentProcess t = agentProcess timing
                    ∧ total t = total timing
    | Thrown e, Thrown e' => e = e'
    | OutOfFuel, OutOfFuel => True
    | _, _ => False
    end.
Proof.
  unfold setupSandbox.
  unfold bind, liftEither, hostWork, dateNow, await, ret, throw.
  destruct (loadAgentConfig (env_host env) (req_agentId request)) as [e|cfg];
    [done|].
  destruct (loadAgentBundle (env_host env)) as [e|bundle]; [done|].
  destruct (env_create env) as [dc sbx|dc d1]; [|done].
  destruct (env_writeFiles env) as [dw []|dw d2]; [|done].
  destruct (getSnapshotId (env_host env)) as [snap|].
  - destruct (env_start env) as [ds []|ds d4]; [|done].
    cbv beta iota zeta.
    match goal with
    | |- context [pollHealth ?env ?u ?t ?w0] =>
        destruct (pollHealth env u t w0) as [[[]|e'|] w']
    end; cbn; try done.
    split; [done|]. repeat (split; [done|]). by eexists.
  - destruct (env_install env) as [di code|di d3]; [|done].
    destruct (decide (code = 0)) as [->|];
      [|by destruct (env_installStderr env)].
    destruct (env_start env) as [ds []|ds d4]; [|done].
    cbv beta iota zeta.
    match goal with
    | |- context [pollHealth ?env ?u ?t ?w0] =>
        destruct (pollHealth env u t w0) as [[[]|e'|] w']
    end; cbn; try done.
    split; [done|]. repeat (split; [done|]). by eexists.
Qed.

End Bookkeeping.
